(** * fingertips_py: request construction, response normalisation and merging

    A shallow embedding of [fingertips_py/api_calls.py], [metadata.py] and
    [retrieve_data.py], and the properties of the normaliser, the metadata
    aggregator and the data merge engine that the specification states.

    Conventions of the embedding:
    - Python values are the type [pyval]; text is ASCII ([string]); JSON
      numbers are integers (identifiers), fractional numbers are not
      modelled.
    - A Python [dict] is an insertion-ordered association list whose keys
      are compared as Python compares hashable keys ([True == 1]).
    - The network, the JSON parser and the CSV parser are the record
      [World]; every call that performs a GET is written to a request log.
    - A function that can raise returns a [result]; a function that
      performs requests returns a [result] together with its log ([M]). *)

From Stdlib Require Import String Ascii List ZArith Lia Bool DecimalString Sorted.
Import ListNotations.
Open Scope list_scope.
Open Scope string_scope.
Set Warnings "-register-all".

(** ** Python values *)

Inductive pyval : Type :=
| PNone
| PBool (b : bool)
| PInt (z : Z)
| PStr (s : string)
| PList (l : list pyval)
| PDict (d : list (pyval * pyval)).

Definition pydict := list (pyval * pyval).

(** Exceptions raised by the code or by the libraries it calls.
    [urllib.error.HTTPError] is a subclass of [urllib.error.URLError];
    [SSLError] is [requests.exceptions.SSLError]. *)
Inductive exn : Type :=
| HTTPError (code : Z)
| URLError
| SSLError
| NameError (msg : string)
| UnboundLocalError (name : string)
| Exception (msg : string)
| KeyError (k : pyval)
| IndexError
| TypeError
| AttributeError
| ValueError
| OtherError (name : string).

Inductive result (A : Type) : Type :=
| Ok (a : A)
| Raise (e : exn).
Arguments Ok {A} a.
Arguments Raise {A} e.

Definition isinstance_HTTPError (e : exn) : bool :=
  match e with HTTPError _ => true | _ => false end.

Definition isinstance_URLError (e : exn) : bool :=
  match e with HTTPError _ | URLError => true | _ => false end.

Definition isinstance_SSLError (e : exn) : bool :=
  match e with SSLError => true | _ => false end.

(** ** Text *)

Definition str_of_int (z : Z) : string := NilZero.string_of_int (Z.to_int z).

Fixpoint join (sep : string) (l : list string) : string :=
  match l with
  | [] => ""
  | [s] => s
  | s :: rest => s ++ sep ++ join sep rest
  end.

(** [str.lower()] on ASCII text. *)
Definition lower_ascii (c : ascii) : ascii :=
  let n := nat_of_ascii c in
  if andb (65 <=? n)%nat (n <=? 90)%nat then ascii_of_nat (n + 32) else c.

Fixpoint lower (s : string) : string :=
  match s with
  | EmptyString => EmptyString
  | String c rest => String (lower_ascii c) (lower rest)
  end.

(** [needle in hay] for two strings. *)
Fixpoint contains (needle hay : string) : bool :=
  if prefix needle hay then true
  else match hay with
       | EmptyString => false
       | String _ rest => contains needle rest
       end.

Fixpoint mem_ascii (c : ascii) (s : string) : bool :=
  match s with
  | EmptyString => false
  | String d rest => if Ascii.eqb c d then true else mem_ascii c rest
  end.

Definition chars (s : string) : list string :=
  map (fun c => String c EmptyString) (list_ascii_of_string s).

Definition quote1 : ascii := ascii_of_nat 39.
Definition quote2 : ascii := ascii_of_nat 34.
Definition backslash : ascii := ascii_of_nat 92.

Definition hex_digit (n : nat) : ascii :=
  if (n <? 10)%nat then ascii_of_nat (48 + n) else ascii_of_nat (87 + n).

(** [repr] of a string: single quotes unless the text holds a single quote
    and no double quote; the quote, the backslash and control characters
    are escaped. *)
Definition repr_char (q c : ascii) : string :=
  let n := nat_of_ascii c in
  if orb (Ascii.eqb c q) (Ascii.eqb c backslash) then String backslash (String c EmptyString)
  else if (n =? 9)%nat then String backslash "t"
  else if (n =? 10)%nat then String backslash "n"
  else if (n =? 13)%nat then String backslash "r"
  else if orb (n <? 32)%nat (n =? 127)%nat
       then String backslash (String "x" (String (hex_digit (n / 16)) (String (hex_digit (n mod 16)) EmptyString)))
  else String c EmptyString.

Definition repr_str (s : string) : string :=
  let q := if andb (mem_ascii quote1 s) (negb (mem_ascii quote2 s)) then quote2 else quote1 in
  String q (String.concat "" (map (repr_char q) (list_ascii_of_string s)) ++ String q EmptyString).

Fixpoint py_repr (v : pyval) : string :=
  match v with
  | PNone => "None"
  | PBool true => "True"
  | PBool false => "False"
  | PInt z => str_of_int z
  | PStr s => repr_str s
  | PList l => "[" ++ join ", " (map py_repr l) ++ "]"
  | PDict d =>
      "{" ++ join ", " (map (fun kv => match kv with
                                       | (k, x) => py_repr k ++ ": " ++ py_repr x
                                       end) d) ++ "}"
  end.

(** [str(v)], which is also what an f-string and [str.format] insert. *)
Definition py_str (v : pyval) : string :=
  match v with
  | PStr s => s
  | _ => py_repr v
  end.

(** Truth value of a Python object, as [if x:] and [not x] take it. *)
Definition truthy (v : pyval) : bool :=
  match v with
  | PNone => false
  | PBool b => b
  | PInt z => negb (z =? 0)%Z
  | PStr s => negb (s =? "")
  | PList l => match l with [] => false | _ => true end
  | PDict d => match d with [] => false | _ => true end
  end.

Definition is_None (v : pyval) : bool :=
  match v with PNone => true | _ => false end.

Definition isinstance_list (v : pyval) : bool :=
  match v with PList _ => true | _ => false end.

Definition isinstance_str (v : pyval) : bool :=
  match v with PStr _ => true | _ => false end.

(** [isinstance(v, int)]: [bool] is a subclass of [int]. *)
Definition isinstance_int (v : pyval) : bool :=
  match v with PInt _ | PBool _ => true | _ => false end.

(** [type(v) == int]: exact type, a [bool] is not an [int] here. *)
Definition type_is_int (v : pyval) : bool :=
  match v with PInt _ => true | _ => false end.

(** ** Dictionaries *)

Definition hashable (v : pyval) : bool :=
  match v with PList _ | PDict _ => false | _ => true end.

(** Equality of two hashable keys: numbers and booleans compare by value. *)
Definition key_eqb (a b : pyval) : bool :=
  match a, b with
  | PNone, PNone => true
  | PStr s, PStr t => (s =? t)
  | PInt x, PInt y => (x =? y)%Z
  | PInt x, PBool c => (x =? (if c then 1 else 0))%Z
  | PBool c, PInt y => ((if c then 1 else 0) =? y)%Z
  | PBool c, PBool e => Bool.eqb c e
  | _, _ => false
  end.

Fixpoint dict_lookup (d : pydict) (k : pyval) : option pyval :=
  match d with
  | [] => None
  | (k', x) :: rest => if key_eqb k' k then Some x else dict_lookup rest k
  end.

Definition dict_has (d : pydict) (k : pyval) : bool :=
  match dict_lookup d k with Some _ => true | None => false end.

Definition dict_remove (d : pydict) (k : pyval) : pydict :=
  filter (fun kv => negb (key_eqb (fst kv) k)) d.

(** [d[k] = x]: an existing key keeps its place (and its key object), a new
    key goes to the end. *)
Fixpoint dict_set (d : pydict) (k x : pyval) : pydict :=
  match d with
  | [] => [(k, x)]
  | (k', x') :: rest =>
      if key_eqb k' k then (k', x) :: rest else (k', x') :: dict_set rest k x
  end.

Definition dict_keys (d : pydict) : list pyval := map fst d.
Definition dict_values (d : pydict) : list pyval := map snd d.

(** [obj.get(k)] *)
Definition py_get (obj k : pyval) : result pyval :=
  match obj with
  | PDict d =>
      if hashable k
      then Ok (match dict_lookup d k with Some x => x | None => PNone end)
      else Raise TypeError
  | _ => Raise AttributeError
  end.

(** [l.pop(i)] on a list: a negative index counts from the end. *)
Definition list_pop (l : list pyval) (i : Z) : result (pyval * pyval) :=
  let n := Z.of_nat (length l) in
  let j := if (i <? 0)%Z then (i + n)%Z else i in
  if (0 <=? j)%Z && (j <? n)%Z
  then match nth_error l (Z.to_nat j) with
       | Some x => Ok (x, PList (firstn (Z.to_nat j) l ++ skipn (S (Z.to_nat j)) l)%list)
       | None => Raise IndexError
       end
  else Raise IndexError.

(** [obj.pop(k)]: the value and the object without the key. *)
Definition py_pop (obj k : pyval) : result (pyval * pyval) :=
  match obj with
  | PDict d =>
      if hashable k
      then match dict_lookup d k with
           | Some x => Ok (x, PDict (dict_remove d k))
           | None => Raise (KeyError k)
           end
      else Raise TypeError
  | PList l =>
      match k with
      | PInt i => list_pop l i
      | PBool b => list_pop l (if b then 1 else 0)
      | _ => Raise TypeError
      end
  | _ => Raise AttributeError
  end.

(** [d[k] = x] on a dictionary under construction. *)
Definition py_setitem (d : pydict) (k x : pyval) : result pydict :=
  if hashable k then Ok (dict_set d k x) else Raise TypeError.

(** [obj.keys()] and [obj.values()] *)
Definition py_keys (obj : pyval) : result (list pyval) :=
  match obj with
  | PDict d => Ok (dict_keys d)
  | _ => Raise AttributeError
  end.

Definition py_values (obj : pyval) : result (list pyval) :=
  match obj with
  | PDict d => Ok (dict_values d)
  | _ => Raise AttributeError
  end.

(** [for x in obj]: the sequence of values the loop sees. *)
Definition py_iter (obj : pyval) : result (list pyval) :=
  match obj with
  | PList l => Ok l
  | PStr s => Ok (map PStr (chars s))
  | PDict d => Ok (dict_keys d)
  | _ => Raise TypeError
  end.

(** [obj[0]] *)
Definition py_first (obj : pyval) : result pyval :=
  match obj with
  | PList l => match l with x :: _ => Ok x | [] => Raise IndexError end
  | PStr s => match chars s with c :: _ => Ok (PStr c) | [] => Raise IndexError end
  | PDict d => match dict_lookup d (PInt 0) with
               | Some x => Ok x
               | None => Raise (KeyError (PInt 0))
               end
  | _ => Raise TypeError
  end.

(** [s.lower()] where [s] came out of a JSON object. *)
Definition py_lower (v : pyval) : result string :=
  match v with
  | PStr s => Ok (lower s)
  | _ => Raise AttributeError
  end.

(** ** Tables

    A [pandas.DataFrame] as the code uses it: named columns, and rows that
    carry their index label.  A cell a row does not have reads as NaN. *)

Inductive cell : Type :=
| CStr (s : string)
| CInt (z : Z)
| CNaN.

Definition row := list (string * cell).

Record DataFrame : Type := mkDF {
  columns : list string;
  rows : list (Z * row)
}.

(** [pd.DataFrame()] *)
Definition empty_frame : DataFrame := mkDF [] [].

Definition nrows (df : DataFrame) : nat := length (rows df).
Definition index (df : DataFrame) : list Z := map fst (rows df).

Definition has_column (df : DataFrame) (c : string) : bool :=
  existsb (String.eqb c) (columns df).

Fixpoint row_get (r : row) (c : string) : cell :=
  match r with
  | [] => CNaN
  | (c', x) :: rest => if c' =? c then x else row_get rest c
  end.

(** [pd.concat([a, b])]: the rows of [a] then the rows of [b], each with
    the index label it had; the columns of [a], then those only [b] has. *)
Definition pd_concat (a b : DataFrame) : DataFrame :=
  mkDF (columns a ++ filter (fun c => negb (has_column a c)) (columns b))%list
       (rows a ++ rows b)%list.

(** A cell against a value given by the caller (area codes are text). *)
Definition cell_eqb (c : cell) (v : pyval) : bool :=
  match c, v with
  | CStr s, PStr t => (s =? t)
  | CInt x, PInt y => (x =? y)%Z
  | _, _ => false
  end.

(** [df.loc[df[col].isin(values)]] *)
Definition loc_isin (df : DataFrame) (col : string) (values : list pyval)
  : result DataFrame :=
  if has_column df col
  then Ok (mkDF (columns df)
                (filter (fun ir => existsb (cell_eqb (row_get (snd ir) col)) values)
                        (rows df)))
  else Raise (KeyError (PStr col)).

(** [df.loc[df[col] == value]] *)
Definition loc_eq (df : DataFrame) (col : string) (value : pyval)
  : result DataFrame :=
  if has_column df col
  then Ok (mkDF (columns df)
                (filter (fun ir => cell_eqb (row_get (snd ir) col) value) (rows df)))
  else Raise (KeyError (PStr col)).

Fixpoint renumber (n : Z) (name : string) (rs : list (Z * row)) : list (Z * row) :=
  match rs with
  | [] => []
  | (old, r) :: rest => (n, (name, CInt old) :: r) :: renumber (n + 1) name rest
  end.

(** [df.reset_index()]: a new index 0, 1, 2, ...; the old labels become a
    new first column, named [index], or [level_0] when [index] is taken;
    a [ValueError] when that name is taken too. *)
Definition reset_index (df : DataFrame) : result DataFrame :=
  let name := if has_column df "index" then "level_0" else "index" in
  if has_column df name then Raise ValueError
  else Ok (mkDF (name :: columns df) (renumber 0 name (rows df))).

(** ** Transport

    The outside world: the two HTTP clients and the two parsers. *)

Record World : Type := mkWorld {
  (** [requests.get(url, verify=v)], then the body decoded as UTF-8 *)
  requests_get : bool -> string -> result string;
  (** [json.loads(text)] *)
  json_loads : string -> result pyval;
  (** [pd.read_csv(url)]: urllib opens the URL with verification *)
  read_csv_url : string -> result DataFrame;
  (** [pd.read_csv(StringIO(text))] *)
  read_csv_text : string -> result DataFrame
}.

Inductive request : Type :=
| RequestsGet (verify : bool) (url : string)
| ReadCsv (url : string).

(** A computation that issues requests: its outcome and, in order, the
    requests it issued. *)
Definition M (A : Type) : Type := (result A * list request)%type.

Definition ret {A} (a : A) : M A := (Ok a, []).
Definition raise {A} (e : exn) : M A := (Raise e, []).
Definition lift {A} (r : result A) : M A := (r, []).

Definition bind {A B} (m : M A) (k : A -> M B) : M B :=
  match m with
  | (Ok a, l) => let (r, l') := k a in (r, (l ++ l')%list)
  | (Raise e, l) => (Raise e, l)
  end.

Notation "x <- m ;; k" := (bind m (fun x => k))
  (at level 61, m at next level, right associativity).
Notation "' pat <- m ;; k" := (bind m (fun x => match x with pat => k end))
  (at level 61, pat pattern, m at next level, right associativity).

(** [try: body  except ...: handler]; the handler says which exceptions it
    catches ([None]: not caught, the exception goes on). *)
Definition try_except {A} (body : M A) (handler : exn -> option (M A)) : M A :=
  match body with
  | (Ok a, l) => (Ok a, l)
  | (Raise e, l) =>
      match handler e with
      | Some h => let (r, l') := h in (r, (l ++ l')%list)
      | None => (Raise e, l)
      end
  end.

Definition outcome {A} (m : M A) : result A := fst m.
Definition log {A} (m : M A) : list request := snd m.

(** [for x in xs: acc = body(acc, x)] *)
Fixpoint for_each {A S} (xs : list A) (body : S -> A -> M S) (acc : S) : M S :=
  match xs with
  | [] => ret acc
  | x :: rest => acc' <- body acc x ;; for_each rest body acc'
  end.

Section Requests.
Variable w : World.

Definition http_get (verify : bool) (url : string) : M string :=
  (requests_get w verify url, [RequestsGet verify url]).

Definition pd_read_csv (url : string) : M DataFrame :=
  (read_csv_url w url, [ReadCsv url]).
End Requests.

(** Sequencing of steps that can raise but issue no request. *)
Definition rbind {A B} (r : result A) (k : A -> result B) : result B :=
  match r with
  | Ok a => k a
  | Raise e => Raise e
  end.

Notation "x <~ r ;; k" := (rbind r (fun x => k))
  (at level 61, r at next level, right associativity).
Notation "' pat <~ r ;; k" := (rbind r (fun x => match x with pat => k end))
  (at level 61, pat pattern, r at next level, right associativity).

Fixpoint fold_r {A S} (xs : list A) (body : S -> A -> result S) (acc : S) : result S :=
  match xs with
  | [] => Ok acc
  | x :: rest => acc' <~ body acc x ;; fold_r rest body acc'
  end.

Fixpoint map_r {A B} (f : A -> result B) (xs : list A) : result (list B) :=
  match xs with
  | [] => Ok []
  | x :: rest => y <~ f x ;; ys <~ map_r f rest ;; Ok (y :: ys)
  end.

(** The numbering of the replacement fields passed so far: none numbered
    yet, numbered automatically (with the index of the next one), or
    numbered by hand. *)
Inductive numbering : Type :=
| NotNumbered
| Automatic (next : nat)
| Manual.

(** Where the scan of a template stands: in the literal text; in the name
    of a replacement field, outside or inside square brackets; at the
    conversion character, after a [!]; after the conversion character; in
    the format specification, with [nested] braces open inside it.
    [plain] says that the field has no conversion and, so far, an empty
    specification. *)
Inductive scan : Type :=
| InText
| InName (name : string)
| InBrackets (name : string)
| AtConversion (name : string)
| AfterConversion (name : string)
| InSpec (name : string) (plain : bool) (nested : nat).

Definition snoc (s : string) (c : ascii) : string := s ++ String c EmptyString.

(** The part of a field name before the first [.] or [[]. *)
Fixpoint first_part (name : string) : string :=
  match name with
  | EmptyString => EmptyString
  | String c rest =>
      if (Ascii.eqb c "." || Ascii.eqb c "[")%bool then EmptyString
      else String c (first_part rest)
  end.

Definition digit_of (c : ascii) : option N :=
  let n := N_of_ascii c in
  if ((48 <=? n) && (n <=? 57))%N then Some (n - 48)%N else None.

(** The index that a field name denotes: [Ok (Some n)] for decimal digits,
    [Ok None] for any other name, which is then a keyword; a number beyond
    the largest index of a 64-bit platform is a [ValueError], raised as
    soon as the digits read so far exceed it. *)
Fixpoint get_integer (acc : N) (s : string) : result (option N) :=
  match s with
  | EmptyString => Ok (Some acc)
  | String c rest =>
      match digit_of c with
      | None => Ok None
      | Some dv =>
          if (9223372036854775807 <? acc * 10 + dv)%N then Raise ValueError
          else get_integer (acc * 10 + dv)%N rest
      end
  end.

Definition positional (args : list string) (n : N) : result string :=
  if (n <? N.of_nat (length args))%N
  then match nth_error args (N.to_nat n) with
       | Some a => Ok a
       | None => Raise IndexError
       end
  else Raise IndexError.

(** The text that replaces a field, and the numbering after it.  The field
    is looked up first: an empty name takes the next argument, digits take
    the argument of that index, and the two ways of numbering do not mix
    ([ValueError]); any other name is a keyword, and the call passes none
    ([KeyError] of the name); an index without an argument is an
    [IndexError].  A field that finds its argument is replaced by it when
    it is plain.  What [str.format] does with an attribute, an index, a
    conversion or a format specification applied to an argument found is
    not modelled: [OtherError] stands for it. *)
Definition replacement (nb : numbering) (args : list string) (name : string)
    (plain : bool) : result (string * numbering) :=
  let first := first_part name in
  found <~
    match first with
    | EmptyString =>
        match nb with
        | Manual => Raise ValueError
        | NotNumbered => a <~ positional args 0 ;; Ok (a, Automatic 1)
        | Automatic n => a <~ positional args (N.of_nat n) ;; Ok (a, Automatic (S n))
        end
    | _ =>
        index <~ get_integer 0 first ;;
        match index with
        | Some n =>
            match nb with
            | Automatic _ => Raise ValueError
            | _ => a <~ positional args n ;; Ok (a, Manual)
            end
        | None => Raise (KeyError (PStr first))
        end
    end ;;
  if plain && String.eqb first name then Ok found
  else Raise (OtherError "str.format").

(** [template.format(a, b, ...)] with positional arguments that are text,
    read one character at a time as CPython's parser reads it.  A doubled
    brace is a literal brace, a single [}] in the text and a field that
    the template does not close are [ValueError]s; errors are raised in
    the order of the template. *)
Fixpoint format_scan (st : scan) (nb : numbering) (args : list string)
    (template : string) {struct template} : result string :=
  match template with
  | EmptyString =>
      match st with
      | InText => Ok EmptyString
      | _ => Raise ValueError
      end
  | String c rest =>
      let field (name : string) (plain : bool) : result string :=
        '(text, nb') <~ replacement nb args name plain ;;
        r <~ format_scan InText nb' args rest ;;
        Ok (text ++ r) in
      match st with
      | InText =>
          if Ascii.eqb c "{" then
            match rest with
            | EmptyString => Raise ValueError
            | String d rest' =>
                if Ascii.eqb d "{"
                then r <~ format_scan InText nb args rest' ;; Ok (String "{" r)
                else format_scan (InName EmptyString) nb args rest
            end
          else if Ascii.eqb c "}" then
            match rest with
            | EmptyString => Raise ValueError
            | String d rest' =>
                if Ascii.eqb d "}"
                then r <~ format_scan InText nb args rest' ;; Ok (String "}" r)
                else Raise ValueError
            end
          else r <~ format_scan InText nb args rest ;; Ok (String c r)
      | InName name =>
          if Ascii.eqb c "{" then Raise ValueError
          else if Ascii.eqb c "[" then format_scan (InBrackets (snoc name c)) nb args rest
          else if Ascii.eqb c "}" then field name true
          else if Ascii.eqb c ":" then format_scan (InSpec name true 0) nb args rest
          else if Ascii.eqb c "!" then format_scan (AtConversion name) nb args rest
          else format_scan (InName (snoc name c)) nb args rest
      | InBrackets name =>
          if Ascii.eqb c "]" then format_scan (InName (snoc name c)) nb args rest
          else format_scan (InBrackets (snoc name c)) nb args rest
      | AtConversion name => format_scan (AfterConversion name) nb args rest
      | AfterConversion name =>
          if Ascii.eqb c "}" then field name false
          else if Ascii.eqb c ":" then format_scan (InSpec name false 0) nb args rest
          else Raise ValueError
      | InSpec name plain nested =>
          if Ascii.eqb c "{" then format_scan (InSpec name false (S nested)) nb args rest
          else if Ascii.eqb c "}" then
            match nested with
            | 0 => field name plain
            | S nested' => format_scan (InSpec name false nested') nb args rest
            end
          else format_scan (InSpec name false nested) nb args rest
      end
  end.

Definition format_auto (template : string) (args : list string) : result string :=
  format_scan InText NotNumbered args template.

(** ** api_calls.py *)

Definition base_url : string := "https://fingertips.phe.org.uk/api/".

(** The value returned with [is_test]: the result alone, or the result and
    the URL that was called. *)
Definition tested {A} (is_test : bool) (a : A) (url : string) : A * option string :=
  (a, if is_test then Some url else None).

Section ApiCalls.
Variable w : World.

(** The body of the loop of [make_request]:
    [name = item.pop(attr); data[name] = item]. *)
Definition make_request_step (attr : pyval) (data : pydict) (item : pyval)
  : result pydict :=
  '(name, item') <~ py_pop item attr ;;
  py_setitem data name item'.

Definition make_request (url : string) (attr : pyval) : M pyval :=
  req <- try_except (http_get w true url)
           (fun e => if isinstance_SSLError e
                     then Some (http_get w false url) else None) ;;
  json_response <- lift (json_loads w req) ;;
  data <- lift (items <~ py_iter json_response ;;
                fold_r items (make_request_step attr) []) ;;
  ret (PDict data).

Definition get_json (url : string) : M pyval :=
  req <- try_except (http_get w true url)
           (fun e => if isinstance_SSLError e
                     then Some (http_get w false url) else None) ;;
  json_resp <- lift (json_loads w req) ;;
  ret json_resp.

(** [key = list(json_list[0].keys())[0]] *)
Definition first_key (json_list : pyval) : result pyval :=
  first <~ py_first json_list ;;
  ks <~ py_keys first ;;
  py_first (PList ks).

(** [json_dict[js.get(key)] = js] *)
Definition pick_whole (key : pyval) (json_dict : pydict) (js : pyval)
  : result pydict :=
  k <~ py_get js key ;;
  py_setitem json_dict k js.

(** [json_dict[js.get(key)] = js.get(value)]: the right-hand side is
    evaluated first. *)
Definition pick_field (key value : pyval) (json_dict : pydict) (js : pyval)
  : result pydict :=
  x <~ py_get js value ;;
  k <~ py_get js key ;;
  py_setitem json_dict k x.

Definition get_data_in_dict (url : string) (key value : pyval) : M pyval :=
  json_list <- get_json url ;;
  key <- lift (if is_None key then first_key json_list else Ok key) ;;
  json_dict <- lift (items <~ py_iter json_list ;;
                     if is_None value
                     then fold_r items (pick_whole key) []
                     else fold_r items (pick_field key value) []) ;;
  ret (PDict json_dict).

Definition deal_with_url_error (url : string) : M DataFrame :=
  req <- http_get w false url ;;
  df <- lift (read_csv_text w req) ;;
  ret df.
End ApiCalls.

(** ** metadata.py *)

Section Metadata.
Variable w : World.

Definition get_metadata_for_indicator (indicator_number : pyval) (is_test : bool)
  : M (pyval * option string) :=
  let url := base_url ++ "indicator_metadata/by_indicator_id?indicator_ids="
                      ++ py_str indicator_number in
  metadata <- get_json w url ;;
  metadata_dict <- lift (py_get metadata (PStr (py_str indicator_number))) ;;
  if is_test then ret (metadata, Some url) else ret (metadata_dict, None).

(** The classification of [get_multiplier_and_calculation_for_indicator]:
    [if 'wilson' in name.lower(): ... elif 'byar' in name.lower(): ...]. *)
Definition classify_calc (calc_metadata : pyval) : result pyval :=
  l <~ py_lower calc_metadata ;;
  if contains "wilson" l then Ok (PStr "Wilson")
  else l' <~ py_lower calc_metadata ;;
       if contains "byar" l' then Ok (PStr "Byar")
       else Ok PNone.

Definition get_multiplier_and_calculation_for_indicator (indicator_number : pyval)
  : M (pyval * pyval) :=
  '(metadata, _) <- get_metadata_for_indicator indicator_number false ;;
  unit <- lift (py_get metadata (PStr "Unit")) ;;
  multiplier <- lift (py_get unit (PStr "Value")) ;;
  cim <- lift (py_get metadata (PStr "ConfidenceIntervalMethod")) ;;
  calc_metadata <- lift (py_get cim (PStr "Name")) ;;
  calc <- lift (classify_calc calc_metadata) ;;
  ret (multiplier, calc).

Definition get_all_profiles (is_test : bool) : M (pyval * option string) :=
  profiles <- get_data_in_dict w (base_url ++ "profiles") PNone PNone ;;
  ret (tested is_test profiles (base_url ++ "profiles")).

Definition get_area_types_for_profile (profile_id : pyval) (is_test : bool)
  : M (pyval * option string) :=
  let url := base_url ++ "area_types?profile_ids=" ++ py_str profile_id in
  d <- get_data_in_dict w url PNone PNone ;;
  ret (tested is_test d url).

Definition get_area_type_ids_for_profile (profile_id : pyval) : M pyval :=
  '(area_type_obj, _) <- get_area_types_for_profile profile_id false ;;
  area_type_list <- lift (values <~ py_values area_type_obj ;;
                          map_r (fun value => py_get value (PStr "Id")) values) ;;
  ret (PList area_type_list).

(** The body of the loop of [get_profile_by_name]. *)
Definition profile_name_step (profile_name : pyval) (profile_obj profile : pyval)
  : result pyval :=
  needle <~ py_lower profile_name ;;
  name <~ py_get profile (PStr "Name") ;;
  hay <~ py_lower name ;;
  Ok (if contains needle hay then profile else profile_obj).

Definition get_profile_by_name (profile_name : pyval) : M pyval :=
  '(all_profiles, _) <- get_all_profiles false ;;
  profile_obj <- lift (profiles <~ py_values all_profiles ;;
                       fold_r profiles (profile_name_step profile_name) (PStr "")) ;;
  if negb (truthy profile_obj)
  then ret (PStr "Profile could not be found")
  else ret profile_obj.

Definition get_metadata_for_indicator_as_dataframe (indicator_ids : pyval)
    (is_test : bool) : M (DataFrame * option string) :=
  let url_suffix := "indicator_metadata/csv/by_indicator_id?indicator_ids=" in
  let indicator_ids :=
    match indicator_ids with
    | PList l => PStr (join "," (map py_str l))
    | _ => indicator_ids
    end in
  let url := base_url ++ url_suffix ++ py_str indicator_ids in
  df <- try_except (pd_read_csv w url)
          (fun e =>
             if isinstance_HTTPError e
             then Some (raise (NameError ("Indicator " ++ py_str indicator_ids
                                                       ++ " does not exist")))
             else if isinstance_URLError e
             then Some (deal_with_url_error w url)
             else None) ;;
  ret (tested is_test df url).

(** The body of the loop over a list of identifiers, which
    [get_metadata_for_domain_as_dataframe] and
    [get_metadata_for_profile_as_dataframe] both have; they differ in the
    address and in the word that names the entity:
    [try: df = pd.concat([df, pd.read_csv(url)])
     except HTTPError: raise NameError(...)
     except URLError: df = deal_with_url_error(url)]. *)
Definition batch_step (url_suffix entity : string) (df : DataFrame) (id : pyval)
  : M DataFrame :=
  let url := base_url ++ url_suffix ++ py_str id in
  try_except (t <- pd_read_csv w url ;; ret (pd_concat df t))
    (fun e =>
       if isinstance_HTTPError e
       then Some (raise (NameError (entity ++ " " ++ py_str id ++ " does not exist")))
       else if isinstance_URLError e
       then Some (deal_with_url_error w url)
       else None).

Definition get_metadata_for_domain_as_dataframe (group_ids : pyval)
    (is_test : bool) : M (DataFrame * option string) :=
  let url_suffix := "indicator_metadata/csv/by_group_id?group_id=" in
  df <- match group_ids with
        | PList l => for_each l (batch_step url_suffix "Domain") empty_frame
        | _ =>
            let url := base_url ++ url_suffix ++ py_str group_ids in
            try_except (pd_read_csv w url)
              (fun e =>
                 if isinstance_HTTPError e
                 then Some (raise (NameError ("Domain " ++ py_str group_ids
                                                        ++ " does not exist")))
                 else if isinstance_URLError e
                 then Some (deal_with_url_error w url)
                 else None)
        end ;;
  ret (tested is_test df (base_url ++ url_suffix ++ py_str group_ids)).

Definition get_metadata_for_profile_as_dataframe (profile_ids : pyval)
  : M DataFrame :=
  let url_suffix := "indicator_metadata/csv/by_profile_id?profile_id=" in
  match profile_ids with
  | PList l => for_each l (batch_step url_suffix "Profile") empty_frame
  | _ =>
      let url := base_url ++ url_suffix ++ py_str profile_ids in
      try_except (pd_read_csv w url)
        (fun e =>
           if isinstance_HTTPError e
           then Some (raise (NameError ("Profile " ++ py_str profile_ids
                                                   ++ " does not exist")))
           else if isinstance_URLError e
           then Some (deal_with_url_error w url)
           else None)
  end.

(** The two fetches as [get_metadata] calls them, without [is_test]. *)
Definition for_indicator (indicator_ids : pyval) : M DataFrame :=
  '(df, _) <- get_metadata_for_indicator_as_dataframe indicator_ids false ;; ret df.

Definition for_domain (domain_ids : pyval) : M DataFrame :=
  '(df, _) <- get_metadata_for_domain_as_dataframe domain_ids false ;; ret df.

(** [get_metadata]; the value is [None] where the Python function would
    fall off its end. *)
Definition get_metadata (indicator_ids domain_ids profile_ids : pyval)
  : M (option DataFrame) :=
  let i := truthy indicator_ids in
  let d := truthy domain_ids in
  let p := truthy profile_ids in
  if i && d && p then
    df <- get_metadata_for_profile_as_dataframe profile_ids ;;
    t <- for_domain domain_ids ;;
    let df := pd_concat df t in
    t <- for_indicator indicator_ids ;;
    let df := pd_concat df t in
    ret (Some df)
  else if i && d then
    df <- for_domain domain_ids ;;
    t <- for_indicator indicator_ids ;;
    let df := pd_concat df t in
    ret (Some df)
  else if i && p then
    df <- get_metadata_for_profile_as_dataframe profile_ids ;;
    t <- for_indicator indicator_ids ;;
    let df := pd_concat df t in
    ret (Some df)
  else if d && p then
    df <- get_metadata_for_profile_as_dataframe profile_ids ;;
    t <- for_domain domain_ids ;;
    let df := pd_concat df t in
    ret (Some df)
  else if p then
    df <- get_metadata_for_profile_as_dataframe profile_ids ;; ret (Some df)
  else if d then
    df <- for_domain domain_ids ;; ret (Some df)
  else if i then
    df <- for_indicator indicator_ids ;; ret (Some df)
  else if negb i && negb d && negb p then
    raise (NameError "At least one of indicator_ids, domain_ids, or profile_ids must be provided.")
  else ret None.
End Metadata.

(** ** retrieve_data.py *)

Section RetrieveData.
Variable w : World.

Definition get_data_by_indicator_ids (indicator_ids area_type_id parent_area_type_id
    profile_id include_sortable_time_periods : pyval) (is_test : bool)
  : M (DataFrame * option string) :=
  let url_suffix :=
    "all_data/csv/by_indicator_id?indicator_ids={}&child_area_type_id={}&parent_area_type_id={}" in
  let url_suffix :=
    if truthy profile_id && negb (truthy include_sortable_time_periods)
    then url_suffix ++ "&profile_id=" ++ py_str profile_id
    else if truthy include_sortable_time_periods && negb (truthy profile_id)
    then url_suffix ++ "&include_sortable_time_periods=yes"
    else if truthy profile_id && truthy include_sortable_time_periods
    then url_suffix ++ "&profile_id=" ++ py_str profile_id
                    ++ "&include_sortable_time_periods=yes"
    else url_suffix in
  indicator_ids <- lift (match indicator_ids with
                         | PList l =>
                             if existsb isinstance_int l
                             then Ok (join "," (map py_str l))
                             else if forallb isinstance_str l
                             then Ok (join "," (map py_str l))
                             else Raise TypeError
                         | _ => Ok (py_str indicator_ids)
                         end) ;;
  populated_url <- lift (format_auto url_suffix
                           [indicator_ids; py_str area_type_id;
                            py_str parent_area_type_id]) ;;
  df <- try_except (pd_read_csv w (base_url ++ populated_url))
          (fun e => if isinstance_URLError e
                    then Some (deal_with_url_error w (base_url ++ populated_url))
                    else None) ;;
  ret (tested is_test df (base_url ++ populated_url)).

(** The body of the loop of [get_all_data_for_profile]; the state is the
    table so far and [populated_url], unbound before the first turn. *)
Definition profile_data_step (profile_id parent_area_type_id : pyval)
    (state : DataFrame * option string) (area : pyval)
  : M (DataFrame * option string) :=
  let populated_url :=
    "all_data/csv/by_profile_id?child_area_type_id=" ++ py_str area
      ++ "&parent_area_type_id=" ++ py_str parent_area_type_id
      ++ "&profile_id=" ++ py_str profile_id in
  df_returned <-
    try_except (pd_read_csv w (base_url ++ populated_url))
      (fun e =>
         if isinstance_HTTPError e
         then Some (raise (Exception
                "There has been a server error with Fingertips for this request. "))
         else if isinstance_URLError e
         then Some (deal_with_url_error w (base_url ++ populated_url))
         else None) ;;
  ret (pd_concat (fst state) df_returned, Some populated_url).

(** The filter of [get_all_data_for_profile], applied after the loop. *)
Definition filter_area_codes (filter_by_area_codes : pyval) (df : DataFrame)
  : result DataFrame :=
  if truthy filter_by_area_codes then
    df <~ match filter_by_area_codes with
          | PList codes => loc_isin df "Area Code" codes
          | PStr _ => loc_eq df "Area Code" filter_by_area_codes
          | _ => Ok df
          end ;;
    reset_index df
  else Ok df.

Definition get_all_data_for_profile (profile_id parent_area_type_id area_type_id
    filter_by_area_codes : pyval) (is_test : bool)
  : M (DataFrame * option string) :=
  area_types <- (if negb (is_None area_type_id)
                 then if type_is_int area_type_id
                      then ret (PList [area_type_id])
                      else ret area_type_id
                 else get_area_type_ids_for_profile w profile_id) ;;
  areas <- lift (py_iter area_types) ;;
  '(df, populated_url) <-
    for_each areas (profile_data_step profile_id parent_area_type_id)
             (empty_frame, None) ;;
  df <- lift (filter_area_codes filter_by_area_codes df) ;;
  if is_test
  then match populated_url with
       | Some u => ret (df, Some (base_url ++ u))
       | None => raise (UnboundLocalError "populated_url")
       end
  else ret (df, None).
End RetrieveData.

(** ** Vocabulary of the statements *)

(** The field [a] of a JSON object, when the object has it. *)
Definition field (item a : pyval) : option pyval :=
  match item with
  | PDict o => dict_lookup o a
  | _ => None
  end.

(** No two keys of a dictionary are equal. *)
Fixpoint keys_distinct (d : pydict) : bool :=
  match d with
  | [] => true
  | (k, _) :: rest => negb (dict_has rest k) && keys_distinct rest
  end.

(** What pick mode stores for the object [js]: the object itself, or its
    field [value]. *)
Definition picked (value js : pyval) : result pyval :=
  if is_None value then Ok js else py_get js value.

(** One turn of either loop of [get_data_in_dict]. *)
Definition pick (key value : pyval) (json_dict : pydict) (js : pyval)
  : result pydict :=
  x <~ picked value js ;;
  k <~ py_get js key ;;
  py_setitem json_dict k x.

(** A profile whose [Name] holds the search text, whatever the case. *)
Definition name_matches (needle : string) (profile : pyval) : bool :=
  match field profile (PStr "Name") with
  | Some (PStr name) => contains (lower needle) (lower name)
  | _ => false
  end.

Definition has_name (profile : pyval) : Prop :=
  exists name, field profile (PStr "Name") = Some (PStr name).

(** The text of the indicator identifiers as it stands in the address and
    in the error: a list is joined with commas. *)
Definition indicator_ids_text (indicator_ids : pyval) : string :=
  match indicator_ids with
  | PList l => join "," (map py_str l)
  | _ => py_str indicator_ids
  end.

Definition indicator_csv_url (indicator_ids : pyval) : string :=
  base_url ++ "indicator_metadata/csv/by_indicator_id?indicator_ids="
           ++ indicator_ids_text indicator_ids.

(** A CSV fetch of [url] that tells the HTTP error from the URL error: the
    first raises [NameError message] after the strict request alone; the
    second is followed by exactly one relaxed request, whose table is the
    result. *)
Definition distinguishes_errors (w : World) (url message : string)
    (call : M DataFrame) : Prop :=
  (forall code,
      read_csv_url w url = Raise (HTTPError code) ->
      call = (Raise (NameError message), [ReadCsv url])) /\
  (read_csv_url w url = Raise URLError ->
   log call = [ReadCsv url; RequestsGet false url] /\
   forall body df,
     requests_get w false url = Ok body ->
     read_csv_text w body = Ok df ->
     outcome call = Ok df).

(** An argument of [get_metadata] as the function takes it: a falsy value
    counts as not given. *)
Definition provided (v : pyval) : pyval := if truthy v then v else PNone.

(** The aggregate of the three metadata tables: profile, then domain, then
    indicator, each fetched on its own. *)
Definition aggregate_of_three (w : World) (i d p : pyval) : Prop :=
  forall tp td ti,
    outcome (get_metadata_for_profile_as_dataframe w p) = Ok tp ->
    outcome (for_domain w d) = Ok td ->
    outcome (for_indicator w i) = Ok ti ->
    outcome (get_metadata w i d p) = Ok (Some (pd_concat (pd_concat tp td) ti)) /\
    (forall r, outcome (get_metadata w i d p) = Ok (Some r) ->
               nrows r = (nrows tp + nrows td + nrows ti)%nat) /\
    log (get_metadata w i d p)
    = (log (get_metadata_for_profile_as_dataframe w p)
         ++ log (for_domain w d) ++ log (for_indicator w i))%list.

(** The classification of a confidence-interval method name, read without
    an order between the two names. *)
Definition classified_unordered (name : string) (calc : pyval) : Prop :=
  (contains "wilson" (lower name) = true -> calc = PStr "Wilson") /\
  (contains "byar" (lower name) = true -> calc = PStr "Byar") /\
  (contains "wilson" (lower name) = false ->
   contains "byar" (lower name) = false -> calc = PNone).

(** The codes a filter names: the elements of a list, or the one code. *)
Definition codes_of (filter_by_area_codes : pyval) : list pyval :=
  match filter_by_area_codes with
  | PList codes => codes
  | v => [v]
  end.

Definition row_in_codes (codes : list pyval) (ir : Z * row) : bool :=
  existsb (cell_eqb (row_get (snd ir) "Area Code")) codes.

(** The table holds only rows of the given codes, and its index is
    0, 1, 2, ... *)
Definition filtered_and_reindexed (filter_by_area_codes : pyval) (df : DataFrame)
  : Prop :=
  (forall ir, In ir (rows df) -> row_in_codes (codes_of filter_by_area_codes) ir = true) /\
  index df = map Z.of_nat (seq 0 (nrows df)).

(** *** A sample service *)

Definition two_rows : DataFrame :=
  mkDF ["Area Code"; "Value"]
       [(0%Z, [("Area Code", CStr "E12000001"); ("Value", CInt 1)]);
        (1%Z, [("Area Code", CStr "E92000001"); ("Value", CInt 2)])].

Definition retried_row : DataFrame :=
  mkDF ["Area Code"; "Value"]
       [(0%Z, [("Area Code", CStr "E12000002"); ("Value", CInt 3)])].

Definition sample_profiles : pyval :=
  PList [PDict [(PStr "Id", PInt 1); (PStr "Name", PStr "Fingertips Search A")];
         PDict [(PStr "Id", PInt 2); (PStr "Name", PStr "Fingertips Search B")]].

Definition sample_area_types : pyval :=
  PList [PDict [(PStr "Id", PInt 7); (PStr "Name", PStr "General Practice")];
         PDict [(PStr "Id", PInt 102); (PStr "Name", PStr "Counties")]].

Definition sample_sexes : pyval :=
  PList [PDict [(PStr "Id", PInt 1); (PStr "Name", PStr "Male")];
         PDict [(PStr "Id", PInt 2); (PStr "Name", PStr "Female")]].

Definition sample_metadata : pyval :=
  PDict [(PStr "5",
          PDict [(PStr "Unit", PDict [(PStr "Value", PInt 100)]);
                 (PStr "ConfidenceIntervalMethod",
                  PDict [(PStr "Name", PStr "Byar's method")])]);
         (PStr "6",
          PDict [(PStr "Unit", PDict [(PStr "Value", PInt 1000)]);
                 (PStr "ConfidenceIntervalMethod",
                  PDict [(PStr "Name", PStr "Byar's method (Wilson for proportions)")])])].

(** A service that answers every request, except that the CSV address of
    domain or profile 2 cannot be opened with verification (a URL error)
    and that identifier 404 does not exist (an HTTP error); the same for
    the CSV metadata of indicator 2. *)
Definition sample_world : World :=
  mkWorld
    (fun verify url => Ok url)
    (fun body =>
       if contains "profiles" body then Ok sample_profiles
       else if contains "area_types" body then Ok sample_area_types
       else if contains "sexes" body then Ok sample_sexes
       else if contains "indicator_metadata" body then Ok sample_metadata
       else Ok (PList []))
    (fun url =>
       if contains "=404" url then Raise (HTTPError 404)
       else if contains "group_id=2" url then Raise URLError
       else if contains "profile_id=2" url then Raise URLError
       else if contains "indicator_ids=2" url then Raise URLError
       else Ok two_rows)
    (fun body => Ok retried_row).

(** ** More of the Python vocabulary *)

(** [l[i]] on a list: a negative index counts from the end. *)
Definition list_index (l : list pyval) (i : Z) : result pyval :=
  let n := Z.of_nat (length l) in
  let j := if (i <? 0)%Z then (i + n)%Z else i in
  if (0 <=? j)%Z && (j <? n)%Z
  then match nth_error l (Z.to_nat j) with
       | Some x => Ok x
       | None => Raise IndexError
       end
  else Raise IndexError.

(** [obj[k]] *)
Definition py_getitem (obj k : pyval) : result pyval :=
  match obj with
  | PDict d =>
      if hashable k
      then match dict_lookup d k with
           | Some x => Ok x
           | None => Raise (KeyError k)
           end
      else Raise TypeError
  | PList l =>
      match k with
      | PInt i => list_index l i
      | PBool b => list_index l (if b then 1 else 0)
      | _ => Raise TypeError
      end
  | PStr s =>
      match k with
      | PInt i => list_index (map PStr (chars s)) i
      | PBool b => list_index (map PStr (chars s)) (if b then 1 else 0)
      | _ => Raise TypeError
      end
  | _ => Raise TypeError
  end.

(** [obj.items()] *)
Definition py_items (obj : pyval) : result (list (pyval * pyval)) :=
  match obj with
  | PDict d => Ok d
  | _ => Raise AttributeError
  end.

(** [a == b]: numbers and booleans by value, lists element by element,
    dictionaries entry by entry whatever their order. *)
Fixpoint py_eqb (a b : pyval) {struct a} : bool :=
  match a, b with
  | PList l1, PList l2 =>
      (fix go (xs ys : list pyval) {struct xs} : bool :=
         match xs, ys with
         | [], [] => true
         | x :: xs', y :: ys' => py_eqb x y && go xs' ys'
         | _, _ => false
         end) l1 l2
  | PDict d1, PDict d2 =>
      Nat.eqb (length d1) (length d2) &&
      (fix go (d : list (pyval * pyval)) : bool :=
         match d with
         | [] => true
         | (k, x) :: rest =>
             match dict_lookup d2 k with
             | Some y => py_eqb x y
             | None => false
             end && go rest
         end) d1
  | PList _, _ | PDict _, _ => false
  | _, _ => key_eqb a b
  end.

(** The number a value counts as when it is ordered or compared. *)
Definition key_num (v : pyval) : option Z :=
  match v with
  | PInt z => Some z
  | PBool b => Some (if b then 1 else 0)%Z
  | _ => None
  end.

Definition is_number (v : pyval) : bool :=
  match key_num v with Some _ => true | None => false end.

Definition num_leb (a b : pyval) : bool :=
  match key_num a, key_num b with
  | Some x, Some y => (x <=? y)%Z
  | _, _ => true
  end.

Definition str_leb (a b : pyval) : bool :=
  match a, b with
  | PStr s, PStr t => String.leb s t
  | _, _ => true
  end.

Fixpoint insert_sorted (leb : pyval -> pyval -> bool) (x : pyval) (l : list pyval)
  : list pyval :=
  match l with
  | [] => [x]
  | y :: rest => if leb x y then x :: y :: rest else y :: insert_sorted leb x rest
  end.

Fixpoint sort_by (leb : pyval -> pyval -> bool) (l : list pyval) : list pyval :=
  match l with
  | [] => []
  | x :: rest => insert_sorted leb x (sort_by leb rest)
  end.

(** The members of [set(values)]: the first of every group of equal
    values. *)
Fixpoint distinct_keys (seen values : list pyval) : list pyval :=
  match values with
  | [] => []
  | v :: rest =>
      if existsb (fun s => key_eqb s v) seen then distinct_keys seen rest
      else v :: distinct_keys (v :: seen) rest
  end.

(** [xs = list(set(values)); xs.sort()]: the values must be hashable; two
    or more distinct values must be all numbers or all text, anything else
    cannot be ordered. *)
Definition sorted_set (values : list pyval) : result (list pyval) :=
  if forallb hashable values
  then let xs := distinct_keys [] values in
       if (length xs <=? 1)%nat then Ok xs
       else if forallb is_number xs then Ok (sort_by num_leb xs)
       else if forallb isinstance_str xs then Ok (sort_by str_leb xs)
       else Raise TypeError
  else Raise TypeError.

(** Rows as [drop_duplicates] compares them: cell by cell over the columns
    of the table, two missing cells being the same. *)
Definition cell_same (a b : cell) : bool :=
  match a, b with
  | CStr s, CStr t => (s =? t)
  | CInt x, CInt y => (x =? y)%Z
  | CNaN, CNaN => true
  | _, _ => false
  end.

Definition row_cells (cols : list string) (r : row) : list cell :=
  map (row_get r) cols.

Fixpoint cells_same (a b : list cell) : bool :=
  match a, b with
  | [], [] => true
  | x :: a', y :: b' => cell_same x y && cells_same a' b'
  | _, _ => false
  end.

Fixpoint first_rows (cols : list string) (seen : list (list cell))
    (rs : list (Z * row)) : list (Z * row) :=
  match rs with
  | [] => []
  | (i, r) :: rest =>
      if existsb (cells_same (row_cells cols r)) seen
      then first_rows cols seen rest
      else (i, r) :: first_rows cols (row_cells cols r :: seen) rest
  end.

(** [df.drop_duplicates()]: the first of every group of equal rows, with
    the index label it had. *)
Definition drop_duplicates (df : DataFrame) : DataFrame :=
  mkDF (columns df) (first_rows (columns df) [] (rows df)).

(** ** metadata.py: the lookups *)

Section MetadataLookups.
Variable w : World.

Definition get_all_ages (is_test : bool) : M (pyval * option string) :=
  ages <- get_data_in_dict w (base_url ++ "ages") PNone PNone ;;
  ret (tested is_test ages (base_url ++ "ages")).

Definition get_all_areas (is_test : bool) : M (pyval * option string) :=
  areas <- make_request w (base_url ++ "area_types") (PStr "Id") ;;
  ret (tested is_test areas (base_url ++ "area_types")).

Definition get_age_id (age : pyval) (is_test : bool) : M (pyval * option string) :=
  ages <- make_request w (base_url ++ "ages") (PStr "Name") ;;
  found <- lift (record <~ py_getitem ages age ;; py_getitem record (PStr "Id")) ;;
  ret (tested is_test found (base_url ++ "ages")).

Definition get_age_from_id (age_id : pyval) (is_test : bool)
  : M (pyval * option string) :=
  ages <- make_request w (base_url ++ "ages") (PStr "Id") ;;
  found <- lift (record <~ py_getitem ages age_id ;; py_getitem record (PStr "Name")) ;;
  ret (tested is_test found (base_url ++ "ages")).

Definition get_all_sexes (is_test : bool) : M (pyval * option string) :=
  sexes <- get_data_in_dict w (base_url ++ "sexes") PNone (PStr "Name") ;;
  ret (tested is_test sexes (base_url ++ "sexes")).

Definition get_sex_id (sex : pyval) (is_test : bool) : M (pyval * option string) :=
  sexes <- make_request w (base_url ++ "sexes") (PStr "Name") ;;
  found <- lift (record <~ py_getitem sexes sex ;; py_getitem record (PStr "Id")) ;;
  ret (tested is_test found (base_url ++ "sexes")).

Definition get_sex_from_id (sex_id : pyval) (is_test : bool)
  : M (pyval * option string) :=
  sexes <- make_request w (base_url ++ "sexes") (PStr "Id") ;;
  found <- lift (record <~ py_getitem sexes sex_id ;; py_getitem record (PStr "Name")) ;;
  ret (tested is_test found (base_url ++ "sexes")).

Definition get_all_value_notes (is_test : bool) : M (pyval * option string) :=
  value_notes <- get_data_in_dict w (base_url ++ "value_notes") PNone (PStr "Text") ;;
  ret (tested is_test value_notes (base_url ++ "value_notes")).

Definition get_value_note_id (value_note : pyval) (is_test : bool)
  : M (pyval * option string) :=
  value_notes <- make_request w (base_url ++ "value_notes") (PStr "Text") ;;
  found <- lift (record <~ py_getitem value_notes value_note ;;
                 py_getitem record (PStr "Id")) ;;
  ret (tested is_test found (base_url ++ "value_notes")).

Definition get_areas_for_area_type (area_type_id : pyval) (is_test : bool)
  : M (pyval * option string) :=
  let url := base_url ++ "areas/by_area_type?area_type_id=" ++ py_str area_type_id in
  areas <- make_request w url (PStr "Code") ;;
  ret (tested is_test areas url).

Definition get_metadata_for_all_indicators_from_csv (is_test : bool)
  : M (DataFrame * option string) :=
  let url := base_url ++ "indicator_metadata/csv/all" in
  metadata <- try_except (pd_read_csv w url)
                (fun e => if isinstance_URLError e
                          then Some (deal_with_url_error w url)
                          else None) ;;
  ret (tested is_test metadata url).

Definition get_metadata_for_all_indicators (include_definition
    include_system_content : pyval) (is_test : bool) : M (pyval * option string) :=
  let url_suffix :=
    "indicator_metadata/all?include_definition="
      ++ (if truthy include_definition then "yes" else "no")
      ++ "&include_system_content="
      ++ (if truthy include_system_content then "yes" else "no") in
  metadata_dict <- get_json w (base_url ++ url_suffix) ;;
  ret (tested is_test metadata_dict (base_url ++ url_suffix)).

Definition get_area_types_as_dict (is_test : bool) : M (pyval * option string) :=
  areas <- get_data_in_dict w (base_url ++ "area_types") PNone PNone ;;
  ret (tested is_test areas (base_url ++ "area_types")).

Definition get_profile_by_id (profile_id : pyval) (is_test : bool)
  : M (pyval * option string) :=
  let url := base_url ++ "profile?profile_id=" ++ py_str profile_id in
  profile <- get_json w url ;;
  ret (tested is_test profile url).

Definition get_domains_in_profile (profile_id : pyval) : M pyval :=
  '(profile, _) <- get_profile_by_id profile_id false ;;
  lift (py_getitem profile (PStr "GroupIds")).

(** The loop of [get_profile_by_key], which returns at the first profile
    whose [Key] is the key; [None] when the loop ends without one. *)
Fixpoint profile_key_loop (profile_key : pyval) (entries : list (pyval * pyval))
  : result (option pyval) :=
  match entries with
  | [] => Ok None
  | (profile_id, profile_object) :: rest =>
      k <~ py_get profile_object (PStr "Key") ;;
      if py_eqb k profile_key then Ok (Some profile_object)
      else profile_key_loop profile_key rest
  end.

Definition get_profile_by_key (profile_key : pyval) : M pyval :=
  '(all_profiles, _) <- get_all_profiles w false ;;
  found <- lift (entries <~ py_items all_profiles ;;
                 profile_key_loop profile_key entries) ;;
  match found with
  | Some profile_object => ret profile_object
  | None => ret (PStr "Profile could not be found")
  end.
End MetadataLookups.

(** ** retrieve_data.py: the other retrievals *)

Section RetrieveMore.
Variable w : World.

Definition get_all_data_for_indicators (indicators area_type_id parent_area_type_id
    filter_by_area_codes : pyval) (is_test : bool) : M (DataFrame * option string) :=
  indicators <- lift (match indicators with
                      | PList l =>
                          if existsb isinstance_int l
                          then Ok (join "," (map py_str l))
                          else if forallb isinstance_str l
                          then Ok (join "," (map py_str l))
                          else Raise TypeError
                      | _ => Ok (py_str indicators)
                      end) ;;
  let populated_url :=
    "all_data/csv/by_indicator_id?indicator_ids=" ++ indicators
      ++ "&child_area_type_id=" ++ py_str area_type_id
      ++ "&parent_area_type_id=" ++ py_str parent_area_type_id in
  df <- try_except (pd_read_csv w (base_url ++ populated_url))
          (fun e => if isinstance_URLError e
                    then Some (deal_with_url_error w (base_url ++ populated_url))
                    else None) ;;
  (** [df.reset_index()], whose result is dropped *)
  _ <- lift (reset_index df) ;;
  df <- lift (filter_area_codes filter_by_area_codes df) ;;
  ret (tested is_test df (base_url ++ populated_url)).

(** [area_list] of [get_all_areas_for_all_indicators] for one indicator. *)
Fixpoint area_list_of (ind : pyval) (all_area_ids : list pyval) : result (list pyval) :=
  match all_area_ids with
  | [] => Ok []
  | item :: rest =>
      i <~ py_get item (PStr "IndicatorId") ;;
      if py_eqb i ind
      then a <~ py_get item (PStr "AreaTypeId") ;;
           area_list <~ area_list_of ind rest ;;
           Ok (a :: area_list)
      else area_list_of ind rest
  end.

Definition get_all_areas_for_all_indicators : M pyval :=
  all_area_ids <- get_json w (base_url ++ "available_data") ;;
  area_dict <-
    lift (items <~ py_iter all_area_ids ;;
          ids <~ map_r (fun x => py_get x (PStr "IndicatorId")) items ;;
          all_indicators <~ sorted_set ids ;;
          fold_r all_indicators
            (fun area_dict ind =>
               area_list <~ area_list_of ind items ;;
               py_setitem area_dict ind (PList area_list))
            []) ;;
  ret (PDict area_dict).

Definition get_data_for_indicator_at_all_available_geographies (indicator_id : pyval)
  : M DataFrame :=
  all_area_for_all_indicators <- get_all_areas_for_all_indicators ;;
  areas_to_get <- lift (py_get all_area_for_all_indicators indicator_id) ;;
  areas <- lift (py_iter areas_to_get) ;;
  df <- for_each areas
          (fun df area =>
             '(df_temp, _) <- get_data_by_indicator_ids w indicator_id area (PInt 15)
                                PNone PNone false ;;
             ret (pd_concat df df_temp))
          empty_frame ;;
  ret (drop_duplicates df).
End RetrieveMore.

(** ** Vocabulary of the further statements *)

(** The last object of a response whose field [a] equals [k]. *)
Fixpoint last_with (a k : pyval) (items : list pyval) : option pyval :=
  match items with
  | [] => None
  | item :: rest =>
      match last_with a k rest with
      | Some found => Some found
      | None =>
          match field item a with
          | Some kv => if key_eqb kv k then Some item else None
          | None => None
          end
      end
  end.

(** An object without its field [a]. *)
Definition without (a item : pyval) : pyval :=
  match item with
  | PDict o => PDict (dict_remove o a)
  | _ => item
  end.

(** What a lookup keyed on [a] gives for [x]: field [b] of the last object
    whose field [a] is [x]. *)
Definition resolved (a b : string) (x : pyval) (items : list pyval) : result pyval :=
  match last_with (PStr a) x items with
  | Some item =>
      match field (without (PStr a) item) (PStr b) with
      | Some v => Ok v
      | None => Raise (KeyError (PStr b))
      end
  | None => Raise (KeyError x)
  end.

(** The response at [url] is a list of objects that all have the field [a],
    with a value that can be a dictionary key. *)
Definition keyed_response (w : World) (url a : string) (items : list pyval)
    (l : list request) : Prop :=
  get_json w url = (Ok (PList items), l) /\
  forall item, In item items ->
               exists kv, field item (PStr a) = Some kv /\ hashable kv = true.

(** No two objects have the same value of field [a]. *)
Definition distinct_on (a : pyval) (items : list pyval) : bool :=
  keys_distinct
    (map (fun item => (match field item a with Some k => k | None => PNone end, item))
         items).

(** The [Key] of a profile is, or is not, the key searched. *)
Definition key_is (profile_key profile : pyval) (b : bool) : Prop :=
  exists k, py_get profile (PStr "Key") = Ok k /\ py_eqb k profile_key = b.

(** Field [a] of an object as [get] reads it: [None] when it is missing. *)
Definition field_or_none (a : string) (item : pyval) : pyval :=
  match field item (PStr a) with
  | Some x => x
  | None => PNone
  end.

(** The address of the data of a profile for one area type, after
    [base_url]. *)
Definition profile_data_url (profile_id parent_area_type_id area : pyval) : string :=
  "all_data/csv/by_profile_id?child_area_type_id=" ++ py_str area
    ++ "&parent_area_type_id=" ++ py_str parent_area_type_id
    ++ "&profile_id=" ++ py_str profile_id.

(** The CSV at [url] is obtained as the table [t]: by the strict request,
    or, that one failing with a URL error, by the relaxed request. *)
Definition answered (w : World) (url : string) (t : DataFrame) : Prop :=
  read_csv_url w url = Ok t \/
  (read_csv_url w url = Raise URLError /\
   exists body, requests_get w false url = Ok body /\ read_csv_text w body = Ok t).

Definition is_strict (r : request) : bool :=
  match r with
  | ReadCsv _ => true
  | RequestsGet _ _ => false
  end.

(** A text without braces. *)
Definition brace_free (s : string) : bool :=
  negb (mem_ascii "{" s) && negb (mem_ascii "}" s).

(** The address of the data of indicators, after [base_url], without the
    optional parameters. *)
Definition indicator_data_url (indicators area_type_id parent_area_type_id : pyval)
  : string :=
  "all_data/csv/by_indicator_id?indicator_ids=" ++ indicator_ids_text indicators
    ++ "&child_area_type_id=" ++ py_str area_type_id
    ++ "&parent_area_type_id=" ++ py_str parent_area_type_id.

(** A list of identifiers holds integers and text only. *)
Definition ids_well_typed (indicators : pyval) : bool :=
  match indicators with
  | PList l => forallb (fun v => isinstance_int v || isinstance_str v) l
  | _ => true
  end.

(** What the relaxed request gives for [url]. *)
Definition relaxed_table (w : World) (url : string) : result DataFrame :=
  body <~ requests_get w false url ;; read_csv_text w body.

(** The tables [get_metadata] is asked for, in the order in which it puts
    them together: profile, domain, indicator. *)
Definition requested_tables (i d p : pyval) (ti td tp : DataFrame) : list DataFrame :=
  ((if truthy p then [tp] else []) ++ (if truthy d then [td] else [])
     ++ (if truthy i then [ti] else []))%list.

Definition concat_all (tables : list DataFrame) : option DataFrame :=
  match tables with
  | [] => None
  | t :: rest => Some (fold_left pd_concat rest t)
  end.

(** An object that does not have the field [a]. *)
Definition lacks (a item : pyval) : Prop :=
  exists o, item = PDict o /\ dict_lookup o a = None.

(** The last object of a response whose field [a], read as [get] reads it,
    equals [k]. *)
Fixpoint last_keyed (a : string) (k : pyval) (items : list pyval) : option pyval :=
  match items with
  | [] => None
  | item :: rest =>
      match last_keyed a k rest with
      | Some found => Some found
      | None => if key_eqb (field_or_none a item) k then Some item else None
      end
  end.

(** In the batch [pre ++ id :: post] of the addresses [base_url ++ suffix
    ++ id], every identifier before [id] is answered, the strict request
    for [id] fails with a URL error and its relaxed request gives [t], and
    the strict requests for the identifiers after it give [tables]. *)
Definition url_error_at (w : World) (suffix : string) (pre : list pyval) (id : pyval)
    (post : list pyval) (t : DataFrame) (tables : list DataFrame) : Prop :=
  Forall (fun id => exists t, answered w (base_url ++ suffix ++ py_str id) t) pre /\
  read_csv_url w (base_url ++ suffix ++ py_str id) = Raise URLError /\
  relaxed_table w (base_url ++ suffix ++ py_str id) = Ok t /\
  Forall2 (fun id t => read_csv_url w (base_url ++ suffix ++ py_str id) = Ok t)
          post tables.

(** The integer [IndicatorId] of an object of the available data. *)
Definition indicator_of (item : pyval) : option Z :=
  match field item (PStr "IndicatorId") with
  | Some (PInt n) => Some n
  | _ => None
  end.

(** The [AreaTypeId] of the objects of indicator [n], in the order of the
    response. *)
Definition area_types_of (n : Z) (items : list pyval) : list pyval :=
  map (field_or_none "AreaTypeId")
      (filter (fun item => match indicator_of item with
                           | Some m => (m =? n)%Z
                           | None => false
                           end) items).

(** Two rows are equal on the columns [cols]. *)
Definition same_row (cols : list string) (a b : Z * row) : bool :=
  cells_same (row_cells cols (snd a)) (row_cells cols (snd b)).

(** No two rows of the list are equal. *)
Fixpoint rows_distinct (cols : list string) (rs : list (Z * row)) : bool :=
  match rs with
  | [] => true
  | r :: rest => negb (existsb (same_row cols r) rest) && rows_distinct cols rest
  end.

(** The rows of a table that are equal to no row before them, in the
    order of the table; [before] holds the rows already passed. *)
Fixpoint earliest (cols : list string) (before rs : list (Z * row)) : list (Z * row) :=
  match rs with
  | [] => []
  | r :: rest =>
      ((if existsb (same_row cols r) before then [] else [r])
         ++ earliest cols (r :: before) rest)%list
  end.

(** *** A sample of the available data *)

Definition sample_available : pyval :=
  PList [PDict [(PStr "IndicatorId", PInt 5); (PStr "AreaTypeId", PInt 7)];
         PDict [(PStr "IndicatorId", PInt 3); (PStr "AreaTypeId", PInt 102)];
         PDict [(PStr "IndicatorId", PInt 5); (PStr "AreaTypeId", PInt 102)];
         PDict [(PStr "IndicatorId", PInt 5)]].

(** The sample service, with the available data. *)
Definition geography_world : World :=
  mkWorld
    (requests_get sample_world)
    (fun body =>
       if contains "available_data" body then Ok sample_available
       else json_loads sample_world body)
    (read_csv_url sample_world)
    (read_csv_text sample_world).

(** The sample service when no CSV address exists: every strict CSV
    request is answered by the HTTP error 404; the relaxed request is
    answered as before. *)
Definition not_found_world : World :=
  mkWorld
    (requests_get sample_world)
    (json_loads sample_world)
    (fun url => Raise (HTTPError 404))
    (read_csv_text sample_world).

(** An operation with [is_test]: the flag changes neither the requests nor
    the value nor the error; it adds the address [url] to the value. *)
Definition only_adds_address {A} (f : bool -> M (A * option string)) (url : string)
  : Prop :=
  log (f true) = log (f false) /\
  match outcome (f false) with
  | Ok (v, u) => u = None /\ outcome (f true) = Ok (v, Some url)
  | Raise e => outcome (f true) = Raise e
  end.

(** * Properties *)

(** ** The request monad *)

Lemma bind_ok {A B} (a : A) (l : list request) (k : A -> M B) :
  bind (Ok a, l) k = (outcome (k a), (l ++ log (k a))%list).
Proof. unfold bind, outcome, log. destruct (k a); reflexivity. Qed.

Lemma bind_lift_ok {A B} (a : A) (k : A -> M B) : bind (lift (Ok a)) k = k a.
Proof. unfold bind, lift. destruct (k a); reflexivity. Qed.

Lemma bind_ret {A B} (a : A) (k : A -> M B) : bind (ret a) k = k a.
Proof. apply bind_lift_ok. Qed.

Lemma nrows_pd_concat (a b : DataFrame) :
  nrows (pd_concat a b) = (nrows a + nrows b)%nat.
Proof. unfold nrows, pd_concat; simpl. apply length_app. Qed.

(** ** Strict and relaxed CSV fetches *)

Section CsvFetch.
Variable w : World.
Variable url : string.
Variable not_found : exn.

Let handler : exn -> option (M DataFrame) :=
  fun e => if isinstance_HTTPError e then Some (raise not_found)
           else if isinstance_URLError e then Some (deal_with_url_error w url)
           else None.

Lemma fetch_ok (df : DataFrame) :
  read_csv_url w url = Ok df ->
  try_except (pd_read_csv w url) handler = (Ok df, [ReadCsv url]).
Proof. intros H. unfold try_except, pd_read_csv. rewrite H. reflexivity. Qed.

Lemma fetch_http_error (code : Z) :
  read_csv_url w url = Raise (HTTPError code) ->
  try_except (pd_read_csv w url) handler = (Raise not_found, [ReadCsv url]).
Proof. intros H. unfold try_except, pd_read_csv. rewrite H. reflexivity. Qed.

Lemma deal_with_url_error_eq :
  deal_with_url_error w url
  = (body <~ requests_get w false url ;; read_csv_text w body,
     [RequestsGet false url]).
Proof.
  unfold deal_with_url_error, http_get.
  destruct (requests_get w false url) as [body|e]; simpl; [|reflexivity].
  destruct (read_csv_text w body); reflexivity.
Qed.

Lemma fetch_url_error :
  read_csv_url w url = Raise URLError ->
  try_except (pd_read_csv w url) handler
  = (body <~ requests_get w false url ;; read_csv_text w body,
     [ReadCsv url; RequestsGet false url]).
Proof.
  intros H. unfold try_except, pd_read_csv. rewrite H. simpl.
  rewrite deal_with_url_error_eq. reflexivity.
Qed.
End CsvFetch.

Lemma bind_tested {A} (m : M A) (is_test : bool) (url : string) :
  ('(a, _) <- (a <- m ;; ret (tested is_test a url)) ;; ret a) = (a <- m ;; ret a).
Proof.
  destruct m as [[a|e] l]; cbv [bind ret tested]; rewrite ?app_nil_r; reflexivity.
Qed.

Lemma indicator_fetch_errors (w : World) (indicator_ids : pyval) :
  distinguishes_errors w (indicator_csv_url indicator_ids)
    ("Indicator " ++ indicator_ids_text indicator_ids ++ " does not exist")
    (for_indicator w indicator_ids).
Proof.
  assert (E : for_indicator w indicator_ids
              = (df <- try_except (pd_read_csv w (indicator_csv_url indicator_ids))
                         (fun e =>
                            if isinstance_HTTPError e
                            then Some (raise (NameError
                                   ("Indicator " ++ indicator_ids_text indicator_ids
                                                 ++ " does not exist")))
                            else if isinstance_URLError e
                            then Some (deal_with_url_error w (indicator_csv_url indicator_ids))
                            else None) ;;
                 ret df)).
  { unfold for_indicator, get_metadata_for_indicator_as_dataframe, indicator_csv_url,
      indicator_ids_text.
    destruct indicator_ids; apply bind_tested. }
  rewrite E. split.
  - intros code H. rewrite (fetch_http_error w _ _ code H). reflexivity.
  - intros H. rewrite (fetch_url_error w _ _ H). split.
    + destruct (requests_get w false (indicator_csv_url indicator_ids)) as [body|e];
        simpl; [|reflexivity].
      destruct (read_csv_text w body); reflexivity.
    + intros body df Hb Hd. rewrite Hb; simpl. rewrite Hd. reflexivity.
Qed.

Lemma domain_fetch_errors (w : World) (group_id : pyval) :
  isinstance_list group_id = false ->
  distinguishes_errors w
    (base_url ++ "indicator_metadata/csv/by_group_id?group_id=" ++ py_str group_id)
    ("Domain " ++ py_str group_id ++ " does not exist")
    (for_domain w group_id).
Proof.
  intros Hl.
  set (url := base_url ++ "indicator_metadata/csv/by_group_id?group_id=" ++ py_str group_id).
  split.
  - intros code H. unfold for_domain, get_metadata_for_domain_as_dataframe.
    destruct group_id; try discriminate Hl;
      (fold url; rewrite (fetch_http_error w url _ code H); reflexivity).
  - intros H. unfold for_domain, get_metadata_for_domain_as_dataframe.
    assert (L : forall r : result DataFrame,
               log (x <- (df <- (r, [ReadCsv url; RequestsGet false url]) ;;
                          ret (tested false df url)) ;;
                    (let '(df, _) := x in ret df))
               = [ReadCsv url; RequestsGet false url]).
    { intros [df|e]; reflexivity. }
    destruct group_id; try discriminate Hl;
      (fold url; rewrite (fetch_url_error w url _ H); split;
       [apply L | intros body df Hb Hd; rewrite Hb; simpl; rewrite Hd; reflexivity]).
Qed.

Lemma profile_fetch_errors (w : World) (profile_id : pyval) :
  isinstance_list profile_id = false ->
  distinguishes_errors w
    (base_url ++ "indicator_metadata/csv/by_profile_id?profile_id=" ++ py_str profile_id)
    ("Profile " ++ py_str profile_id ++ " does not exist")
    (get_metadata_for_profile_as_dataframe w profile_id).
Proof.
  intros Hl.
  set (url := base_url ++ "indicator_metadata/csv/by_profile_id?profile_id="
                       ++ py_str profile_id).
  split.
  - intros code H. unfold get_metadata_for_profile_as_dataframe.
    destruct profile_id; try discriminate Hl;
      (fold url; rewrite (fetch_http_error w url _ code H); reflexivity).
  - intros H. unfold get_metadata_for_profile_as_dataframe.
    destruct profile_id; try discriminate Hl;
      (fold url; rewrite (fetch_url_error w url _ H); split;
       [reflexivity | intros body df Hb Hd; rewrite Hb; simpl; rewrite Hd; reflexivity]).
Qed.

(** Where the code has the clause for the HTTP error: each CSV metadata
    fetch for an identifier (the indicator fetch, for one identifier or a
    list, and the domain and profile fetches for one identifier) tells the
    two errors apart.  Answered by an HTTP error, it raises the error that
    names the entity after the one strict request, and issues no relaxed
    request.  On a URL error it issues exactly one relaxed request after
    the strict one, and the table parsed from that body is the table
    returned. *)
Theorem csv_metadata_fetch_errors (w : World) :
  (forall indicator_ids,
      distinguishes_errors w (indicator_csv_url indicator_ids)
        ("Indicator " ++ indicator_ids_text indicator_ids ++ " does not exist")
        (for_indicator w indicator_ids)) /\
  (forall group_id,
      isinstance_list group_id = false ->
      distinguishes_errors w
        (base_url ++ "indicator_metadata/csv/by_group_id?group_id=" ++ py_str group_id)
        ("Domain " ++ py_str group_id ++ " does not exist")
        (for_domain w group_id)) /\
  (forall profile_id,
      isinstance_list profile_id = false ->
      distinguishes_errors w
        (base_url ++ "indicator_metadata/csv/by_profile_id?profile_id="
                  ++ py_str profile_id)
        ("Profile " ++ py_str profile_id ++ " does not exist")
        (get_metadata_for_profile_as_dataframe w profile_id)).
Proof.
  split; [|split].
  - apply indicator_fetch_errors.
  - apply domain_fetch_errors.
  - apply profile_fetch_errors.
Qed.

Lemma csv_metadata_fetch_errors_witness :
  for_indicator sample_world (PInt 404)
  = (Raise (NameError "Indicator 404 does not exist"),
     [ReadCsv "https://fingertips.phe.org.uk/api/indicator_metadata/csv/by_indicator_id?indicator_ids=404"]) /\
  outcome (for_indicator sample_world (PList [PInt 2; PInt 3])) = Ok retried_row /\
  outcome (for_domain sample_world (PInt 2)) = Ok retried_row.
Proof.
  destruct (csv_metadata_fetch_errors sample_world) as [I [D _]].
  split; [|split].
  - apply (proj1 (I (PInt 404)) 404%Z). vm_compute. reflexivity.
  - assert (H : read_csv_url sample_world (indicator_csv_url (PList [PInt 2; PInt 3]))
                = Raise URLError) by (vm_compute; reflexivity).
    apply (proj2 (proj2 (I (PList [PInt 2; PInt 3])) H)
                 (indicator_csv_url (PList [PInt 2; PInt 3])) retried_row);
      reflexivity.
  - assert (H : read_csv_url sample_world
                  (base_url ++ "indicator_metadata/csv/by_group_id?group_id="
                            ++ py_str (PInt 2))
                = Raise URLError) by (vm_compute; reflexivity).
    apply (proj2 (proj2 (D (PInt 2) eq_refl) H)
                 (base_url ++ "indicator_metadata/csv/by_group_id?group_id="
                           ++ py_str (PInt 2)) retried_row);
      reflexivity.
Defined.

(** In a list of domains or profiles the loop does the same at each
    identifier; see [batch_step_http_error] and [batch_step_url_error]. *)

(** [get_data_by_indicator_ids] has the clause for the URL error alone:
    a URL error is followed by exactly one relaxed request, whose table is
    returned; the HTTP error, being a URL error too, takes the same path. *)
Lemma data_fetch_url_errors_are_retried (w : World) (indicator_id area_type_id : pyval)
    (e : exn) :
  isinstance_list indicator_id = false ->
  isinstance_URLError e = true ->
  forall url,
    format_auto
      "all_data/csv/by_indicator_id?indicator_ids={}&child_area_type_id={}&parent_area_type_id={}"
      [py_str indicator_id; py_str area_type_id; "15"] = Ok url ->
    read_csv_url w (base_url ++ url) = Raise e ->
    log (get_data_by_indicator_ids w indicator_id area_type_id (PInt 15) PNone PNone false)
    = [ReadCsv (base_url ++ url); RequestsGet false (base_url ++ url)] /\
    forall body df,
      requests_get w false (base_url ++ url) = Ok body ->
      read_csv_text w body = Ok df ->
      outcome (get_data_by_indicator_ids w indicator_id area_type_id (PInt 15) PNone PNone
                 false) = Ok (df, None).
Proof.
  intros Hl He url Hf H. unfold get_data_by_indicator_ids.
  replace (truthy PNone) with false by reflexivity. cbn [andb negb].
  assert (Hi : lift (match indicator_id with
                     | PList l =>
                         if existsb isinstance_int l then Ok (join "," (map py_str l))
                         else if forallb isinstance_str l then Ok (join "," (map py_str l))
                         else Raise TypeError
                     | _ => Ok (py_str indicator_id)
                     end) = lift (Ok (py_str indicator_id))).
  { destruct indicator_id; try discriminate Hl; reflexivity. }
  rewrite Hi, bind_lift_ok.
  change (py_str (PInt 15)) with "15". rewrite Hf, bind_lift_ok.
  unfold try_except, pd_read_csv. rewrite H, He.
  rewrite deal_with_url_error_eq. split.
  - destruct (body <~ requests_get w false (base_url ++ url) ;; read_csv_text w body);
      reflexivity.
  - intros body df Hb Hd. rewrite Hb. simpl. rewrite Hd. reflexivity.
Qed.

(** C2, on the code.  Two CSV fetches have no clause for the HTTP error.
    The fetch of the metadata of all indicators, against a service that
    answers its address with the HTTP error 404, sends the relaxed request
    and returns the table parsed from its body; so does the fetch of the
    data of indicator 404, at the lines the claim cites.  Neither raises,
    where the fetch of the metadata of indicator 404 raises the error that
    names the indicator after its one strict request. *)
Theorem csv_fetch_http_error_is_retried :
  let all := base_url ++ "indicator_metadata/csv/all" in
  let data := base_url ++ indicator_data_url (PInt 404) (PInt 7) (PInt 15) in
  read_csv_url not_found_world all = Raise (HTTPError 404) /\
  get_metadata_for_all_indicators_from_csv not_found_world false
  = (Ok (retried_row, None), [ReadCsv all; RequestsGet false all]) /\
  read_csv_url sample_world data = Raise (HTTPError 404) /\
  get_data_by_indicator_ids sample_world (PInt 404) (PInt 7) (PInt 15) PNone PNone false
  = (Ok (retried_row, None), [ReadCsv data; RequestsGet false data]) /\
  for_indicator sample_world (PInt 404)
  = (Raise (NameError "Indicator 404 does not exist"),
     [ReadCsv (indicator_csv_url (PInt 404))]).
Proof. vm_compute. repeat split. Qed.

(** ** The metadata aggregate *)

Lemma provided_truthy (v : pyval) : truthy (provided v) = truthy v.
Proof. unfold provided. destruct (truthy v) eqn:E; [exact E | reflexivity]. Qed.

Lemma provided_keep (v : pyval) : truthy v = true -> provided v = v.
Proof. unfold provided. intros ->. reflexivity. Qed.

(** C10. [get_metadata] takes each of its three arguments by its truth
    value: the call is the call in which every falsy argument is replaced
    by [None]; 0, the empty list and the empty string are such arguments,
    and the call with [indicator_ids=0] alone raises the error of the
    call without arguments. *)
Theorem get_metadata_truthiness (w : World) :
  (forall i d p,
      get_metadata w i d p = get_metadata w (provided i) (provided d) (provided p)) /\
  provided (PInt 0) = PNone /\
  provided (PList []) = PNone /\
  provided (PStr "") = PNone /\
  get_metadata w (PInt 0) PNone PNone
  = raise (NameError "At least one of indicator_ids, domain_ids, or profile_ids must be provided.").
Proof.
  split; [|repeat split].
  intros i d p. unfold get_metadata. rewrite !provided_truthy.
  destruct (truthy i) eqn:Hi, (truthy d) eqn:Hd, (truthy p) eqn:Hp; cbn [andb negb];
    rewrite ?(provided_keep i Hi), ?(provided_keep d Hd), ?(provided_keep p Hp);
    reflexivity.
Qed.

Lemma get_metadata_missing (w : World) :
  get_metadata w PNone PNone PNone
  = raise (NameError "At least one of indicator_ids, domain_ids, or profile_ids must be provided.").
Proof. reflexivity. Qed.

Lemma get_metadata_all_three (w : World) (i d p : pyval) :
  truthy i = true -> truthy d = true -> truthy p = true ->
  aggregate_of_three w i d p.
Proof.
  intros Hi Hd Hp tp td ti. unfold get_metadata. rewrite Hi, Hd, Hp. cbn [andb].
  destruct (get_metadata_for_profile_as_dataframe w p) as [rp lp].
  destruct (for_domain w d) as [rd ld].
  destruct (for_indicator w i) as [ri li].
  unfold outcome, log; simpl. intros -> -> ->. simpl.
  split; [reflexivity|]. split.
  - intros r [= <-]. rewrite !nrows_pd_concat. reflexivity.
  - rewrite app_nil_r. reflexivity.
Qed.

(** C4, as the code has it. [get_metadata] without arguments raises the
    missing-parameter error; with three arguments that are all truthy it
    returns the profile table, then the domain table, then the indicator
    table, concatenated in that order, the requests being issued in that
    order too, and the number of rows is the sum of the three. *)
Theorem get_metadata_none_or_all (w : World) (i d p : pyval) :
  get_metadata w PNone PNone PNone
  = raise (NameError "At least one of indicator_ids, domain_ids, or profile_ids must be provided.") /\
  (truthy i = true -> truthy d = true -> truthy p = true ->
   aggregate_of_three w i d p).
Proof. split; [apply get_metadata_missing | apply get_metadata_all_three]. Qed.

Lemma get_metadata_none_or_all_witness :
  outcome (get_metadata sample_world (PInt 5) (PList [PInt 1; PInt 3]) (PInt 3))
  = Ok (Some (pd_concat
                (pd_concat two_rows (pd_concat (pd_concat empty_frame two_rows) two_rows))
                two_rows)).
Proof.
  refine (proj1 (proj2 (get_metadata_none_or_all sample_world (PInt 5)
                          (PList [PInt 1; PInt 3]) (PInt 3))
                   eq_refl eq_refl eq_refl
                   two_rows (pd_concat (pd_concat empty_frame two_rows) two_rows) two_rows
                   _ _ _));
    reflexivity.
Defined.

(** C4, as stated, fails where an argument is given and falsy: with
    [indicator_ids=0] the indicator table is left out. *)
Lemma get_metadata_all_three_given_counterexample :
  is_None (PInt 0) = false /\ is_None (PInt 1) = false /\ is_None (PInt 3) = false /\
  ~ aggregate_of_three sample_world (PInt 0) (PInt 1) (PInt 3).
Proof.
  repeat split. intros H.
  destruct (H two_rows two_rows two_rows) as [E _]; try (vm_compute; reflexivity).
  vm_compute in E. discriminate E.
Qed.

(** ** Text: substring search and case *)

Lemma prefix_lower (a b : string) :
  prefix a b = true -> prefix (lower a) (lower b) = true.
Proof.
  revert b. induction a as [|c a IH]; intros b H; [destruct b; reflexivity|].
  destruct b as [|c' b]; [discriminate H|]. simpl in *.
  destruct (ascii_dec c c') as [->|]; [|discriminate H].
  destruct (ascii_dec (lower_ascii c') (lower_ascii c')) as [_|N]; [|contradiction].
  apply IH, H.
Qed.

Lemma contains_nil (a : string) : contains a "" = prefix a "".
Proof. destruct a; reflexivity. Qed.

Lemma contains_cons (a : string) (c : ascii) (b : string) :
  contains a (String c b) = prefix a (String c b) || contains a b.
Proof. cbn [contains]. destruct (prefix a (String c b)); reflexivity. Qed.

Lemma contains_lower (a b : string) :
  contains a b = true -> contains (lower a) (lower b) = true.
Proof.
  induction b as [|c b IH].
  - rewrite contains_nil. intros P. apply prefix_lower in P.
    change (lower "") with "". rewrite contains_nil. exact P.
  - rewrite contains_cons. intros H. apply orb_true_iff in H.
    change (lower (String c b)) with (String (lower_ascii c) (lower b)).
    rewrite contains_cons. apply orb_true_iff. destruct H as [P|H].
    + left. apply (prefix_lower a (String c b) P).
    + right. apply IH, H.
Qed.

Lemma prefix_of_lower (a b : string) :
  prefix a (lower b) = true -> exists v, lower v = a /\ prefix v b = true.
Proof.
  revert b. induction a as [|c a IH]; intros b H.
  - exists EmptyString. split; [reflexivity | destruct b; reflexivity].
  - destruct b as [|c' b]; [discriminate H|]. simpl in H.
    destruct (ascii_dec c (lower_ascii c')) as [->|]; [|discriminate H].
    destruct (IH b H) as [v [Hv Hp]].
    exists (String c' v). simpl. rewrite Hv. split; [reflexivity|].
    destruct (ascii_dec c' c') as [_|N]; [exact Hp | contradiction].
Qed.

Lemma contains_of_lower (a b : string) :
  contains a (lower b) = true -> exists v, lower v = a /\ contains v b = true.
Proof.
  induction b as [|c b IH].
  - change (lower "") with "". rewrite contains_nil. intros P.
    destruct (prefix_of_lower a "" P) as [v [Hv Hp]].
    exists v. split; [exact Hv|]. rewrite contains_nil. exact Hp.
  - change (lower (String c b)) with (String (lower_ascii c) (lower b)).
    rewrite contains_cons. intros H. apply orb_true_iff in H. destruct H as [P|H].
    + destruct (prefix_of_lower a (String c b) P) as [v [Hv Hp]].
      exists v. split; [exact Hv|]. rewrite contains_cons, Hp. reflexivity.
    + destruct (IH H) as [v [Hv Hc]]. exists v. split; [exact Hv|].
      rewrite contains_cons, Hc. apply orb_true_r.
Qed.

(** A text holds [word] in some case exactly when its lower case holds
    [word]. *)
Lemma contains_any_case (word name : string) :
  contains word (lower name) = true <->
  exists v, lower v = word /\ contains v name = true.
Proof.
  split; [apply contains_of_lower|].
  intros [v [<- H]]. apply contains_lower, H.
Qed.

Lemma contains_no_case (word name : string) :
  contains word (lower name) = false <->
  forall v, lower v = word -> contains v name = false.
Proof.
  split.
  - intros H v Hv. destruct (contains v name) eqn:E; [|reflexivity].
    rewrite <- H. symmetry. apply contains_any_case. exists v. split; assumption.
  - intros H. destruct (contains word (lower name)) eqn:E; [|reflexivity].
    apply contains_any_case in E. destruct E as [v [Hv Hc]].
    rewrite (H v Hv) in Hc. discriminate Hc.
Qed.

(** ** Multiplier and calculation method *)

Lemma classify_calc_eq (name : string) :
  classify_calc (PStr name)
  = Ok (if contains "wilson" (lower name) then PStr "Wilson"
        else if contains "byar" (lower name) then PStr "Byar"
        else PNone).
Proof.
  unfold classify_calc; simpl.
  destruct (contains "wilson" (lower name)); [reflexivity|].
  destruct (contains "byar" (lower name)); reflexivity.
Qed.

(** C6, as the code has it. The multiplier is [Unit.Value] of the
    indicator's metadata. A method name that holds "wilson" in any case
    gives "Wilson"; a name that holds "byar" in any case and "wilson" in
    none gives "Byar"; a name that holds neither gives [None]; there is no
    other outcome. *)
Theorem multiplier_and_calculation (w : World) (n md unit m cim : pyval)
    (name : string) (u : option string) (l : list request) :
  get_metadata_for_indicator w n false = (Ok (md, u), l) ->
  py_get md (PStr "Unit") = Ok unit ->
  py_get unit (PStr "Value") = Ok m ->
  py_get md (PStr "ConfidenceIntervalMethod") = Ok cim ->
  py_get cim (PStr "Name") = Ok (PStr name) ->
  exists calc,
    get_multiplier_and_calculation_for_indicator w n = (Ok (m, calc), l) /\
    (forall v, lower v = "wilson" -> contains v name = true -> calc = PStr "Wilson") /\
    (forall v, lower v = "byar" -> contains v name = true ->
               (forall v', lower v' = "wilson" -> contains v' name = false) ->
               calc = PStr "Byar") /\
    ((forall v, lower v = "wilson" \/ lower v = "byar" -> contains v name = false) ->
     calc = PNone) /\
    (calc = PStr "Wilson" \/ calc = PStr "Byar" \/ calc = PNone).
Proof.
  intros Hmd Hunit Hm Hcim Hname.
  exists (if contains "wilson" (lower name) then PStr "Wilson"
          else if contains "byar" (lower name) then PStr "Byar"
          else PNone).
  split; [|split; [|split; [|split]]].
  - unfold get_multiplier_and_calculation_for_indicator.
    rewrite Hmd, bind_ok. cbn beta iota.
    rewrite Hunit, bind_lift_ok, Hm, bind_lift_ok, Hcim, bind_lift_ok, Hname,
      bind_lift_ok, classify_calc_eq, bind_lift_ok.
    unfold outcome, log, ret; simpl. rewrite app_nil_r. reflexivity.
  - intros v Hv Hc.
    assert (E : contains "wilson" (lower name) = true)
      by (apply contains_any_case; exists v; split; assumption).
    rewrite E. reflexivity.
  - intros v Hv Hc Hn.
    assert (E : contains "byar" (lower name) = true)
      by (apply contains_any_case; exists v; split; assumption).
    apply contains_no_case in Hn. rewrite Hn, E. reflexivity.
  - intros Hn.
    assert (E1 : contains "wilson" (lower name) = false)
      by (apply contains_no_case; intros v Hv; apply Hn; left; exact Hv).
    assert (E2 : contains "byar" (lower name) = false)
      by (apply contains_no_case; intros v Hv; apply Hn; right; exact Hv).
    rewrite E1, E2. reflexivity.
  - destruct (contains "wilson" (lower name)); [left; reflexivity|].
    destruct (contains "byar" (lower name)); [right; left | right; right]; reflexivity.
Qed.

Lemma multiplier_and_calculation_witness :
  exists calc,
    get_multiplier_and_calculation_for_indicator sample_world (PInt 5)
    = (Ok (PInt 100, calc),
       [RequestsGet true
          "https://fingertips.phe.org.uk/api/indicator_metadata/by_indicator_id?indicator_ids=5"]) /\
    calc = PStr "Byar".
Proof.
  destruct (multiplier_and_calculation sample_world (PInt 5)
              (PDict [(PStr "Unit", PDict [(PStr "Value", PInt 100)]);
                      (PStr "ConfidenceIntervalMethod",
                       PDict [(PStr "Name", PStr "Byar's method")])])
              (PDict [(PStr "Value", PInt 100)]) (PInt 100)
              (PDict [(PStr "Name", PStr "Byar's method")])
              "Byar's method" None
              [RequestsGet true
                 "https://fingertips.phe.org.uk/api/indicator_metadata/by_indicator_id?indicator_ids=5"])
    as [calc [E [_ [B _]]]]; try (vm_compute; reflexivity).
  exists calc. split; [exact E|].
  apply (B "Byar"); [reflexivity | reflexivity |].
  apply contains_no_case. reflexivity.
Defined.

(** C6, as stated, fails on a name that holds both words: it holds "Byar"
    and the method returned is "Wilson". *)
Lemma calculation_both_names_counterexample :
  let name := "Byar's method (Wilson for proportions)" in
  (md <~ py_get sample_metadata (PStr "6") ;;
   cim <~ py_get md (PStr "ConfidenceIntervalMethod") ;;
   py_get cim (PStr "Name")) = Ok (PStr name) /\
  contains "Byar" name = true /\
  outcome (get_multiplier_and_calculation_for_indicator sample_world (PInt 6))
  = Ok (PInt 1000, PStr "Wilson") /\
  ~ classified_unordered name (PStr "Wilson").
Proof.
  repeat split. intros [_ [H _]].
  assert (E : contains "byar" (lower "Byar's method (Wilson for proportions)") = true)
    by reflexivity.
  specialize (H E). discriminate H.
Qed.

(** ** Loops that can raise *)

Lemma fold_r_app {A S} (xs ys : list A) (body : S -> A -> result S) (acc : S) :
  fold_r (xs ++ ys) body acc = (acc' <~ fold_r xs body acc ;; fold_r ys body acc').
Proof.
  revert acc. induction xs as [|x xs IH]; intros acc; simpl; [reflexivity|].
  destruct (body acc x); simpl; [apply IH | reflexivity].
Qed.

(** ** Profile search by name *)

Section ProfileByName.
Variable needle : string.

Lemma profile_name_step_eq (acc p : pyval) :
  has_name p ->
  profile_name_step (PStr needle) acc p
  = Ok (if name_matches needle p then p else acc).
Proof.
  intros [name H]. unfold name_matches. rewrite H.
  destruct p; try discriminate H. simpl in H.
  unfold profile_name_step; simpl. rewrite H. reflexivity.
Qed.

Lemma profile_loop_no_match (vs : list pyval) (acc : pyval) :
  (forall p, In p vs -> has_name p) ->
  (forall p, In p vs -> name_matches needle p = false) ->
  fold_r vs (profile_name_step (PStr needle)) acc = Ok acc.
Proof.
  revert acc. induction vs as [|p vs IH]; intros acc Hn Hm; [reflexivity|].
  simpl. rewrite profile_name_step_eq by (apply Hn; left; reflexivity).
  rewrite (Hm p) by (left; reflexivity). simpl.
  apply IH; intros q Hq; [apply Hn | apply Hm]; right; exact Hq.
Qed.

Lemma profile_loop_total (vs : list pyval) (acc : pyval) :
  (forall p, In p vs -> has_name p) ->
  exists acc', fold_r vs (profile_name_step (PStr needle)) acc = Ok acc'.
Proof.
  revert acc. induction vs as [|p vs IH]; intros acc Hn; [exists acc; reflexivity|].
  simpl. rewrite profile_name_step_eq by (apply Hn; left; reflexivity). simpl.
  apply IH. intros q Hq. apply Hn. right. exact Hq.
Qed.

Lemma profile_loop_last_match (pre post : list pyval) (p acc : pyval) :
  (forall q, In q (pre ++ p :: post) -> has_name q) ->
  name_matches needle p = true ->
  (forall q, In q post -> name_matches needle q = false) ->
  fold_r (pre ++ p :: post) (profile_name_step (PStr needle)) acc = Ok p.
Proof.
  intros Hn Hp Hpost. rewrite fold_r_app.
  destruct (profile_loop_total pre acc) as [acc' E].
  { intros q Hq. apply Hn, in_or_app. left. exact Hq. }
  rewrite E. simpl.
  rewrite profile_name_step_eq by (apply Hn, in_or_app; right; left; reflexivity).
  rewrite Hp. simpl. apply profile_loop_no_match; [|exact Hpost].
  intros q Hq. apply Hn, in_or_app. right. right. exact Hq.
Qed.

Lemma matching_profile_truthy (p : pyval) :
  name_matches needle p = true -> truthy p = true.
Proof.
  unfold name_matches, field. destruct p; try discriminate.
  destruct d; [discriminate | reflexivity].
Qed.
End ProfileByName.

(** C7. The search compares the lower-case search text with the lower-case
    [Name] of every profile, in the order in which the profiles mapping is
    iterated. When profiles match, the last one in that order is
    returned; when none matches, the text "Profile could not be found" is
    returned as a value, and nothing is raised. *)
Theorem get_profile_by_name_last_match (w : World) (needle : string)
    (d : pydict) (u : option string) (l : list request) :
  get_all_profiles w false = (Ok (PDict d, u), l) ->
  (forall p, In p (dict_values d) -> has_name p) ->
  (forall pre p post,
      dict_values d = (pre ++ p :: post)%list ->
      name_matches needle p = true ->
      (forall q, In q post -> name_matches needle q = false) ->
      get_profile_by_name w (PStr needle) = (Ok p, l)) /\
  ((forall p, In p (dict_values d) -> name_matches needle p = false) ->
   get_profile_by_name w (PStr needle) = (Ok (PStr "Profile could not be found"), l)).
Proof.
  intros Hall Hn. split.
  - intros pre p post Hd Hp Hpost. unfold get_profile_by_name.
    rewrite Hall, bind_ok. cbn beta iota. cbn [py_values rbind]. rewrite Hd.
    rewrite profile_loop_last_match; [| rewrite <- Hd; exact Hn | exact Hp | exact Hpost].
    rewrite bind_lift_ok, (matching_profile_truthy needle p Hp).
    unfold outcome, log; simpl. rewrite app_nil_r. reflexivity.
  - intros Hm. unfold get_profile_by_name.
    rewrite Hall, bind_ok. cbn beta iota. cbn [py_values rbind].
    rewrite profile_loop_no_match by assumption.
    rewrite bind_lift_ok. unfold outcome, log; simpl. rewrite app_nil_r. reflexivity.
Qed.

Lemma get_profile_by_name_last_match_witness :
  get_profile_by_name sample_world (PStr "Search")
  = (Ok (PDict [(PStr "Id", PInt 2); (PStr "Name", PStr "Fingertips Search B")]),
     [RequestsGet true "https://fingertips.phe.org.uk/api/profiles"]) /\
  get_profile_by_name sample_world (PStr "obesity")
  = (Ok (PStr "Profile could not be found"),
     [RequestsGet true "https://fingertips.phe.org.uk/api/profiles"]).
Proof.
  assert (Hn : forall p,
             In p (dict_values
                     [(PInt 1, PDict [(PStr "Id", PInt 1); (PStr "Name", PStr "Fingertips Search A")]);
                      (PInt 2, PDict [(PStr "Id", PInt 2); (PStr "Name", PStr "Fingertips Search B")])]) ->
             has_name p).
  { intros p [<-|[<-|[]]]; eexists; reflexivity. }
  split.
  - apply (proj1 (get_profile_by_name_last_match sample_world "Search" _ None _ eq_refl Hn)
             [PDict [(PStr "Id", PInt 1); (PStr "Name", PStr "Fingertips Search A")]]
             (PDict [(PStr "Id", PInt 2); (PStr "Name", PStr "Fingertips Search B")])
             []); [reflexivity | reflexivity | intros q []].
  - apply (proj2 (get_profile_by_name_last_match sample_world "obesity" _ None _ eq_refl Hn)).
    intros p [<-|[<-|[]]]; reflexivity.
Defined.

(** ** Dictionaries *)

Lemma key_eqb_sym (a b : pyval) : key_eqb a b = key_eqb b a.
Proof.
  destruct a, b; simpl; try reflexivity;
    try apply Z.eqb_sym; try apply String.eqb_sym.
  destruct b, b0; reflexivity.
Qed.

Lemma key_eqb_refl (k : pyval) : hashable k = true -> key_eqb k k = true.
Proof.
  destruct k; simpl; intros H; try discriminate H; try reflexivity.
  - destruct b; reflexivity.
  - apply Z.eqb_refl.
  - apply String.eqb_refl.
Qed.

Lemma key_eqb_trans (a b c : pyval) :
  key_eqb a b = true -> key_eqb b c = true -> key_eqb a c = true.
Proof.
  destruct a, b, c; simpl; intros H1 H2; try discriminate; try reflexivity;
    repeat match goal with
           | H : (_ =? _)%Z = true |- _ => apply Z.eqb_eq in H
           | H : (_ =? _)%string = true |- _ => apply String.eqb_eq in H
           | H : Bool.eqb _ _ = true |- _ => apply Bool.eqb_prop in H
           end;
    subst;
    repeat match goal with
           | b : bool |- _ => destruct b
           end;
    try discriminate; try reflexivity;
    try apply Z.eqb_refl; try apply String.eqb_refl;
    try (apply Z.eqb_eq; lia); try lia.
Qed.

Lemma key_eqb_false_l (a b c : pyval) :
  key_eqb a b = true -> key_eqb a c = false -> key_eqb b c = false.
Proof.
  intros H1 H2. destruct (key_eqb b c) eqn:E; [|reflexivity].
  rewrite (key_eqb_trans a b c H1 E) in H2. discriminate H2.
Qed.

Lemma key_eqb_false_r (a b c : pyval) :
  key_eqb a b = true -> key_eqb c a = false -> key_eqb c b = false.
Proof.
  intros H1 H2. rewrite key_eqb_sym. rewrite key_eqb_sym in H2.
  apply (key_eqb_false_l a b c H1 H2).
Qed.

Lemma dict_lookup_set_eq (d : pydict) (k k' x : pyval) :
  key_eqb k k' = true -> dict_lookup (dict_set d k x) k' = Some x.
Proof.
  intros H. induction d as [|[k0 x0] d IH]; simpl.
  - rewrite H. reflexivity.
  - destruct (key_eqb k0 k) eqn:E; simpl.
    + rewrite (key_eqb_trans k0 k k' E H). reflexivity.
    + rewrite (key_eqb_false_r k k' k0 H E). exact IH.
Qed.

Lemma dict_lookup_set_ne (d : pydict) (k k' x : pyval) :
  key_eqb k k' = false -> dict_lookup (dict_set d k x) k' = dict_lookup d k'.
Proof.
  intros H. induction d as [|[k0 x0] d IH]; simpl.
  - rewrite H. reflexivity.
  - destruct (key_eqb k0 k) eqn:E; simpl.
    + rewrite key_eqb_sym in E.
      rewrite (key_eqb_false_l k k0 k' E H). reflexivity.
    + rewrite IH. reflexivity.
Qed.

Lemma dict_has_set_eq (d : pydict) (k x : pyval) :
  hashable k = true -> dict_has (dict_set d k x) k = true.
Proof.
  intros H. unfold dict_has.
  rewrite (dict_lookup_set_eq d k k x (key_eqb_refl k H)). reflexivity.
Qed.

Lemma dict_has_set_mono (d : pydict) (k k' x : pyval) :
  dict_has d k' = true -> dict_has (dict_set d k x) k' = true.
Proof.
  unfold dict_has. intros H. destruct (key_eqb k k') eqn:E.
  - rewrite (dict_lookup_set_eq d k k' x E). reflexivity.
  - rewrite (dict_lookup_set_ne d k k' x E). exact H.
Qed.

Lemma dict_has_in (d : pydict) (k k' x : pyval) :
  In (k, x) d -> key_eqb k k' = true -> dict_has d k' = true.
Proof.
  unfold dict_has. induction d as [|[k0 x0] d IH]; simpl; intros Hin E; [contradiction|].
  destruct (key_eqb k0 k') eqn:E0; [reflexivity|].
  destruct Hin as [Heq|Hin]; [|apply IH; assumption].
  injection Heq as -> ->. rewrite E in E0. discriminate E0.
Qed.

Lemma dict_lookup_remove (d : pydict) (k : pyval) :
  dict_lookup (dict_remove d k) k = None.
Proof.
  unfold dict_remove. induction d as [|[k0 x0] d IH]; simpl; [reflexivity|].
  destruct (key_eqb k0 k) eqn:E; simpl; [exact IH|]. rewrite E. exact IH.
Qed.

Lemma keys_distinct_set (d : pydict) (k x : pyval) :
  keys_distinct d = true -> keys_distinct (dict_set d k x) = true.
Proof.
  induction d as [|[k0 x0] d IH]; simpl; intros H; [reflexivity|].
  apply andb_true_iff in H. destruct H as [H1 H2].
  destruct (key_eqb k0 k) eqn:E; simpl.
  - rewrite H1, H2. reflexivity.
  - rewrite (IH H2), andb_true_r. unfold dict_has in *.
    rewrite key_eqb_sym in E. rewrite (dict_lookup_set_ne d k k0 x E). exact H1.
Qed.

(** The entries of a dictionary after [d[k] = x]: the old entries under
    other keys, and [x] under the key. *)
Lemma in_dict_set (d : pydict) (k x k1 x1 : pyval) :
  hashable k = true ->
  keys_distinct d = true ->
  In (k1, x1) (dict_set d k x) ->
  (In (k1, x1) d /\ key_eqb k1 k = false) \/ (x1 = x /\ key_eqb k1 k = true).
Proof.
  intros Hk. induction d as [|[k0 x0] d IH]; simpl; intros Hd Hin.
  - destruct Hin as [Heq|[]]. injection Heq as <- <-.
    right. split; [reflexivity | apply key_eqb_refl, Hk].
  - apply andb_true_iff in Hd. destruct Hd as [H1 H2].
    destruct (key_eqb k0 k) eqn:E; simpl in Hin.
    + destruct Hin as [Heq|Hin].
      * injection Heq as <- <-. right. split; [reflexivity | exact E].
      * left. split; [right; exact Hin|].
        destruct (key_eqb k1 k) eqn:E1; [|reflexivity].
        rewrite key_eqb_sym in E.
        pose proof (key_eqb_trans k1 k k0 E1 E) as E2.
        apply negb_true_iff in H1.
        rewrite (dict_has_in d k1 k0 x1 Hin E2) in H1. discriminate H1.
    + destruct Hin as [Heq|Hin].
      * injection Heq as <- <-. left. split; [left; reflexivity | exact E].
      * destruct (IH H2 Hin) as [[Hi Hk1]|Hr].
        -- left. split; [right; exact Hi | exact Hk1].
        -- right. exact Hr.
Qed.

Lemma in_keys_dict_set (d : pydict) (k x k1 : pyval) :
  In k1 (dict_keys (dict_set d k x)) -> In k1 (dict_keys d) \/ k1 = k.
Proof.
  unfold dict_keys. induction d as [|[k0 x0] d IH]; simpl.
  - intros [<-|[]]. right. reflexivity.
  - destruct (key_eqb k0 k); simpl.
    + intros H. left. exact H.
    + intros [<-|H]; [left; left; reflexivity|].
      destruct (IH H) as [Hi|He]; [left; right; exact Hi | right; exact He].
Qed.

(** ** Pop mode: [make_request] *)

Lemma make_request_eq (w : World) (url : string) (attr : pyval) :
  make_request w url attr
  = (json_response <- get_json w url ;;
     data <- lift (items <~ py_iter json_response ;;
                   fold_r items (make_request_step attr) []) ;;
     ret (PDict data)).
Proof.
  unfold make_request, get_json.
  destruct (try_except (http_get w true url)
              (fun e => if isinstance_SSLError e then Some (http_get w false url) else None))
    as [[req|e] l]; [|reflexivity].
  unfold bind, lift, ret.
  destruct (json_loads w req) as [j|e]; [|reflexivity]. simpl.
  destruct (items <~ py_iter j ;; fold_r items (make_request_step attr) []);
    simpl; rewrite !app_nil_r; reflexivity.
Qed.

Section PopMode.
Variable a : string.

Lemma make_request_step_eq (d0 o : pydict) (kv : pyval) :
  dict_lookup o (PStr a) = Some kv ->
  make_request_step (PStr a) d0 (PDict o)
  = py_setitem d0 kv (PDict (dict_remove o (PStr a))).
Proof. intros H. unfold make_request_step; simpl. rewrite H. reflexivity. Qed.

Lemma pop_loop (items : list pyval) (d0 d : pydict) :
  fold_r items (make_request_step (PStr a)) d0 = Ok d ->
  (forall item, In item items -> exists kv, field item (PStr a) = Some kv) ->
  keys_distinct d0 = true ->
  keys_distinct d = true /\
  (forall k v, In (k, v) d ->
               In (k, v) d0 \/ (field v (PStr a) = None /\ exists o, v = PDict o)) /\
  (forall k, In k (dict_keys d) ->
             In k (dict_keys d0) \/
             exists item, In item items /\ field item (PStr a) = Some k) /\
  (forall item kv, In item items -> field item (PStr a) = Some kv ->
                   dict_has d kv = true) /\
  (forall k, dict_has d0 k = true -> dict_has d k = true).
Proof.
  revert d0. induction items as [|item items IH]; intros d0 Hfold Hf Hd0.
  - injection Hfold as <-. repeat split; auto.
  - destruct (Hf item (or_introl eq_refl)) as [kv Hkv].
    destruct item as [| | | | |o]; try discriminate Hkv. simpl in Hkv.
    simpl in Hfold. rewrite (make_request_step_eq d0 o kv Hkv) in Hfold.
    unfold py_setitem in Hfold. destruct (hashable kv) eqn:Hh; [|discriminate Hfold].
    simpl in Hfold.
    destruct (IH _ Hfold (fun it Hi => Hf it (or_intror Hi))
                (keys_distinct_set d0 kv _ Hd0)) as [I1 [I2 [I3 [I4 I5]]]].
    split; [exact I1|]. split; [|split; [|split]].
    + intros k v Hin. destruct (I2 k v Hin) as [Hin1|Hg]; [|right; exact Hg].
      destruct (in_dict_set d0 kv _ k v Hh Hd0 Hin1) as [[Hin0 _]|[-> _]].
      * left. exact Hin0.
      * right. split; [simpl; apply dict_lookup_remove | eexists; reflexivity].
    + intros k Hin. destruct (I3 k Hin) as [Hin1|[it [Hi Hfi]]].
      * destruct (in_keys_dict_set d0 kv _ k Hin1) as [Hin0| ->].
        -- left. exact Hin0.
        -- right. exists (PDict o). split; [left; reflexivity | exact Hkv].
      * right. exists it. split; [right; exact Hi | exact Hfi].
    + intros it kv' [<-|Hi] Hfi.
      * simpl in Hfi. rewrite Hkv in Hfi. injection Hfi as <-.
        apply I5, dict_has_set_eq, Hh.
      * apply (I4 it kv' Hi Hfi).
    + intros k Hk. apply I5, dict_has_set_mono, Hk.
Qed.

Lemma pop_loop_total (items : list pyval) (d0 : pydict) :
  (forall item, In item items ->
                exists kv, field item (PStr a) = Some kv /\ hashable kv = true) ->
  exists d, fold_r items (make_request_step (PStr a)) d0 = Ok d.
Proof.
  revert d0. induction items as [|item items IH]; intros d0 Hf.
  - exists d0. reflexivity.
  - destruct (Hf item (or_introl eq_refl)) as [kv [Hkv Hh]].
    destruct item as [| | | | |o]; try discriminate Hkv. simpl in Hkv.
    simpl. rewrite (make_request_step_eq d0 o kv Hkv). unfold py_setitem.
    rewrite Hh. simpl. apply IH. intros it Hi. apply Hf. right. exact Hi.
Qed.
End PopMode.

(** C3. In pop mode, on a response that is a list of objects which all
    have the key field: every record of the result is an object without
    the key field; every key of the result is the key-field value of an
    object of the response; the key-field value of every object of the
    response is a key of the result; and no two keys of the result are
    equal.  The call returns such a result whenever the key-field values
    can be dictionary keys. *)
Theorem make_request_pop_mode (w : World) (url a : string) (items : list pyval)
    (l : list request) :
  get_json w url = (Ok (PList items), l) ->
  (forall item, In item items -> exists kv, field item (PStr a) = Some kv) ->
  (forall data,
      outcome (make_request w url (PStr a)) = Ok data ->
      exists d,
        data = PDict d /\
        (forall k v, In (k, v) d -> field v (PStr a) = None /\ exists o, v = PDict o) /\
        (forall k, In k (dict_keys d) ->
                   exists item, In item items /\ field item (PStr a) = Some k) /\
        (forall item kv, In item items -> field item (PStr a) = Some kv ->
                         dict_has d kv = true) /\
        keys_distinct d = true) /\
  ((forall item kv, In item items -> field item (PStr a) = Some kv ->
                    hashable kv = true) ->
   exists data, make_request w url (PStr a) = (Ok data, l)).
Proof.
  intros Hjson Hf. rewrite make_request_eq, Hjson, bind_ok. cbn [py_iter rbind].
  split.
  - intros data Hout.
    destruct (fold_r items (make_request_step (PStr a)) []) as [d|e] eqn:Hfold;
      [|discriminate Hout].
    rewrite bind_lift_ok in Hout. injection Hout as <-.
    destruct (pop_loop a items [] d Hfold Hf eq_refl) as [I1 [I2 [I3 [I4 _]]]].
    exists d. split; [reflexivity|]. split; [|split; [|split]].
    + intros k v Hin. destruct (I2 k v Hin) as [[]|Hg]. exact Hg.
    + intros k Hin. destruct (I3 k Hin) as [[]|Hg]. exact Hg.
    + exact I4.
    + exact I1.
  - intros Hh. destruct (pop_loop_total a items []) as [d Hfold].
    { intros item Hi. destruct (Hf item Hi) as [kv Hkv].
      exists kv. split; [exact Hkv | apply (Hh item kv Hi Hkv)]. }
    rewrite Hfold, bind_lift_ok. exists (PDict d).
    unfold outcome, log, ret; simpl. rewrite app_nil_r. reflexivity.
Qed.

Lemma make_request_pop_mode_witness :
  exists d,
    make_request sample_world (base_url ++ "sexes") (PStr "Name")
    = (Ok (PDict d), [RequestsGet true (base_url ++ "sexes")]) /\
    keys_distinct d = true /\
    dict_has d (PStr "Female") = true.
Proof.
  assert (Hf : forall item,
             In item [PDict [(PStr "Id", PInt 1); (PStr "Name", PStr "Male")];
                      PDict [(PStr "Id", PInt 2); (PStr "Name", PStr "Female")]] ->
             exists kv, field item (PStr "Name") = Some kv).
  { intros item [<-|[<-|[]]]; eexists; reflexivity. }
  pose proof (make_request_pop_mode sample_world (base_url ++ "sexes") "Name" _
                [RequestsGet true (base_url ++ "sexes")] eq_refl Hf) as [P T].
  destruct T as [data E].
  { intros item kv [<-|[<-|[]]] [= <-]; reflexivity. }
  destruct (P data) as [d [-> [_ [_ [H K]]]]]; [rewrite E; reflexivity|].
  exists d. split; [exact E|]. split; [exact K|].
  apply (H (PDict [(PStr "Id", PInt 2); (PStr "Name", PStr "Female")]));
    [right; left; reflexivity | reflexivity].
Defined.

(** ** Pick mode: [get_data_in_dict] *)

Lemma fold_r_ext {A S} (xs : list A) (f g : S -> A -> result S) (acc : S) :
  (forall s x, f s x = g s x) -> fold_r xs f acc = fold_r xs g acc.
Proof.
  intros H. revert acc. induction xs as [|x xs IH]; intros acc; simpl; [reflexivity|].
  rewrite H. destruct (g acc x); simpl; [apply IH | reflexivity].
Qed.

Section PickMode.
Variables key value : pyval.

Lemma pick_loops (items : list pyval) (d : pydict) :
  (if is_None value
   then fold_r items (pick_whole key) d
   else fold_r items (pick_field key value) d)
  = fold_r items (pick key value) d.
Proof.
  unfold pick, picked, pick_whole, pick_field.
  destruct (is_None value); apply fold_r_ext; intros s x; reflexivity.
Qed.

Lemma pick_loop (items : list pyval) (d : pydict) :
  fold_r items (pick key value) [] = Ok d ->
  keys_distinct d = true /\
  (forall k x,
      In (k, x) d ->
      exists pre js post k',
        items = (pre ++ js :: post)%list /\
        py_get js key = Ok k' /\ key_eqb k k' = true /\
        picked value js = Ok x /\
        forall js' k'', In js' post -> py_get js' key = Ok k'' ->
                        key_eqb k k'' = false) /\
  (forall js k, In js items -> py_get js key = Ok k -> dict_has d k = true).
Proof.
  revert d. induction items as [|js items IH] using rev_ind; intros d Hfold.
  - injection Hfold as <-. split; [reflexivity|]. split.
    + intros k x [].
    + intros js k [].
  - rewrite fold_r_app in Hfold.
    destruct (fold_r items (pick key value) []) as [d'|e] eqn:Hd'; [|discriminate Hfold].
    destruct (IH d' eq_refl) as [I1 [I2 I3]].
    simpl in Hfold. unfold pick at 1 in Hfold.
    destruct (picked value js) as [x|e] eqn:Hx; [|discriminate Hfold].
    destruct (py_get js key) as [k|e] eqn:Hk; [|discriminate Hfold].
    simpl in Hfold. unfold py_setitem in Hfold.
    destruct (hashable k) eqn:Hh; [|discriminate Hfold].
    injection Hfold as <-.
    split; [apply keys_distinct_set, I1|]. split.
    + intros k1 x1 Hin.
      destruct (in_dict_set d' k x k1 x1 Hh I1 Hin) as [[Hin' Hne]|[-> Heq]].
      * destruct (I2 k1 x1 Hin') as [pre [js0 [post [k' [E [G [K [P L]]]]]]]].
        exists pre, js0, (post ++ [js])%list, k'.
        split; [rewrite E, <- app_assoc; reflexivity|].
        split; [exact G|]. split; [exact K|]. split; [exact P|].
        intros js' k'' Hj Hg. apply in_app_or in Hj. destruct Hj as [Hj|[<-|[]]].
        -- apply (L js' k'' Hj Hg).
        -- rewrite Hk in Hg. injection Hg as <-. exact Hne.
      * exists items, js, [], k.
        split; [reflexivity|]. split; [exact Hk|]. split; [exact Heq|].
        split; [exact Hx|]. intros js' k'' [].
    + intros js' k' Hj Hg. apply in_app_or in Hj. destruct Hj as [Hj|[<-|[]]].
      * apply dict_has_set_mono, (I3 js' k' Hj Hg).
      * rewrite Hk in Hg. injection Hg as <-. apply dict_has_set_eq, Hh.
Qed.

Lemma pick_loop_total (items : list pyval) (d0 : pydict) :
  (forall js, In js items -> exists k, py_get js key = Ok k /\ hashable k = true) ->
  (forall js, In js items -> exists x, picked value js = Ok x) ->
  exists d, fold_r items (pick key value) d0 = Ok d.
Proof.
  revert d0. induction items as [|js items IH]; intros d0 Hk Hx.
  - exists d0. reflexivity.
  - destruct (Hk js (or_introl eq_refl)) as [k [Ek Hh]].
    destruct (Hx js (or_introl eq_refl)) as [x Ex].
    simpl. unfold pick at 1. rewrite Ex, Ek. simpl. unfold py_setitem. rewrite Hh.
    simpl. apply IH; intros js' Hj; [apply Hk | apply Hx]; right; exact Hj.
Qed.
End PickMode.

Lemma get_data_in_dict_eq (w : World) (url : string) (key value : pyval)
    (items : list pyval) (l : list request) :
  get_json w url = (Ok (PList items), l) ->
  get_data_in_dict w url key value
  = (r <~ (if is_None key then first_key (PList items) else Ok key) ;;
     json_dict <~ fold_r items (pick r value) [] ;;
     Ok (PDict json_dict), l).
Proof.
  intros H. unfold get_data_in_dict. rewrite H, bind_ok.
  destruct (if is_None key then first_key (PList items) else Ok key) as [key'|e];
    [|unfold outcome, log; simpl; rewrite app_nil_r; reflexivity].
  rewrite bind_lift_ok. cbn [py_iter rbind]. rewrite pick_loops.
  destruct (fold_r items (pick key' value) []) as [d|e];
    unfold outcome, log; simpl; rewrite app_nil_r; reflexivity.
Qed.

(** C9. In pick mode, on a response that is a list: an empty list raises
    [IndexError] when no key is given; when no key is given and the first
    object has a first key, the call is the call with that key; with a key,
    every entry of the result maps the key value of an object of the
    response to the whole object, or to its value field when a value field
    is given (the last object of a key value is the one kept), and the key
    value of every object is a key of the result.  The call returns
    whenever the key values can be dictionary keys and the objects can be
    read. *)
Theorem get_data_in_dict_pick_mode (w : World) (url : string) (items : list pyval)
    (l : list request) (key value : pyval) :
  get_json w url = (Ok (PList items), l) ->
  (items = [] -> get_data_in_dict w url PNone value = (Raise IndexError, l)) /\
  (forall k0 x0 o rest,
      items = PDict ((k0, x0) :: o) :: rest ->
      get_data_in_dict w url PNone value = get_data_in_dict w url k0 value) /\
  (is_None key = false ->
   forall data,
     outcome (get_data_in_dict w url key value) = Ok data ->
     exists d,
       data = PDict d /\
       keys_distinct d = true /\
       (forall k x,
           In (k, x) d ->
           exists pre js post k',
             items = (pre ++ js :: post)%list /\
             py_get js key = Ok k' /\ key_eqb k k' = true /\
             picked value js = Ok x /\
             forall js' k'', In js' post -> py_get js' key = Ok k'' ->
                             key_eqb k k'' = false) /\
       (forall js k, In js items -> py_get js key = Ok k -> dict_has d k = true)) /\
  (is_None key = false ->
   (forall js, In js items -> exists k, py_get js key = Ok k /\ hashable k = true) ->
   (forall js, In js items -> exists x, picked value js = Ok x) ->
   exists d, get_data_in_dict w url key value = (Ok (PDict d), l)).
Proof.
  intros Hjson. split; [|split; [|split]].
  - intros ->. rewrite (get_data_in_dict_eq w url PNone value [] l Hjson). reflexivity.
  - intros k0 x0 o rest ->.
    rewrite !(get_data_in_dict_eq w url _ value _ l Hjson).
    destruct (is_None k0) eqn:E; [|reflexivity].
    destruct k0; try discriminate E. reflexivity.
  - intros Hkey data. rewrite (get_data_in_dict_eq w url key value items l Hjson), Hkey.
    unfold outcome; simpl.
    destruct (fold_r items (pick key value) []) as [d|e] eqn:Hfold; [|discriminate].
    simpl. intros [= <-]. exists d. split; [reflexivity|].
    apply (pick_loop key value items d Hfold).
  - intros Hkey Hk Hx. rewrite (get_data_in_dict_eq w url key value items l Hjson), Hkey.
    destruct (pick_loop_total key value items [] Hk Hx) as [d Hd].
    exists d. simpl. rewrite Hd. reflexivity.
Qed.

Lemma get_data_in_dict_pick_mode_witness :
  get_data_in_dict sample_world (base_url ++ "sexes") PNone (PStr "Name")
  = get_data_in_dict sample_world (base_url ++ "sexes") (PStr "Id") (PStr "Name") /\
  exists d,
    get_data_in_dict sample_world (base_url ++ "sexes") (PStr "Id") (PStr "Name")
    = (Ok (PDict d), [RequestsGet true (base_url ++ "sexes")]).
Proof.
  pose proof (get_data_in_dict_pick_mode sample_world (base_url ++ "sexes") _
                [RequestsGet true (base_url ++ "sexes")] (PStr "Id") (PStr "Name") eq_refl)
    as [_ [D [_ T]]].
  split.
  - apply (D (PStr "Id") (PInt 1) [(PStr "Name", PStr "Male")]
             [PDict [(PStr "Id", PInt 2); (PStr "Name", PStr "Female")]]).
    reflexivity.
  - apply T; [reflexivity | |];
      intros js [<-|[<-|[]]]; eexists; try split; reflexivity.
Defined.

(** ** The order of the profiles mapping *)

Lemma dict_has_app (d1 d2 : pydict) (k : pyval) :
  dict_has (d1 ++ d2)%list k = dict_has d1 k || dict_has d2 k.
Proof.
  unfold dict_has. induction d1 as [|[k0 x0] d1 IH]; simpl; [reflexivity|].
  destruct (key_eqb k0 k); [reflexivity | exact IH].
Qed.

Lemma keys_distinct_app_absent (d0 rest : pydict) (k x : pyval) :
  keys_distinct (d0 ++ (k, x) :: rest)%list = true -> dict_has d0 k = false.
Proof.
  induction d0 as [|[k0 x0] d0 IH]; simpl; intros H; [reflexivity|].
  apply andb_true_iff in H. destruct H as [H1 H2]. apply negb_true_iff in H1.
  rewrite dict_has_app in H1. apply orb_false_iff in H1. destruct H1 as [_ H1].
  unfold dict_has in H1 |- *. simpl in H1 |- *.
  rewrite key_eqb_sym. destruct (key_eqb k k0); [discriminate H1|].
  apply (IH H2).
Qed.

Lemma dict_set_absent (d : pydict) (k x : pyval) :
  dict_has d k = false -> dict_set d k x = (d ++ [(k, x)])%list.
Proof.
  unfold dict_has. induction d as [|[k0 x0] d IH]; simpl; intros H; [reflexivity|].
  destruct (key_eqb k0 k); [discriminate H|]. rewrite (IH H). reflexivity.
Qed.

(** When the key values of the objects are pairwise different, pick mode
    keeps every object, in the order of the response. *)
Lemma pick_whole_in_order (key : pyval) (items ks : list pyval) (d0 : pydict) :
  Forall2 (fun js k => py_get js key = Ok k /\ hashable k = true) items ks ->
  keys_distinct (d0 ++ combine ks items)%list = true ->
  fold_r items (pick key PNone) d0 = Ok (d0 ++ combine ks items)%list.
Proof.
  intros H. revert d0. induction H as [|js k items ks [Hk Hh] _ IH]; intros d0 Hd.
  - simpl. rewrite app_nil_r. reflexivity.
  - simpl in *. unfold pick at 1, picked. simpl. rewrite Hk. simpl.
    unfold py_setitem. rewrite Hh. simpl.
    rewrite (dict_set_absent d0 k js (keys_distinct_app_absent d0 _ k js Hd)).
    rewrite IH; rewrite <- app_assoc; [reflexivity | exact Hd].
Qed.

Lemma dict_values_combine (ks items : list pyval) :
  length ks = length items -> dict_values (combine ks items) = items.
Proof.
  unfold dict_values. revert items.
  induction ks as [|k ks IH]; intros [|js items] H; try discriminate H; [reflexivity|].
  simpl. rewrite IH; [reflexivity | injection H as H; exact H].
Qed.

(** The profiles mapping is iterated in the order of the response when the
    profiles differ in their first field (their identifier). *)
Lemma profiles_in_response_order (w : World) (profiles ks : list pyval) (key : pyval)
    (l : list request) :
  get_json w (base_url ++ "profiles") = (Ok (PList profiles), l) ->
  first_key (PList profiles) = Ok key ->
  Forall2 (fun js k => py_get js key = Ok k /\ hashable k = true) profiles ks ->
  keys_distinct (combine ks profiles) = true ->
  exists d,
    get_all_profiles w false = (Ok (PDict d, None), l) /\ dict_values d = profiles.
Proof.
  intros Hj Hkey Hf Hd. exists (combine ks profiles). split.
  - unfold get_all_profiles.
    rewrite (get_data_in_dict_eq w _ PNone PNone profiles l Hj). cbn [is_None].
    rewrite Hkey. cbn [rbind].
    rewrite (pick_whole_in_order key profiles ks [] Hf Hd). cbn [rbind app].
    rewrite bind_ok. unfold outcome, log, ret, tested; simpl. rewrite app_nil_r.
    reflexivity.
  - apply dict_values_combine. symmetry. apply (Forall2_length Hf).
Qed.

(** ** All data for a profile: the area-code filter *)

Lemma outcome_bind {A B} (m : M A) (k : A -> M B) :
  outcome (bind m k)
  = match outcome m with
    | Ok a => outcome (k a)
    | Raise e => Raise e
    end.
Proof.
  destruct m as [[a|e] l]; [|reflexivity].
  unfold bind, outcome. simpl. destruct (k a); reflexivity.
Qed.

Lemma renumber_length (n : Z) (name : string) (rs : list (Z * row)) :
  length (renumber n name rs) = length rs.
Proof.
  revert n. induction rs as [|[old r] rs IH]; intros n; simpl; [reflexivity|].
  rewrite IH. reflexivity.
Qed.

Lemma renumber_index (n : nat) (name : string) (rs : list (Z * row)) :
  map fst (renumber (Z.of_nat n) name rs) = map Z.of_nat (seq n (length rs)).
Proof.
  revert n. induction rs as [|[old r] rs IH]; intros n; simpl; [reflexivity|].
  f_equal. replace (Z.of_nat n + 1)%Z with (Z.of_nat (S n)) by lia. apply IH.
Qed.

Lemma renumber_rows (n : Z) (name : string) (rs : list (Z * row)) (ir : Z * row) :
  In ir (renumber n name rs) ->
  exists old r, In (old, r) rs /\ snd ir = (name, CInt old) :: r.
Proof.
  revert n. induction rs as [|[old r] rs IH]; intros n; simpl; [intros []|].
  intros [<-|H].
  - exists old, r. split; [left; reflexivity | reflexivity].
  - destruct (IH _ H) as [old' [r' [Hin E]]].
    exists old', r'. split; [right; exact Hin | exact E].
Qed.

Lemma reset_index_spec (df df' : DataFrame) :
  reset_index df = Ok df' ->
  index df' = map Z.of_nat (seq 0 (nrows df')) /\
  nrows df' = nrows df /\
  forall ir, In ir (rows df') ->
             exists old r name,
               In (old, r) (rows df) /\ snd ir = (name, CInt old) :: r /\
               (name = "index" \/ name = "level_0").
Proof.
  unfold reset_index.
  set (name := if has_column df "index" then "level_0" else "index").
  destruct (has_column df name); [discriminate|]. intros [= <-].
  unfold index, nrows; simpl. rewrite renumber_length.
  split; [apply (renumber_index 0)|]. split; [reflexivity|].
  intros ir H. destruct (renumber_rows 0 name (rows df) ir H) as [old [r [Hin E]]].
  exists old, r, name. split; [exact Hin|]. split; [exact E|].
  unfold name. destruct (has_column df "index"); [right | left]; reflexivity.
Qed.

Lemma filter_area_codes_spec (filt : pyval) (df0 df : DataFrame) :
  truthy filt = true ->
  isinstance_list filt || isinstance_str filt = true ->
  filter_area_codes filt df0 = Ok df ->
  filtered_and_reindexed filt df /\
  nrows df = length (filter (row_in_codes (codes_of filt)) (rows df0)).
Proof.
  intros Ht Hty. unfold filter_area_codes. rewrite Ht.
  assert (E : match filt with
              | PList codes => loc_isin df0 "Area Code" codes
              | PStr _ => loc_eq df0 "Area Code" filt
              | _ => Ok df0
              end
              = if has_column df0 "Area Code"
                then Ok (mkDF (columns df0)
                              (filter (row_in_codes (codes_of filt)) (rows df0)))
                else Raise (KeyError (PStr "Area Code"))).
  { destruct filt; try discriminate Hty; unfold loc_isin, loc_eq;
      destruct (has_column df0 "Area Code"); try reflexivity.
    do 2 f_equal. apply filter_ext. intros ir. unfold row_in_codes; simpl.
    rewrite orb_false_r. reflexivity. }
  rewrite E. destruct (has_column df0 "Area Code"); [|discriminate]. simpl.
  intros Hr. destruct (reset_index_spec _ df Hr) as [Hi [Hn Hrows]].
  split; [split|].
  - intros ir Hin. destruct (Hrows ir Hin) as [old [r [name [Hold [Er Hname]]]]].
    simpl in Hold. apply filter_In in Hold. destruct Hold as [_ Hm].
    unfold row_in_codes in *. rewrite Er. simpl in *.
    destruct Hname as [-> | ->]; exact Hm.
  - exact Hi.
  - exact Hn.
Qed.

(** The empty list and the empty string are no filter. *)
Lemma filter_area_codes_empty (df : DataFrame) :
  filter_area_codes (PList []) df = Ok df /\
  filter_area_codes (PStr "") df = Ok df /\
  filter_area_codes PNone df = Ok df.
Proof. repeat split. Qed.

Lemma filter_area_codes_total (filt : pyval) (df0 : DataFrame) :
  has_column df0 "Area Code" = true ->
  has_column df0 "index" = false ->
  exists df, filter_area_codes filt df0 = Ok df.
Proof.
  intros Hc Hi. unfold filter_area_codes.
  destruct (truthy filt); [|exists df0; reflexivity].
  assert (R : forall d, has_column d "index" = false -> exists df, reset_index d = Ok df).
  { intros d Hd. unfold reset_index. rewrite Hd, Hd. eexists; reflexivity. }
  destruct filt; simpl; try (apply R; exact Hi);
    unfold loc_isin, loc_eq; rewrite Hc; simpl; apply R; exact Hi.
Qed.

(** C8, as the code has it. With a filter that is a non-empty list or a
    non-empty string, the table returned holds only rows whose area code
    is among the codes given, it holds all such rows of the merged table
    (the table the same call returns without a filter), and its index is
    0, 1, 2, ...; the call returns whenever the merged table has the area
    code column and no column named [index]. *)
Theorem get_all_data_for_profile_filter (w : World)
    (profile_id parent_area_type_id area_type_id filt : pyval) (is_test : bool) :
  truthy filt = true ->
  isinstance_list filt || isinstance_str filt = true ->
  (forall df u,
      outcome (get_all_data_for_profile w profile_id parent_area_type_id
                 area_type_id filt is_test) = Ok (df, u) ->
      filtered_and_reindexed filt df /\
      exists merged,
        outcome (get_all_data_for_profile w profile_id parent_area_type_id
                   area_type_id PNone is_test) = Ok (merged, u) /\
        nrows df = length (filter (row_in_codes (codes_of filt)) (rows merged))) /\
  (forall merged u,
      outcome (get_all_data_for_profile w profile_id parent_area_type_id
                 area_type_id PNone is_test) = Ok (merged, u) ->
      has_column merged "Area Code" = true ->
      has_column merged "index" = false ->
      exists df,
        outcome (get_all_data_for_profile w profile_id parent_area_type_id
                   area_type_id filt is_test) = Ok (df, u)).
Proof.
  intros Ht Hty. unfold get_all_data_for_profile.
  rewrite !outcome_bind.
  destruct (outcome (if negb (is_None area_type_id)
                     then if type_is_int area_type_id
                          then ret (PList [area_type_id]) else ret area_type_id
                     else get_area_type_ids_for_profile w profile_id))
    as [area_types|e]; [|split; intros; discriminate].
  rewrite !outcome_bind.
  destruct (outcome (lift (py_iter area_types))) as [areas|e];
    [|split; intros; discriminate].
  rewrite !outcome_bind.
  destruct (outcome (for_each areas (profile_data_step w profile_id parent_area_type_id)
                       (empty_frame, None))) as [[df0 purl]|e];
    [|split; intros; discriminate].
  rewrite !outcome_bind.
  change (outcome (lift (filter_area_codes PNone df0))) with (Ok df0).
  change (outcome (lift (filter_area_codes filt df0))) with (filter_area_codes filt df0).
  split.
  - intros df u H.
    destruct (filter_area_codes filt df0) as [df1|e] eqn:F; [|discriminate H].
    destruct (filter_area_codes_spec filt df0 df1 Ht Hty F) as [S N].
    destruct is_test.
    + destruct purl as [p|]; [|discriminate H]. injection H as <- <-.
      split; [exact S|]. exists df0. split; [reflexivity | exact N].
    + injection H as <- <-.
      split; [exact S|]. exists df0. split; [reflexivity | exact N].
  - intros merged u H Hc Hi.
    assert (Hm : merged = df0).
    { destruct is_test; [destruct purl; [|discriminate H]|]; injection H as <- _;
        reflexivity. }
    subst merged.
    destruct (filter_area_codes_total filt df0 Hc Hi) as [df F]. rewrite F.
    exists df. destruct is_test; [destruct purl; [|discriminate H]|];
      injection H as <-; reflexivity.
Qed.

Lemma get_all_data_for_profile_filter_witness :
  exists df,
    outcome (get_all_data_for_profile sample_world (PInt 5) (PInt 15)
               (PList [PInt 7; PInt 102]) (PList [PStr "E12000001"]) false)
    = Ok (df, None) /\
    filtered_and_reindexed (PList [PStr "E12000001"]) df /\
    nrows df = 2%nat.
Proof.
  pose proof (get_all_data_for_profile_filter sample_world (PInt 5) (PInt 15)
                (PList [PInt 7; PInt 102]) (PList [PStr "E12000001"]) false
                eq_refl eq_refl) as [P T].
  destruct (T (pd_concat (pd_concat empty_frame two_rows) two_rows) None)
    as [df E]; try reflexivity.
  exists df. split; [exact E|].
  destruct (P df None E) as [S [merged [Em N]]].
  split; [exact S|]. injection Em as <-. exact N.
Defined.

(** C8, as stated, fails for the empty list of codes: the filter is
    skipped, every row is returned and the index is the one of the merged
    fetches. *)
Lemma get_all_data_for_profile_empty_filter_counterexample :
  exists df,
    outcome (get_all_data_for_profile sample_world (PInt 5) (PInt 15)
               (PList [PInt 7; PInt 102]) (PList []) false)
    = Ok (df, None) /\
    index df = [0; 1; 0; 1]%Z /\
    ~ filtered_and_reindexed (PList []) df.
Proof.
  eexists. split; [vm_compute; reflexivity|]. split; [reflexivity|].
  intros [H _].
  specialize (H _ (or_introl eq_refl)). discriminate H.
Qed.

(** ** Batches of domain and profile identifiers *)

Section Batch.
Variable w : World.
Variables url_suffix entity : string.

Let url (id : pyval) : string := base_url ++ url_suffix ++ py_str id.

Lemma batch_step_ok (df t : DataFrame) (id : pyval) :
  read_csv_url w (url id) = Ok t ->
  batch_step w url_suffix entity df id = (Ok (pd_concat df t), [ReadCsv (url id)]).
Proof.
  intros H. unfold batch_step, try_except, pd_read_csv, bind. fold (url id).
  rewrite H. reflexivity.
Qed.

Lemma batch_step_http_error (df : DataFrame) (id : pyval) (code : Z) :
  read_csv_url w (url id) = Raise (HTTPError code) ->
  batch_step w url_suffix entity df id
  = (Raise (NameError (entity ++ " " ++ py_str id ++ " does not exist")),
     [ReadCsv (url id)]).
Proof.
  intros H. unfold batch_step, try_except, pd_read_csv, bind. fold (url id).
  rewrite H. reflexivity.
Qed.

(** After a URL error the table so far is replaced by the table of the
    relaxed request. *)
Lemma batch_step_url_error (df t : DataFrame) (id : pyval) (body : string) :
  read_csv_url w (url id) = Raise URLError ->
  requests_get w false (url id) = Ok body ->
  read_csv_text w body = Ok t ->
  batch_step w url_suffix entity df id
  = (Ok t, [ReadCsv (url id); RequestsGet false (url id)]).
Proof.
  intros H Hb Ht. unfold batch_step, try_except, pd_read_csv, bind. fold (url id).
  rewrite H. cbn [isinstance_HTTPError isinstance_URLError].
  rewrite deal_with_url_error_eq, Hb. simpl. rewrite Ht. reflexivity.
Qed.

(** When every strict request is answered: one request per identifier,
    in the order of the identifiers, and the tables concatenated in that
    order. *)
Lemma batch_all_answered (ids : list pyval) (tables : list DataFrame)
    (df : DataFrame) :
  Forall2 (fun id t => read_csv_url w (url id) = Ok t) ids tables ->
  for_each ids (batch_step w url_suffix entity) df
  = (Ok (fold_left pd_concat tables df), map (fun id => ReadCsv (url id)) ids).
Proof.
  intros H. revert df. induction H as [|id t ids tables Hid _ IH]; intros df.
  - reflexivity.
  - cbn [for_each]. rewrite (batch_step_ok df t id Hid), bind_ok, IH. reflexivity.
Qed.

Lemma nrows_fold_concat (tables : list DataFrame) (df : DataFrame) :
  nrows (fold_left pd_concat tables df)
  = (nrows df + list_sum (map nrows tables))%nat.
Proof.
  revert df. induction tables as [|t tables IH]; intros df; simpl; [lia|].
  rewrite IH, nrows_pd_concat. lia.
Qed.

(** An HTTP error ends the loop: the error names the identifier, the
    later identifiers are not requested and no table is returned. *)
Lemma batch_http_error_aborts (pre post : list pyval) (id : pyval)
    (df0 df : DataFrame) (l : list request) (code : Z) :
  for_each pre (batch_step w url_suffix entity) df0 = (Ok df, l) ->
  read_csv_url w (url id) = Raise (HTTPError code) ->
  for_each (pre ++ id :: post) (batch_step w url_suffix entity) df0
  = (Raise (NameError (entity ++ " " ++ py_str id ++ " does not exist")),
     (l ++ [ReadCsv (url id)])%list).
Proof.
  revert df0 l. induction pre as [|p pre IH]; intros df0 l Hpre Hid.
  - injection Hpre as <- <-. cbn [app for_each].
    rewrite (batch_step_http_error df0 id code Hid). reflexivity.
  - cbn [app for_each] in *.
    destruct (batch_step w url_suffix entity df0 p) as [[df1|e] l1];
      [|discriminate Hpre].
    rewrite bind_ok in *.
    destruct (for_each pre (batch_step w url_suffix entity) df1) as [r l2] eqn:E.
    unfold outcome, log in Hpre; simpl in Hpre. injection Hpre as -> <-.
    rewrite (IH df1 l2 E Hid). unfold outcome, log; simpl.
    rewrite app_assoc. reflexivity.
Qed.
End Batch.

(** C1, on the code. In the batch of domains 1 and 2, the strict request
    for domain 1 is answered with two rows, the one for domain 2 fails with
    a URL error and its relaxed request is answered with one row: the table
    returned is that one row, and the two rows of domain 1 are lost.  The
    batch of profiles does the same. *)
Theorem batch_url_error_drops_rows :
  let domain id := base_url ++ "indicator_metadata/csv/by_group_id?group_id=" ++ id in
  let profile id := base_url ++ "indicator_metadata/csv/by_profile_id?profile_id=" ++ id in
  read_csv_url sample_world (domain "1") = Ok two_rows /\
  read_csv_url sample_world (domain "2") = Raise URLError /\
  deal_with_url_error sample_world (domain "2")
  = (Ok retried_row, [RequestsGet false (domain "2")]) /\
  get_metadata_for_domain_as_dataframe sample_world (PList [PInt 1; PInt 2]) false
  = (Ok (retried_row, None),
     [ReadCsv (domain "1"); ReadCsv (domain "2"); RequestsGet false (domain "2")]) /\
  get_metadata_for_profile_as_dataframe sample_world (PList [PInt 1; PInt 2])
  = (Ok retried_row,
     [ReadCsv (profile "1"); ReadCsv (profile "2"); RequestsGet false (profile "2")]) /\
  nrows retried_row = 1%nat /\
  (nrows two_rows + nrows retried_row = 3)%nat.
Proof. vm_compute. repeat split. Qed.

(** The batch of a list of identifiers, when no request fails: one strict
    request per identifier, in order, and as many rows as the tables have
    together. *)
Lemma domain_batch_all_answered (w : World) (ids : list pyval)
    (tables : list DataFrame) :
  Forall2 (fun id t =>
             read_csv_url w (base_url ++ "indicator_metadata/csv/by_group_id?group_id="
                                      ++ py_str id) = Ok t) ids tables ->
  exists df,
    get_metadata_for_domain_as_dataframe w (PList ids) false
    = (Ok (df, None),
       map (fun id => ReadCsv (base_url ++ "indicator_metadata/csv/by_group_id?group_id="
                                        ++ py_str id)) ids) /\
    df = fold_left pd_concat tables empty_frame /\
    nrows df = list_sum (map nrows tables) /\
    length (map (fun id => ReadCsv (base_url ++ "indicator_metadata/csv/by_group_id?group_id="
                                             ++ py_str id)) ids) = length ids.
Proof.
  intros H. exists (fold_left pd_concat tables empty_frame).
  split; [|split; [reflexivity | split; [apply nrows_fold_concat | apply length_map]]].
  unfold get_metadata_for_domain_as_dataframe.
  rewrite (batch_all_answered w _ "Domain" ids tables empty_frame H), bind_ok.
  unfold outcome, log; simpl. rewrite app_nil_r. reflexivity.
Qed.

Lemma profile_batch_all_answered (w : World) (ids : list pyval)
    (tables : list DataFrame) :
  Forall2 (fun id t =>
             read_csv_url w (base_url ++ "indicator_metadata/csv/by_profile_id?profile_id="
                                      ++ py_str id) = Ok t) ids tables ->
  get_metadata_for_profile_as_dataframe w (PList ids)
  = (Ok (fold_left pd_concat tables empty_frame),
     map (fun id => ReadCsv (base_url ++ "indicator_metadata/csv/by_profile_id?profile_id="
                                      ++ py_str id)) ids) /\
  nrows (fold_left pd_concat tables empty_frame) = list_sum (map nrows tables).
Proof.
  intros H. split; [|apply nrows_fold_concat].
  unfold get_metadata_for_profile_as_dataframe.
  apply (batch_all_answered w _ "Profile" ids tables empty_frame H).
Qed.

Lemma domain_batch_http_error (w : World) (pre post : list pyval) (id : pyval)
    (df : DataFrame) (l : list request) (code : Z) :
  for_each pre (batch_step w "indicator_metadata/csv/by_group_id?group_id=" "Domain")
           empty_frame = (Ok df, l) ->
  read_csv_url w (base_url ++ "indicator_metadata/csv/by_group_id?group_id=" ++ py_str id)
  = Raise (HTTPError code) ->
  get_metadata_for_domain_as_dataframe w (PList (pre ++ id :: post)) false
  = (Raise (NameError ("Domain " ++ py_str id ++ " does not exist")),
     (l ++ [ReadCsv (base_url ++ "indicator_metadata/csv/by_group_id?group_id="
                              ++ py_str id)])%list).
Proof.
  intros Hpre Hid. unfold get_metadata_for_domain_as_dataframe.
  rewrite (batch_http_error_aborts w _ "Domain" pre post id empty_frame df l code Hpre Hid).
  reflexivity.
Qed.

(** ** All data for a profile: the area types *)

Lemma last_cons_default {A} (x : A) (l : list A) (d d' : A) :
  last (x :: l) d = last (x :: l) d'.
Proof.
  revert x. induction l as [|y l IH]; intros x; [reflexivity|].
  change (last (x :: y :: l) d) with (last (y :: l) d).
  change (last (x :: y :: l) d') with (last (y :: l) d'). apply IH.
Qed.

Section ProfileData.
Variable w : World.
Variables profile_id parent_area_type_id : pyval.

Let url (area : pyval) : string :=
  "all_data/csv/by_profile_id?child_area_type_id=" ++ py_str area
    ++ "&parent_area_type_id=" ++ py_str parent_area_type_id
    ++ "&profile_id=" ++ py_str profile_id.

Lemma profile_data_step_ok (state : DataFrame * option string) (area : pyval)
    (t : DataFrame) :
  read_csv_url w (base_url ++ url area) = Ok t ->
  profile_data_step w profile_id parent_area_type_id state area
  = (Ok (pd_concat (fst state) t, Some (url area)), [ReadCsv (base_url ++ url area)]).
Proof.
  intros H. unfold profile_data_step, try_except, pd_read_csv, bind. fold (url area).
  rewrite H. reflexivity.
Qed.

(** After a URL error the table of the relaxed request is appended to the
    table so far. *)
Lemma profile_data_step_url_error (state : DataFrame * option string) (area : pyval)
    (t : DataFrame) (body : string) :
  read_csv_url w (base_url ++ url area) = Raise URLError ->
  requests_get w false (base_url ++ url area) = Ok body ->
  read_csv_text w body = Ok t ->
  profile_data_step w profile_id parent_area_type_id state area
  = (Ok (pd_concat (fst state) t, Some (url area)),
     [ReadCsv (base_url ++ url area); RequestsGet false (base_url ++ url area)]).
Proof.
  intros H Hb Ht. unfold profile_data_step. fold (url area).
  rewrite (fetch_url_error w (base_url ++ url area) _ H), Hb. simpl. rewrite Ht.
  reflexivity.
Qed.

Lemma profile_data_all_answered (areas : list pyval) (tables : list DataFrame)
    (state : DataFrame * option string) :
  Forall2 (fun area t => read_csv_url w (base_url ++ url area) = Ok t) areas tables ->
  for_each areas (profile_data_step w profile_id parent_area_type_id) state
  = (Ok (fold_left pd_concat tables (fst state),
         last (map (fun area => Some (url area)) areas) (snd state)),
     map (fun area => ReadCsv (base_url ++ url area)) areas).
Proof.
  intros H. revert state. induction H as [|area t areas tables Ha _ IH]; intros state.
  - destruct state; reflexivity.
  - cbn [for_each]. rewrite (profile_data_step_ok state area t Ha), bind_ok, IH.
    unfold outcome, log; simpl. do 3 f_equal.
    destruct areas as [|p areas]; [reflexivity|]. apply last_cons_default.
Qed.

(** A list of area types: one strict request per element, in order, and
    the tables concatenated in that order. *)
Lemma get_all_data_for_profile_list (areas : list pyval) (tables : list DataFrame) :
  Forall2 (fun area t => read_csv_url w (base_url ++ url area) = Ok t) areas tables ->
  get_all_data_for_profile w profile_id parent_area_type_id (PList areas) PNone false
  = (Ok (fold_left pd_concat tables empty_frame, None),
     map (fun area => ReadCsv (base_url ++ url area)) areas).
Proof.
  intros H. unfold get_all_data_for_profile. cbn [is_None negb type_is_int].
  rewrite bind_ret. cbn [py_iter]. rewrite bind_lift_ok.
  rewrite (profile_data_all_answered areas tables (empty_frame, None) H), bind_ok.
  cbn beta iota. cbn [filter_area_codes truthy]. rewrite bind_lift_ok.
  unfold outcome, log, ret; simpl. rewrite app_nil_r. reflexivity.
Qed.

(** An integer is the list of that integer alone. *)
Lemma get_all_data_for_profile_int (z : Z) (filt : pyval) (is_test : bool) :
  get_all_data_for_profile w profile_id parent_area_type_id (PInt z) filt is_test
  = get_all_data_for_profile w profile_id parent_area_type_id (PList [PInt z]) filt
      is_test.
Proof. reflexivity. Qed.

(** A string is taken as the list of its characters. *)
Lemma get_all_data_for_profile_str (s : string) (filt : pyval) (is_test : bool) :
  get_all_data_for_profile w profile_id parent_area_type_id (PStr s) filt is_test
  = get_all_data_for_profile w profile_id parent_area_type_id
      (PList (map PStr (chars s))) filt is_test.
Proof.
  unfold get_all_data_for_profile. cbn [is_None negb type_is_int].
  rewrite !bind_ret. reflexivity.
Qed.

(** Without [area_type_id], the area types are those resolved for the
    profile, after the request that resolves them. *)
Lemma get_all_data_for_profile_resolved (ids : list pyval) (l : list request)
    (filt : pyval) (is_test : bool) :
  get_area_type_ids_for_profile w profile_id = (Ok (PList ids), l) ->
  outcome (get_all_data_for_profile w profile_id parent_area_type_id PNone filt is_test)
  = outcome (get_all_data_for_profile w profile_id parent_area_type_id (PList ids) filt
               is_test) /\
  log (get_all_data_for_profile w profile_id parent_area_type_id PNone filt is_test)
  = (l ++ log (get_all_data_for_profile w profile_id parent_area_type_id (PList ids)
                 filt is_test))%list.
Proof.
  intros H. unfold get_all_data_for_profile. cbn [is_None negb type_is_int].
  rewrite H, bind_ok, bind_ret. split; reflexivity.
Qed.
End ProfileData.

(** C5, on the code. An area type given as the string "102" is not taken
    as one identifier: the loop runs over its characters and requests the
    area types 1, 0 and 2, where the integer 102 gives the one request for
    area type 102. *)
Theorem string_area_type_is_split :
  let url area :=
    base_url ++ "all_data/csv/by_profile_id?child_area_type_id=" ++ area
             ++ "&parent_area_type_id=15&profile_id=5" in
  log (get_all_data_for_profile sample_world (PInt 5) (PInt 15) (PStr "102") PNone false)
  = [ReadCsv (url "1"); ReadCsv (url "0"); ReadCsv (url "2")] /\
  log (get_all_data_for_profile sample_world (PInt 5) (PInt 15) (PInt 102) PNone false)
  = [ReadCsv (url "102")] /\
  (forall df u,
      outcome (get_all_data_for_profile sample_world (PInt 5) (PInt 15) (PStr "102")
                 PNone false) = Ok (df, u) -> nrows df = 6%nat) /\
  (forall df u,
      outcome (get_all_data_for_profile sample_world (PInt 5) (PInt 15) (PInt 102)
                 PNone false) = Ok (df, u) -> nrows df = 2%nat).
Proof.
  vm_compute. repeat split; intros df u [= <- _]; reflexivity.
Qed.

(** * Further properties *)

(** ** Requests of the JSON operations *)

Lemma get_json_eq (w : World) (url : string) :
  get_json w url
  = match requests_get w true url with
    | Ok body => (json_loads w body, [RequestsGet true url])
    | Raise e =>
        if isinstance_SSLError e
        then (body <~ requests_get w false url ;; json_loads w body,
              [RequestsGet true url; RequestsGet false url])
        else (Raise e, [RequestsGet true url])
    end.
Proof.
  unfold get_json, try_except, http_get.
  destruct (requests_get w true url) as [body|e].
  - cbv [bind lift ret]. destruct (json_loads w body); reflexivity.
  - destruct (isinstance_SSLError e); [|reflexivity].
    destruct (requests_get w false url) as [body|e']; [|reflexivity].
    cbv [bind lift ret rbind app]. destruct (json_loads w body); reflexivity.
Qed.

(** X1. Every JSON operation sends one verified request; it sends one more,
    unverified and to the same address, exactly when the first fails with
    an SSL error, and then answers from it; any other failure of the first
    request is the failure of the call.  The two normalisers send nothing
    of their own, whatever they are asked to key on and whether they
    succeed or raise. *)
Theorem json_request_discipline (w : World) (url : string) :
  get_json w url
  = match requests_get w true url with
    | Ok body => (json_loads w body, [RequestsGet true url])
    | Raise e =>
        if isinstance_SSLError e
        then (body <~ requests_get w false url ;; json_loads w body,
              [RequestsGet true url; RequestsGet false url])
        else (Raise e, [RequestsGet true url])
    end /\
  (forall attr, log (make_request w url attr) = log (get_json w url)) /\
  (forall key value, log (get_data_in_dict w url key value) = log (get_json w url)).
Proof.
  split; [apply get_json_eq|]. split.
  - intros attr. rewrite make_request_eq.
    destruct (get_json w url) as [[j|e] l]; [|reflexivity].
    cbv [bind lift ret log snd].
    destruct (items <~ py_iter j ;; fold_r items (make_request_step attr) []);
      rewrite ?app_nil_r; reflexivity.
  - intros key value. unfold get_data_in_dict.
    destruct (get_json w url) as [[j|e] l]; [|reflexivity].
    cbv [bind lift ret log snd].
    destruct (if is_None key then first_key j else Ok key) as [k|e];
      [|rewrite ?app_nil_r; reflexivity].
    destruct (items <~ py_iter j ;;
              (if is_None value
               then fold_r items (pick_whole k) []
               else fold_r items (pick_field k value) []));
      rewrite ?app_nil_r; reflexivity.
Qed.

(** ** Pop mode: what a key maps to, and the missing field *)

Lemma dict_lookup_set (d : pydict) (k k' x : pyval) :
  dict_lookup (dict_set d k x) k'
  = if key_eqb k k' then Some x else dict_lookup d k'.
Proof.
  destruct (key_eqb k k') eqn:E.
  - apply dict_lookup_set_eq, E.
  - apply dict_lookup_set_ne, E.
Qed.

Lemma dict_lookup_remove_ne (d : pydict) (a b : pyval) :
  key_eqb a b = false -> dict_lookup (dict_remove d a) b = dict_lookup d b.
Proof.
  intros H. unfold dict_remove. induction d as [|[k0 x0] d IH]; simpl; [reflexivity|].
  destruct (key_eqb k0 a) eqn:E; simpl.
  - rewrite key_eqb_sym in E. rewrite (key_eqb_false_l a k0 b E H). exact IH.
  - rewrite IH. reflexivity.
Qed.

Lemma pop_loop_lookup (a : string) (items : list pyval) (d0 d : pydict) :
  fold_r items (make_request_step (PStr a)) d0 = Ok d ->
  forall k,
    dict_lookup d k
    = match last_with (PStr a) k items with
      | Some item => Some (without (PStr a) item)
      | None => dict_lookup d0 k
      end.
Proof.
  revert d0. induction items as [|item items IH]; intros d0 H k.
  - injection H as <-. reflexivity.
  - simpl in H. unfold make_request_step at 1 in H.
    destruct item as [| | | | |o]; try discriminate H. simpl in H.
    destruct (dict_lookup o (PStr a)) as [kv|] eqn:Ekv; [|discriminate H].
    simpl in H. unfold py_setitem in H.
    destruct (hashable kv); [|discriminate H]. simpl in H.
    rewrite (IH _ H k). cbn [last_with field].
    destruct (last_with (PStr a) k items); [reflexivity|].
    rewrite Ekv, dict_lookup_set. destruct (key_eqb kv k); reflexivity.
Qed.

(** X2. In pop mode a key of the result maps to the last object of the
    response that has this key value, without its key field: a later
    object replaces an earlier one of the same key value, and a value that
    no object has is not a key. *)
Theorem make_request_last_wins (w : World) (url a : string) (items : list pyval)
    (l : list request) (data : pyval) :
  get_json w url = (Ok (PList items), l) ->
  outcome (make_request w url (PStr a)) = Ok data ->
  exists d,
    data = PDict d /\
    forall k,
      dict_lookup d k
      = match last_with (PStr a) k items with
        | Some item => Some (without (PStr a) item)
        | None => None
        end.
Proof.
  intros Hj. rewrite make_request_eq, Hj, bind_ok. cbn [py_iter rbind].
  destruct (fold_r items (make_request_step (PStr a)) []) as [d|e] eqn:F;
    [|discriminate].
  rewrite bind_lift_ok. intros [= <-]. exists d. split; [reflexivity|].
  intros k. apply (pop_loop_lookup a items [] d F k).
Qed.

Lemma make_request_last_wins_witness :
  exists d,
    outcome (make_request sample_world (base_url ++ "sexes") (PStr "Name")) = Ok (PDict d) /\
    dict_lookup d (PStr "Female") = Some (PDict [(PStr "Id", PInt 2)]) /\
    dict_lookup d (PStr "Other") = None.
Proof.
  destruct (make_request_last_wins sample_world (base_url ++ "sexes") "Name" _
              [RequestsGet true (base_url ++ "sexes")]
              (PDict [(PStr "Male", PDict [(PStr "Id", PInt 1)]);
                      (PStr "Female", PDict [(PStr "Id", PInt 2)])])
              eq_refl eq_refl) as [d [E H]].
  exists d. split; [rewrite <- E; reflexivity|].
  rewrite !H. split; reflexivity.
Defined.

(** X3. In pop mode the first object without the key field ends the call
    with [KeyError] of the field name; the objects before it give no
    result. *)
Theorem make_request_missing_field (w : World) (url a : string)
    (pre post : list pyval) (o : pydict) (l : list request) :
  get_json w url = (Ok (PList (pre ++ PDict o :: post)), l) ->
  (forall item, In item pre ->
                exists kv, field item (PStr a) = Some kv /\ hashable kv = true) ->
  dict_lookup o (PStr a) = None ->
  make_request w url (PStr a) = (Raise (KeyError (PStr a)), l).
Proof.
  intros Hj Hpre Ho.
  assert (F : fold_r (pre ++ PDict o :: post) (make_request_step (PStr a)) []
              = Raise (KeyError (PStr a))).
  { rewrite fold_r_app. destruct (pop_loop_total a pre [] Hpre) as [d Hd]. rewrite Hd.
    cbn [rbind fold_r]. unfold make_request_step at 1. cbn [py_pop hashable].
    rewrite Ho. reflexivity. }
  rewrite make_request_eq, Hj, bind_ok. cbn [py_iter rbind]. rewrite F.
  unfold outcome, log; simpl. rewrite app_nil_r. reflexivity.
Qed.

Lemma make_request_missing_field_witness :
  make_request sample_world (base_url ++ "sexes") (PStr "Code")
  = (Raise (KeyError (PStr "Code")), [RequestsGet true (base_url ++ "sexes")]).
Proof.
  apply (make_request_missing_field sample_world (base_url ++ "sexes") "Code" []
           [PDict [(PStr "Id", PInt 2); (PStr "Name", PStr "Female")]]
           [(PStr "Id", PInt 1); (PStr "Name", PStr "Male")]
           [RequestsGet true (base_url ++ "sexes")]).
  - reflexivity.
  - intros item [].
  - reflexivity.
Defined.

(** ** The identifier lookups *)

Lemma last_with_some (a k : pyval) (items : list pyval) (item : pyval) :
  last_with a k items = Some item ->
  In item items /\ exists o kv, item = PDict o /\ dict_lookup o a = Some kv /\
                                key_eqb kv k = true.
Proof.
  induction items as [|it items IH]; simpl; [discriminate|].
  destruct (last_with a k items) as [found|].
  - intros [= <-]. destruct (IH eq_refl) as [Hin Hr]. split; [right; exact Hin | exact Hr].
  - destruct (field it a) as [kv|] eqn:F; [|discriminate].
    destruct (key_eqb kv k) eqn:E; [|discriminate]. intros [= <-].
    split; [left; reflexivity|].
    destruct it; try discriminate F. exists d, kv. repeat split; assumption.
Qed.

Lemma last_with_none (a k : pyval) (items : list pyval) :
  last_with a k items = None ->
  forall item kv, In item items -> field item a = Some kv -> key_eqb kv k = false.
Proof.
  induction items as [|it items IH]; simpl; [intros _ item kv []|].
  destruct (last_with a k items) as [found|]; [discriminate|].
  intros H item kv [<-|Hin] F.
  - rewrite F in H. destruct (key_eqb kv k); [discriminate H | reflexivity].
  - apply (IH eq_refl item kv Hin F).
Qed.

Section Lookup.
Variable w : World.
Variables url a b : string.
Variable items : list pyval.
Variable l : list request.
Hypothesis response : keyed_response w url a items l.

Lemma keyed_make_request :
  exists d,
    make_request w url (PStr a) = (Ok (PDict d), l) /\
    forall k,
      dict_lookup d k
      = match last_with (PStr a) k items with
        | Some item => Some (without (PStr a) item)
        | None => None
        end.
Proof.
  destruct response as [Hj Hf].
  destruct (pop_loop_total a items [] Hf) as [d F]. exists d. split.
  - rewrite make_request_eq, Hj, bind_ok. cbn [py_iter rbind]. rewrite F.
    unfold outcome, log; simpl. rewrite app_nil_r. reflexivity.
  - intros k. apply (pop_loop_lookup a items [] d F k).
Qed.

Lemma lookup_after_pop (x : pyval) (is_test : bool) (url' : string) :
  hashable x = true ->
  (d <- make_request w url (PStr a) ;;
   found <- lift (record <~ py_getitem d x ;; py_getitem record (PStr b)) ;;
   ret (tested is_test found url'))
  = (r <~ resolved a b x items ;; Ok (tested is_test r url'), l).
Proof.
  intros Hx. destruct keyed_make_request as [d [E L]].
  rewrite E, bind_ok. cbn [py_getitem]. rewrite Hx, L. unfold resolved.
  destruct (last_with (PStr a) x items) as [item|] eqn:Hl.
  - destruct (last_with_some _ _ _ _ Hl) as [_ [o [kv [-> _]]]].
    cbn [rbind without py_getitem hashable field].
    destruct (dict_lookup (dict_remove o (PStr a)) (PStr b));
      unfold outcome, log; simpl; rewrite app_nil_r; reflexivity.
  - unfold outcome, log; simpl. rewrite app_nil_r. reflexivity.
Qed.
End Lookup.

(** X4. Each lookup of an identifier or a name answers from the last object
    of the response that carries the value asked for, and raises
    [KeyError] of that value when no object carries it, and [KeyError] of
    the field wanted when the object found lacks it. *)
Theorem identifier_lookups (w : World) (items : list pyval) (l : list request)
    (x : pyval) (is_test : bool) :
  hashable x = true ->
  (keyed_response w (base_url ++ "ages") "Name" items l ->
   get_age_id w x is_test
   = (r <~ resolved "Name" "Id" x items ;; Ok (tested is_test r (base_url ++ "ages")), l)) /\
  (keyed_response w (base_url ++ "ages") "Id" items l ->
   get_age_from_id w x is_test
   = (r <~ resolved "Id" "Name" x items ;; Ok (tested is_test r (base_url ++ "ages")), l)) /\
  (keyed_response w (base_url ++ "sexes") "Name" items l ->
   get_sex_id w x is_test
   = (r <~ resolved "Name" "Id" x items ;; Ok (tested is_test r (base_url ++ "sexes")), l)) /\
  (keyed_response w (base_url ++ "sexes") "Id" items l ->
   get_sex_from_id w x is_test
   = (r <~ resolved "Id" "Name" x items ;; Ok (tested is_test r (base_url ++ "sexes")), l)) /\
  (keyed_response w (base_url ++ "value_notes") "Text" items l ->
   get_value_note_id w x is_test
   = (r <~ resolved "Text" "Id" x items ;;
      Ok (tested is_test r (base_url ++ "value_notes")), l)).
Proof.
  intros Hx. repeat split; intros R.
  - apply (lookup_after_pop w _ "Name" "Id" items l R x is_test _ Hx).
  - apply (lookup_after_pop w _ "Id" "Name" items l R x is_test _ Hx).
  - apply (lookup_after_pop w _ "Name" "Id" items l R x is_test _ Hx).
  - apply (lookup_after_pop w _ "Id" "Name" items l R x is_test _ Hx).
  - apply (lookup_after_pop w _ "Text" "Id" items l R x is_test _ Hx).
Qed.

Lemma sample_sexes_keyed (a : string) :
  (a = "Name" \/ a = "Id") ->
  keyed_response sample_world (base_url ++ "sexes") a
    [PDict [(PStr "Id", PInt 1); (PStr "Name", PStr "Male")];
     PDict [(PStr "Id", PInt 2); (PStr "Name", PStr "Female")]]
    [RequestsGet true (base_url ++ "sexes")].
Proof.
  intros H. split; [reflexivity|].
  intros item [<-|[<-|[]]]; destruct H as [-> | ->]; eexists; split; reflexivity.
Qed.

Lemma identifier_lookups_witness :
  get_sex_id sample_world (PStr "Female") false
  = (Ok (PInt 2, None), [RequestsGet true (base_url ++ "sexes")]) /\
  get_sex_id sample_world (PStr "Unknown") false
  = (Raise (KeyError (PStr "Unknown")), [RequestsGet true (base_url ++ "sexes")]).
Proof.
  split.
  - apply (proj1 (proj2 (proj2 (identifier_lookups sample_world _ _ (PStr "Female") false
                                  eq_refl)))
                 (sample_sexes_keyed "Name" (or_introl eq_refl))).
  - apply (proj1 (proj2 (proj2 (identifier_lookups sample_world _ _ (PStr "Unknown") false
                                  eq_refl)))
                 (sample_sexes_keyed "Name" (or_introl eq_refl))).
Defined.

(** ** Round trip between names and identifiers *)

Lemma last_with_distinct (a k : pyval) (items : list pyval) (item : pyval) :
  distinct_on a items = true ->
  In item items ->
  field item a = Some k ->
  hashable k = true ->
  last_with a k items = Some item.
Proof.
  unfold distinct_on. intros Hd Hin Hf Hh.
  induction items as [|it items IH]; [contradiction|].
  simpl in Hd. apply andb_true_iff in Hd. destruct Hd as [H1 H2].
  apply negb_true_iff in H1. cbn [last_with]. destruct Hin as [<-|Hin].
  - rewrite Hf in H1. rewrite Hf, (key_eqb_refl k Hh).
    destruct (last_with a k items) as [found|] eqn:L; [|reflexivity].
    destruct (last_with_some a k items found L) as [Hin [o [kv [-> [Ho E]]]]].
    rewrite (dict_has_in _ kv k (PDict o)) in H1; [discriminate H1 | | exact E].
    apply in_map_iff. exists (PDict o). split; [|exact Hin]. simpl. rewrite Ho.
    reflexivity.
  - rewrite (IH H2 Hin). reflexivity.
Qed.

Lemma resolved_distinct (a b : string) (items : list pyval) (item x y : pyval) :
  (a =? b) = false ->
  distinct_on (PStr a) items = true ->
  In item items ->
  field item (PStr a) = Some x ->
  hashable x = true ->
  field item (PStr b) = Some y ->
  resolved a b x items = Ok y.
Proof.
  intros Hab Hd Hin Hx Hh Hy. unfold resolved.
  rewrite (last_with_distinct (PStr a) x items item Hd Hin Hx Hh).
  destruct item; try discriminate Hx. cbn [without field] in *.
  rewrite (dict_lookup_remove_ne d (PStr a) (PStr b) Hab), Hy. reflexivity.
Qed.

(** X5. When no two ages have the same name and no two the same
    identifier, the two age lookups are inverse to each other on every age
    of the response: the identifier found for its name is its own, and the
    name found for its identifier is its own.  The same holds for the
    sexes. *)
Theorem name_id_round_trip (w : World) (items : list pyval) (l : list request)
    (item name id : pyval) :
  distinct_on (PStr "Name") items = true ->
  distinct_on (PStr "Id") items = true ->
  In item items ->
  field item (PStr "Name") = Some name -> hashable name = true ->
  field item (PStr "Id") = Some id -> hashable id = true ->
  (keyed_response w (base_url ++ "ages") "Name" items l ->
   keyed_response w (base_url ++ "ages") "Id" items l ->
   get_age_id w name false = (Ok (id, None), l) /\
   get_age_from_id w id false = (Ok (name, None), l)) /\
  (keyed_response w (base_url ++ "sexes") "Name" items l ->
   keyed_response w (base_url ++ "sexes") "Id" items l ->
   get_sex_id w name false = (Ok (id, None), l) /\
   get_sex_from_id w id false = (Ok (name, None), l)).
Proof.
  intros Dn Di Hin Hn Hhn Hi Hhi.
  assert (R1 : resolved "Name" "Id" name items = Ok id)
    by (apply (resolved_distinct "Name" "Id" items item); auto).
  assert (R2 : resolved "Id" "Name" id items = Ok name)
    by (apply (resolved_distinct "Id" "Name" items item); auto).
  split; intros Kn Ki; split.
  - rewrite (lookup_after_pop w _ "Name" "Id" items l Kn name false _ Hhn : get_age_id w name false = _).
    rewrite R1. reflexivity.
  - rewrite (lookup_after_pop w _ "Id" "Name" items l Ki id false _ Hhi : get_age_from_id w id false = _).
    rewrite R2. reflexivity.
  - rewrite (lookup_after_pop w _ "Name" "Id" items l Kn name false _ Hhn : get_sex_id w name false = _).
    rewrite R1. reflexivity.
  - rewrite (lookup_after_pop w _ "Id" "Name" items l Ki id false _ Hhi : get_sex_from_id w id false = _).
    rewrite R2. reflexivity.
Qed.

Lemma name_id_round_trip_witness :
  get_sex_id sample_world (PStr "Female") false
  = (Ok (PInt 2, None), [RequestsGet true (base_url ++ "sexes")]) /\
  get_sex_from_id sample_world (PInt 2) false
  = (Ok (PStr "Female", None), [RequestsGet true (base_url ++ "sexes")]).
Proof.
  apply (proj2 (name_id_round_trip sample_world
                  [PDict [(PStr "Id", PInt 1); (PStr "Name", PStr "Male")];
                   PDict [(PStr "Id", PInt 2); (PStr "Name", PStr "Female")]]
                  [RequestsGet true (base_url ++ "sexes")]
                  (PDict [(PStr "Id", PInt 2); (PStr "Name", PStr "Female")])
                  (PStr "Female") (PInt 2)
                  eq_refl eq_refl (or_intror (or_introl eq_refl))
                  eq_refl eq_refl eq_refl eq_refl)
               (sample_sexes_keyed "Name" (or_introl eq_refl))
               (sample_sexes_keyed "Id" (or_intror eq_refl))).
Defined.

(** ** Profile search by key *)

Lemma profile_key_loop_no_match (profile_key : pyval) (entries : list (pyval * pyval)) :
  (forall i q, In (i, q) entries -> key_is profile_key q false) ->
  profile_key_loop profile_key entries = Ok None.
Proof.
  induction entries as [|[i q] entries IH]; intros H; [reflexivity|].
  destruct (H i q (or_introl eq_refl)) as [k [Hk E]].
  simpl. rewrite Hk. simpl. rewrite E. apply IH.
  intros i' q' Hin. apply (H i' q'). right. exact Hin.
Qed.

Lemma profile_key_loop_first (profile_key : pyval) (pre post : list (pyval * pyval))
    (i p : pyval) :
  (forall j q, In (j, q) pre -> key_is profile_key q false) ->
  key_is profile_key p true ->
  profile_key_loop profile_key (pre ++ (i, p) :: post) = Ok (Some p).
Proof.
  intros Hpre [k [Hk E]]. induction pre as [|[j q] pre IH].
  - simpl. rewrite Hk. simpl. rewrite E. reflexivity.
  - destruct (Hpre j q (or_introl eq_refl)) as [k' [Hk' E']].
    simpl. rewrite Hk'. simpl. rewrite E'. apply IH.
    intros j' q' Hin. apply (Hpre j' q'). right. exact Hin.
Qed.

(** X6. The search by key returns the first profile, in the order of the
    profiles mapping, whose [Key] equals the key; the profiles after it are
    not looked at.  When no profile has the key, the text "Profile could
    not be found" is returned as a value.  A profile without [Key] counts
    as having the key [None]. *)
Theorem get_profile_by_key_first_match (w : World) (profile_key : pyval)
    (d : pydict) (u : option string) (l : list request) :
  get_all_profiles w false = (Ok (PDict d, u), l) ->
  (forall pre i p post,
      d = (pre ++ (i, p) :: post)%list ->
      (forall j q, In (j, q) pre -> key_is profile_key q false) ->
      key_is profile_key p true ->
      get_profile_by_key w profile_key = (Ok p, l)) /\
  ((forall i q, In (i, q) d -> key_is profile_key q false) ->
   get_profile_by_key w profile_key = (Ok (PStr "Profile could not be found"), l)).
Proof.
  intros Hall. split.
  - intros pre i p post -> Hpre Hp. unfold get_profile_by_key.
    rewrite Hall, bind_ok. cbn beta iota. cbn [py_items rbind].
    rewrite (profile_key_loop_first profile_key pre post i p Hpre Hp), bind_lift_ok.
    unfold outcome, log; simpl. rewrite app_nil_r. reflexivity.
  - intros Hno. unfold get_profile_by_key.
    rewrite Hall, bind_ok. cbn beta iota. cbn [py_items rbind].
    rewrite (profile_key_loop_no_match profile_key d Hno), bind_lift_ok.
    unfold outcome, log; simpl. rewrite app_nil_r. reflexivity.
Qed.

Lemma get_profile_by_key_first_match_witness :
  get_profile_by_key sample_world PNone
  = (Ok (PDict [(PStr "Id", PInt 1); (PStr "Name", PStr "Fingertips Search A")]),
     [RequestsGet true (base_url ++ "profiles")]) /\
  get_profile_by_key sample_world (PStr "general-practice")
  = (Ok (PStr "Profile could not be found"), [RequestsGet true (base_url ++ "profiles")]).
Proof.
  pose proof (get_profile_by_key_first_match sample_world) as T.
  split.
  - apply (proj1 (T PNone _ None _ eq_refl) [] (PInt 1) _
                 [(PInt 2, PDict [(PStr "Id", PInt 2);
                                  (PStr "Name", PStr "Fingertips Search B")])]).
    + reflexivity.
    + intros j q [].
    + exists PNone. split; reflexivity.
  - apply (proj2 (T (PStr "general-practice") _ None _ eq_refl)).
    intros i q [[= <- <-]|[[= <- <-]|[]]]; exists PNone; split; reflexivity.
Defined.

(** ** Area types of a profile *)

(** X7. The area-type identifiers of a profile are the [Id] fields of the
    area types of the response, in the order of the response, when the area
    types differ in their first field; an area type without [Id] gives
    [None] in its place, not an error. *)
Theorem area_type_ids_in_response_order (w : World) (profile_id : pyval)
    (items ks : list pyval) (key : pyval) (l : list request) :
  get_json w (base_url ++ "area_types?profile_ids=" ++ py_str profile_id)
  = (Ok (PList items), l) ->
  first_key (PList items) = Ok key ->
  Forall2 (fun js k => py_get js key = Ok k /\ hashable k = true) items ks ->
  keys_distinct (combine ks items) = true ->
  get_area_type_ids_for_profile w profile_id
  = (Ok (PList (map (field_or_none "Id") items)), l).
Proof.
  intros Hj Hkey Hf Hd. unfold get_area_type_ids_for_profile, get_area_types_for_profile.
  rewrite (get_data_in_dict_eq w _ PNone PNone items l Hj). cbn [is_None].
  rewrite Hkey. cbn [rbind].
  rewrite (pick_whole_in_order key items ks [] Hf Hd). cbn [rbind app].
  assert (E : map_r (fun value => py_get value (PStr "Id")) items
              = Ok (map (field_or_none "Id") items)).
  { clear Hj Hkey Hd. induction Hf as [|js k items ks [Hk _] _ IH]; [reflexivity|].
    simpl. destruct js; try discriminate Hk.
    rewrite IH. reflexivity. }
  unfold ret at 1, tested. rewrite bind_ok. unfold outcome at 1, log at 1.
  cbn [fst snd]. rewrite bind_ok. cbn beta iota. cbn [py_values rbind].
  rewrite (dict_values_combine ks items) by (symmetry; apply (Forall2_length Hf)).
  rewrite E. unfold outcome, log; simpl. rewrite !app_nil_r. reflexivity.
Qed.

Lemma area_type_ids_in_response_order_witness :
  get_area_type_ids_for_profile sample_world (PInt 5)
  = (Ok (PList [PInt 7; PInt 102]),
     [RequestsGet true (base_url ++ "area_types?profile_ids=5")]).
Proof.
  apply (area_type_ids_in_response_order sample_world (PInt 5) _ [PInt 7; PInt 102]
           (PStr "Id") _ eq_refl eq_refl).
  - repeat constructor.
  - reflexivity.
Defined.

(** ** All data for a profile: failures, empty input, the URL returned *)

Lemma for_each_app {A S} (xs ys : list A) (body : S -> A -> M S) (acc : S) :
  for_each (xs ++ ys) body acc = (acc' <- for_each xs body acc ;; for_each ys body acc').
Proof.
  revert acc. induction xs as [|x xs IH]; intros acc.
  - cbn [app for_each]. rewrite bind_ret. reflexivity.
  - cbn [app for_each]. destruct (body acc x) as [[a|e] l]; [|reflexivity].
    rewrite !bind_ok, IH.
    destruct (for_each xs body a) as [[b|e] l']; unfold outcome, log, bind; simpl.
    + destruct (for_each ys body b). rewrite <- ?app_assoc. reflexivity.
    + reflexivity.
Qed.

Section ProfileDataMore.
Variable w : World.
Variables profile_id parent_area_type_id : pyval.

Let url (area : pyval) : string :=
  base_url ++ profile_data_url profile_id parent_area_type_id area.

Let step := profile_data_step w profile_id parent_area_type_id.

Lemma profile_step_answered (state : DataFrame * option string) (area : pyval)
    (t : DataFrame) :
  answered w (url area) t ->
  exists lg,
    step state area
    = (Ok (pd_concat (fst state) t,
           Some (profile_data_url profile_id parent_area_type_id area)), lg) /\
    filter is_strict lg = [ReadCsv (url area)].
Proof.
  intros [H|[H [body [Hb Ht]]]].
  - exists [ReadCsv (url area)]. split; [|reflexivity].
    apply (profile_data_step_ok w profile_id parent_area_type_id state area t H).
  - exists [ReadCsv (url area); RequestsGet false (url area)]. split; [|reflexivity].
    apply (profile_data_step_url_error w profile_id parent_area_type_id state area t body
             H Hb Ht).
Qed.

Lemma profile_loop_answered (areas : list pyval) (tables : list DataFrame)
    (state : DataFrame * option string) :
  Forall2 (fun area t => answered w (url area) t) areas tables ->
  exists u lg,
    for_each areas step state = (Ok (fold_left pd_concat tables (fst state), u), lg) /\
    filter is_strict lg = map (fun area => ReadCsv (url area)) areas.
Proof.
  intros H. revert state. induction H as [|area t areas tables Ha _ IH]; intros state.
  - exists (snd state), []. destruct state. split; reflexivity.
  - destruct (profile_step_answered state area t Ha) as [l1 [E1 F1]].
    destruct (IH (pd_concat (fst state) t,
                  Some (profile_data_url profile_id parent_area_type_id area)))
      as [u [l2 [E2 F2]]].
    exists u, (l1 ++ l2)%list. split.
    + cbn [for_each]. rewrite E1, bind_ok, E2. reflexivity.
    + rewrite filter_app, F1, F2. reflexivity.
Qed.

Lemma profile_step_http_error (state : DataFrame * option string) (area : pyval)
    (code : Z) :
  read_csv_url w (url area) = Raise (HTTPError code) ->
  step state area
  = (Raise (Exception "There has been a server error with Fingertips for this request. "),
     [ReadCsv (url area)]).
Proof.
  intros H. unfold step, profile_data_step.
  change (base_url ++ _) with (url area).
  rewrite (fetch_http_error w (url area) _ code H). reflexivity.
Qed.

Lemma profile_loop_last_url (areas : list pyval) (a : pyval)
    (state out : DataFrame * option string) (lg : list request) :
  for_each (areas ++ [a]) step state = (Ok out, lg) ->
  snd out = Some (profile_data_url profile_id parent_area_type_id a).
Proof.
  rewrite for_each_app. destruct (for_each areas step state) as [[mid|e] l1];
    [|discriminate].
  rewrite bind_ok. cbn [for_each]. unfold step at 1, profile_data_step.
  match goal with
  | |- context [try_except ?b ?h] => destruct (try_except b h) as [[t|e] l2]
  end; [|discriminate].
  cbv [bind ret outcome log fst snd]. intros [= <- _]. reflexivity.
Qed.
End ProfileDataMore.

(** X8. In the data of a profile, an area type whose strict request fails
    with a URL error is fetched by the relaxed request and its rows are
    appended like any other: when every area type is obtained one way or
    the other, the table holds the rows of all of them, in the order of
    the area types, and exactly one strict request per area type is
    sent, in that order. *)
Theorem profile_data_keeps_all_rows (w : World) (profile_id parent_area_type_id : pyval)
    (areas : list pyval) (tables : list DataFrame) :
  Forall2 (fun area t =>
             answered w (base_url ++ profile_data_url profile_id parent_area_type_id area) t)
          areas tables ->
  exists lg,
    get_all_data_for_profile w profile_id parent_area_type_id (PList areas) PNone false
    = (Ok (fold_left pd_concat tables empty_frame, None), lg) /\
    nrows (fold_left pd_concat tables empty_frame) = list_sum (map nrows tables) /\
    filter is_strict lg
    = map (fun area =>
             ReadCsv (base_url ++ profile_data_url profile_id parent_area_type_id area))
          areas.
Proof.
  intros H.
  destruct (profile_loop_answered w profile_id parent_area_type_id areas tables
              (empty_frame, None) H) as [u [lg [E F]]].
  exists lg. split; [|split; [apply nrows_fold_concat | exact F]].
  unfold get_all_data_for_profile. cbn [is_None negb type_is_int].
  rewrite bind_ret. cbn [py_iter]. rewrite bind_lift_ok, E, bind_ok.
  cbn beta iota. cbn [filter_area_codes truthy]. rewrite bind_lift_ok.
  unfold outcome, log, ret; simpl. rewrite app_nil_r. reflexivity.
Qed.

Lemma profile_data_keeps_all_rows_witness :
  exists lg,
    get_all_data_for_profile sample_world (PInt 2) (PInt 15) (PList [PInt 7; PInt 102])
      PNone false
    = (Ok (fold_left pd_concat [retried_row; retried_row] empty_frame, None), lg) /\
    nrows (fold_left pd_concat [retried_row; retried_row] empty_frame) = 2%nat.
Proof.
  destruct (profile_data_keeps_all_rows sample_world (PInt 2) (PInt 15)
              [PInt 7; PInt 102] [retried_row; retried_row]) as [lg [E [N _]]].
  - assert (A : forall area, area = PInt 7 \/ area = PInt 102 ->
                 answered sample_world
                   (base_url ++ profile_data_url (PInt 2) (PInt 15) area) retried_row).
    { intros area [-> | ->]; right; (split; [reflexivity|]); eexists; split; reflexivity. }
    apply Forall2_cons; [apply A; left; reflexivity|].
    apply Forall2_cons; [apply A; right; reflexivity | apply Forall2_nil].
  - exists lg. split; [exact E | exact N].
Defined.

(** X9. In the data of a profile, the first area type answered by an HTTP
    error ends the call with the exception "There has been a server error
    with Fingertips for this request. ": the tables of the area types
    before it are dropped and the area types after it are not requested,
    whatever the filter and [is_test]. *)
Theorem profile_data_http_error_aborts (w : World)
    (profile_id parent_area_type_id filt : pyval) (is_test : bool)
    (pre post : list pyval) (a : pyval) (tables : list DataFrame) (code : Z) :
  Forall2 (fun area t =>
             answered w (base_url ++ profile_data_url profile_id parent_area_type_id area) t)
          pre tables ->
  read_csv_url w (base_url ++ profile_data_url profile_id parent_area_type_id a)
  = Raise (HTTPError code) ->
  exists lg,
    get_all_data_for_profile w profile_id parent_area_type_id (PList (pre ++ a :: post))
      filt is_test
    = (Raise (Exception "There has been a server error with Fingertips for this request. "),
       lg) /\
    filter is_strict lg
    = map (fun area =>
             ReadCsv (base_url ++ profile_data_url profile_id parent_area_type_id area))
          (pre ++ [a]).
Proof.
  intros Hpre Ha.
  destruct (profile_loop_answered w profile_id parent_area_type_id pre tables
              (empty_frame, None) Hpre) as [u [lg [E F]]].
  exists (lg ++ [ReadCsv (base_url ++ profile_data_url profile_id parent_area_type_id a)])%list.
  split.
  - unfold get_all_data_for_profile. cbn [is_None negb type_is_int].
    rewrite bind_ret. cbn [py_iter]. rewrite bind_lift_ok, for_each_app, E, bind_ok.
    cbn [for_each].
    rewrite (profile_step_http_error w profile_id parent_area_type_id _ a code Ha).
    reflexivity.
  - rewrite filter_app, F, map_app. reflexivity.
Qed.

Lemma profile_data_http_error_aborts_witness :
  exists lg,
    get_all_data_for_profile sample_world (PInt 5) (PInt 15)
      (PList [PInt 7; PStr "=404"; PInt 102]) PNone false
    = (Raise (Exception "There has been a server error with Fingertips for this request. "),
       lg) /\
    filter is_strict lg
    = map (fun area => ReadCsv (base_url ++ profile_data_url (PInt 5) (PInt 15) area))
          [PInt 7; PStr "=404"].
Proof.
  apply (profile_data_http_error_aborts sample_world (PInt 5) (PInt 15) PNone false
           [PInt 7] [PInt 102] (PStr "=404") [two_rows] 404).
  - apply Forall2_cons; [left; reflexivity | apply Forall2_nil].
  - vm_compute. reflexivity.
Defined.

(** X10. With an area-type argument that holds no area type (an empty list
    or an empty string), no request is sent: the call returns an empty
    table when there is no filter, raises [UnboundLocalError] when
    [is_test] is set as well, and raises [KeyError] of the area code
    column when a non-empty list or string of codes is given. *)
Theorem profile_data_without_area_types (w : World)
    (profile_id parent_area_type_id area_type_id filt : pyval) (is_test : bool) :
  is_None area_type_id = false ->
  py_iter area_type_id = Ok [] ->
  (truthy filt = false ->
   get_all_data_for_profile w profile_id parent_area_type_id area_type_id filt is_test
   = if is_test then (Raise (UnboundLocalError "populated_url"), [])
     else (Ok (empty_frame, None), [])) /\
  (truthy filt = true ->
   isinstance_list filt || isinstance_str filt = true ->
   get_all_data_for_profile w profile_id parent_area_type_id area_type_id filt is_test
   = (Raise (KeyError (PStr "Area Code")), [])).
Proof.
  intros Hn Hi.
  assert (Hint : type_is_int area_type_id = false)
    by (destruct area_type_id; try reflexivity; discriminate Hi).
  unfold get_all_data_for_profile. rewrite Hn, Hint. cbn [negb].
  rewrite bind_ret, Hi, bind_lift_ok. cbn [for_each]. rewrite bind_ret.
  unfold filter_area_codes. split.
  - intros ->. rewrite bind_lift_ok. destruct is_test; reflexivity.
  - intros -> Hty. destruct filt; try discriminate Hty; reflexivity.
Qed.

Lemma profile_data_without_area_types_witness :
  get_all_data_for_profile sample_world (PInt 5) (PInt 15) (PList []) PNone true
  = (Raise (UnboundLocalError "populated_url"), []) /\
  get_all_data_for_profile sample_world (PInt 5) (PInt 15) (PStr "")
    (PList [PStr "E12000001"]) false
  = (Raise (KeyError (PStr "Area Code")), []).
Proof.
  split.
  - apply (proj1 (profile_data_without_area_types sample_world (PInt 5) (PInt 15)
                    (PList []) PNone true eq_refl eq_refl) eq_refl).
  - apply (proj2 (profile_data_without_area_types sample_world (PInt 5) (PInt 15)
                    (PStr "") (PList [PStr "E12000001"]) false eq_refl eq_refl)
                 eq_refl eq_refl).
Defined.

(** X11. With [is_test] the data of a profile is the same table, obtained
    by the same requests; the URL returned with it is the address of the
    last area type alone, whatever number of area types was requested. *)
Theorem profile_data_is_test_last_url (w : World)
    (profile_id parent_area_type_id filt : pyval) (areas : list pyval) (a : pyval)
    (df : DataFrame) (u : option string) :
  outcome (get_all_data_for_profile w profile_id parent_area_type_id
             (PList (areas ++ [a])) filt false) = Ok (df, u) ->
  get_all_data_for_profile w profile_id parent_area_type_id (PList (areas ++ [a])) filt true
  = (Ok (df, Some (base_url ++ profile_data_url profile_id parent_area_type_id a)),
     log (get_all_data_for_profile w profile_id parent_area_type_id
            (PList (areas ++ [a])) filt false)).
Proof.
  unfold get_all_data_for_profile. cbn [is_None negb type_is_int].
  rewrite !bind_ret. cbn [py_iter]. rewrite !bind_lift_ok.
  destruct (for_each (areas ++ [a]) (profile_data_step w profile_id parent_area_type_id)
              (empty_frame, None)) as [[[df0 u0]|e] lg] eqn:E; [|discriminate].
  pose proof (profile_loop_last_url w profile_id parent_area_type_id areas a _ _ _ E) as Hu.
  simpl in Hu. subst u0. rewrite !bind_ok. cbn beta iota.
  destruct (filter_area_codes filt df0) as [df1|e]; [|discriminate].
  rewrite !bind_lift_ok. unfold outcome, log, ret; simpl.
  intros [= <- _]. reflexivity.
Qed.

Lemma profile_data_is_test_last_url_witness :
  outcome (get_all_data_for_profile sample_world (PInt 5) (PInt 15)
             (PList [PInt 7; PInt 102]) PNone true)
  = Ok (pd_concat (pd_concat empty_frame two_rows) two_rows,
        Some (base_url ++ profile_data_url (PInt 5) (PInt 15) (PInt 102))).
Proof.
  exact (f_equal fst
           (profile_data_is_test_last_url sample_world (PInt 5) (PInt 15) PNone
              [PInt 7] (PInt 102)
              (pd_concat (pd_concat empty_frame two_rows) two_rows) None eq_refl)).
Defined.

(** ** Addresses built by [format] *)

Lemma append_empty_r (s : string) : s ++ "" = s.
Proof. induction s as [|c s IH]; simpl; [reflexivity | rewrite IH; reflexivity]. Qed.

Lemma append_assoc (a b c : string) : (a ++ b) ++ c = a ++ b ++ c.
Proof. induction a as [|x a IH]; simpl; [reflexivity | rewrite IH; reflexivity]. Qed.

Lemma format_scan_text (c : ascii) (rest : string) (nb : numbering)
    (args : list string) :
  Ascii.eqb c "{" = false -> Ascii.eqb c "}" = false ->
  format_scan InText nb args (String c rest)
  = (r <~ format_scan InText nb args rest ;; Ok (String c r)).
Proof. intros H1 H2. cbn [format_scan]. rewrite H1, H2. reflexivity. Qed.

Lemma format_scan_literal (s t : string) (nb : numbering) (args : list string) :
  brace_free s = true ->
  format_scan InText nb args (s ++ t)
  = (r <~ format_scan InText nb args t ;; Ok (s ++ r)).
Proof.
  unfold brace_free. induction s as [|c s IH]; intros H.
  - simpl. destruct (format_scan InText nb args t); reflexivity.
  - cbn [mem_ascii] in H. apply andb_true_iff in H. destruct H as [H1 H2].
    apply negb_true_iff in H1, H2.
    destruct (Ascii.eqb "{" c) eqn:E1; [discriminate H1|].
    destruct (Ascii.eqb "}" c) eqn:E2; [discriminate H2|].
    change (String c s ++ t) with (String c (s ++ t)).
    rewrite format_scan_text by (rewrite Ascii.eqb_sym; assumption).
    rewrite IH by (rewrite H1, H2; reflexivity).
    destruct (format_scan InText nb args t); reflexivity.
Qed.

Lemma format_scan_end (s : string) (nb : numbering) (args : list string) :
  brace_free s = true -> format_scan InText nb args s = Ok s.
Proof.
  intros H. rewrite <- (append_empty_r s) at 1.
  rewrite (format_scan_literal s "" nb args H). simpl. rewrite append_empty_r.
  reflexivity.
Qed.

Lemma format_auto_literal (s t : string) (args : list string) :
  brace_free s = true ->
  format_auto (s ++ t) args = (r <~ format_auto t args ;; Ok (s ++ r)).
Proof. apply format_scan_literal. Qed.

Lemma format_auto_end (s : string) (args : list string) :
  brace_free s = true -> format_auto s args = Ok s.
Proof. apply format_scan_end. Qed.

Lemma format_scan_plain_field (t : string) (nb : numbering) (args : list string) :
  format_scan InText nb args ("{}" ++ t)
  = ('(text, nb') <~ replacement nb args "" true ;;
     r <~ format_scan InText nb' args t ;;
     Ok (text ++ r)).
Proof. reflexivity. Qed.

Lemma format_data_template (a b c tail : string) :
  brace_free tail = true ->
  format_auto
    ("all_data/csv/by_indicator_id?indicator_ids={}&child_area_type_id={}&parent_area_type_id={}"
       ++ tail) [a; b; c]
  = Ok ("all_data/csv/by_indicator_id?indicator_ids=" ++ a
          ++ "&child_area_type_id=" ++ b ++ "&parent_area_type_id=" ++ c ++ tail).
Proof.
  intros H. unfold format_auto.
  change ("all_data/csv/by_indicator_id?indicator_ids={}&child_area_type_id={}&parent_area_type_id={}"
            ++ tail)
    with ("all_data/csv/by_indicator_id?indicator_ids="
            ++ "{}" ++ "&child_area_type_id=" ++ "{}" ++ "&parent_area_type_id="
            ++ "{}" ++ tail).
  rewrite (format_scan_literal "all_data/csv/by_indicator_id?indicator_ids=" _ _ _ eq_refl).
  rewrite format_scan_plain_field.
  change (replacement NotNumbered [a; b; c] "" true) with (Ok (a, Automatic 1)).
  cbn [rbind].
  rewrite (format_scan_literal "&child_area_type_id=" _ _ _ eq_refl).
  rewrite format_scan_plain_field.
  change (replacement (Automatic 1) [a; b; c] "" true) with (Ok (b, Automatic 2)).
  cbn [rbind].
  rewrite (format_scan_literal "&parent_area_type_id=" _ _ _ eq_refl).
  rewrite format_scan_plain_field.
  change (replacement (Automatic 2) [a; b; c] "" true) with (Ok (c, Automatic 3)).
  cbn [rbind].
  rewrite (format_scan_end tail _ _ H). reflexivity.
Qed.

(** ** Formatting when the arguments are used up *)

Lemma get_integer_error (s : string) (acc : N) (e : exn) :
  get_integer acc s = Raise e -> e = ValueError.
Proof.
  revert acc. induction s as [|d s IH]; intros acc; cbn [get_integer]; [discriminate|].
  destruct (digit_of d) as [dv|]; [|discriminate].
  destruct (9223372036854775807 <? acc * 10 + dv)%N; [|apply IH].
  intros [= <-]. reflexivity.
Qed.

Lemma replacement_exhausted (args : list string) (n : nat) (name : string)
    (plain : bool) :
  (length args <= n)%nat ->
  exists e, replacement (Automatic n) args name plain = Raise e /\
            forall msg, e <> OtherError msg.
Proof.
  intros Hn. unfold replacement.
  destruct (first_part name) as [|c first].
  - unfold positional.
    assert (E : (N.of_nat n <? N.of_nat (length args))%N = false)
      by (apply N.ltb_ge; lia).
    rewrite E. exists IndexError. split; [reflexivity | discriminate].
  - destruct (get_integer 0 (String c first)) as [[k|]|e] eqn:G; cbn [rbind].
    + exists ValueError. split; [reflexivity | discriminate].
    + exists (KeyError (PStr (String c first))). split; [reflexivity | discriminate].
    + exists e. split; [reflexivity|]. rewrite (get_integer_error _ _ _ G). discriminate.
Qed.

Lemma rbind_not_other {A B} (m : result A) (k : A -> B) (msg : string) :
  m <> Raise (OtherError msg) -> (r <~ m ;; Ok (k r)) <> Raise (OtherError msg).
Proof. destruct m as [a|e]; cbn [rbind]; [discriminate|]. intros H [= ->]. apply H. reflexivity. Qed.

(** The template of the code has three plain fields and receives three
    arguments: whatever text is pasted after them, a field of that text
    finds no argument, so that formatting never comes to a field that
    finds its argument and is not plain. *)
Lemma format_scan_exhausted (args : list string) (k : nat) :
  forall (template : string) (st : scan) (n : nat) (msg : string),
    (String.length template <= k)%nat ->
    (length args <= n)%nat ->
    format_scan st (Automatic n) args template <> Raise (OtherError msg).
Proof.
  induction k as [|k IH]; intros template st n msg Hlen Hn.
  - destruct template; [|cbn [String.length] in Hlen; lia]. destruct st; discriminate.
  - destruct template as [|c rest]; [destruct st; discriminate|].
    cbn [String.length] in Hlen.
    assert (Hrest : forall st', format_scan st' (Automatic n) args rest
                                <> Raise (OtherError msg))
      by (intros st'; apply IH; [lia | exact Hn]).
    assert (F : forall name plain,
               ('(text, nb') <~ replacement (Automatic n) args name plain ;;
                r <~ format_scan InText nb' args rest ;; Ok (text ++ r))
               <> Raise (OtherError msg)).
    { intros name plain. destruct (replacement_exhausted args n name plain Hn) as [e [-> He]].
      cbn [rbind]. intros [= ->]. apply (He msg eq_refl). }
    destruct st; cbn [format_scan].
    + destruct (Ascii.eqb c "{"); [|destruct (Ascii.eqb c "}")].
      * destruct rest as [|d rest']; [discriminate|].
        destruct (Ascii.eqb d "{"); [|apply Hrest].
        apply rbind_not_other, IH; [cbn [String.length] in Hlen; lia | exact Hn].
      * destruct rest as [|d rest']; [discriminate|].
        destruct (Ascii.eqb d "}"); [|discriminate].
        apply rbind_not_other, IH; [cbn [String.length] in Hlen; lia | exact Hn].
      * apply rbind_not_other, Hrest.
    + destruct (Ascii.eqb c "{"); [discriminate|].
      destruct (Ascii.eqb c "["); [apply Hrest|].
      destruct (Ascii.eqb c "}"); [apply F|].
      destruct (Ascii.eqb c ":"); [apply Hrest|].
      destruct (Ascii.eqb c "!"); apply Hrest.
    + destruct (Ascii.eqb c "]"); apply Hrest.
    + apply Hrest.
    + destruct (Ascii.eqb c "}"); [apply F|].
      destruct (Ascii.eqb c ":"); [apply Hrest | discriminate].
    + destruct (Ascii.eqb c "{"); [apply Hrest|].
      destruct (Ascii.eqb c "}"); [|apply Hrest].
      destruct nested; [apply F | apply Hrest].
Qed.

Lemma format_template_modelled (a b c tail msg : string) :
  format_auto
    ("all_data/csv/by_indicator_id?indicator_ids={}&child_area_type_id={}&parent_area_type_id={}"
       ++ tail) [a; b; c]
  <> Raise (OtherError msg).
Proof.
  unfold format_auto.
  change ("all_data/csv/by_indicator_id?indicator_ids={}&child_area_type_id={}&parent_area_type_id={}"
            ++ tail)
    with ("all_data/csv/by_indicator_id?indicator_ids="
            ++ "{}" ++ "&child_area_type_id=" ++ "{}" ++ "&parent_area_type_id="
            ++ "{}" ++ tail).
  rewrite (format_scan_literal "all_data/csv/by_indicator_id?indicator_ids=" _ _ _ eq_refl).
  rewrite format_scan_plain_field.
  change (replacement NotNumbered [a; b; c] "" true) with (Ok (a, Automatic 1)).
  cbn [rbind].
  rewrite (format_scan_literal "&child_area_type_id=" _ _ _ eq_refl).
  rewrite format_scan_plain_field.
  change (replacement (Automatic 1) [a; b; c] "" true) with (Ok (b, Automatic 2)).
  cbn [rbind].
  rewrite (format_scan_literal "&parent_area_type_id=" _ _ _ eq_refl).
  rewrite format_scan_plain_field.
  change (replacement (Automatic 2) [a; b; c] "" true) with (Ok (c, Automatic 3)).
  cbn [rbind].
  pose proof (format_scan_exhausted [a; b; c] (String.length tail) tail InText 3 msg
                (le_n _) (le_n _)) as H.
  destruct (format_scan InText (Automatic 3) [a; b; c] tail) as [r|e]; cbn [rbind];
    [discriminate|].
  intros [= ->]. apply H. reflexivity.
Qed.

(** ** Data of indicators *)

Lemma ids_text_ok (indicators : pyval) :
  ids_well_typed indicators = true ->
  match indicators with
  | PList l =>
      if existsb isinstance_int l then Ok (join "," (map py_str l))
      else if forallb isinstance_str l then Ok (join "," (map py_str l))
      else Raise TypeError
  | _ => Ok (py_str indicators)
  end = Ok (indicator_ids_text indicators).
Proof.
  destruct indicators as [| | | |l|]; try reflexivity. simpl. intros H.
  destruct (existsb isinstance_int l) eqn:E; [reflexivity|].
  assert (S : forallb isinstance_str l = true).
  { induction l as [|v l IH]; [reflexivity|]. simpl in *.
    apply andb_true_iff in H. destruct H as [Hv Hl].
    apply orb_false_iff in E. destruct E as [Ev El].
    rewrite Ev in Hv. simpl in Hv. rewrite Hv. apply (IH Hl El). }
  rewrite S. reflexivity.
Qed.

Section RelaxedFetch.
Variable w : World.
Variable url : string.

Let handler : exn -> option (M DataFrame) :=
  fun e => if isinstance_URLError e then Some (deal_with_url_error w url) else None.

Lemma fetch_strict (df : DataFrame) :
  read_csv_url w url = Ok df ->
  try_except (pd_read_csv w url) handler = (Ok df, [ReadCsv url]).
Proof. intros H. unfold try_except, pd_read_csv. rewrite H. reflexivity. Qed.

Lemma fetch_relaxed (e : exn) :
  isinstance_URLError e = true ->
  read_csv_url w url = Raise e ->
  try_except (pd_read_csv w url) handler
  = (relaxed_table w url, [ReadCsv url; RequestsGet false url]).
Proof.
  intros He H. unfold try_except, pd_read_csv, handler. rewrite H, He.
  rewrite deal_with_url_error_eq. reflexivity.
Qed.
End RelaxedFetch.

Lemma mem_ascii_app (c : ascii) (s t : string) :
  mem_ascii c (s ++ t) = mem_ascii c s || mem_ascii c t.
Proof.
  induction s as [|d s IH]; simpl; [reflexivity|].
  destruct (Ascii.eqb c d); [reflexivity | exact IH].
Qed.

Lemma brace_free_app (s t : string) :
  brace_free s = true -> brace_free t = true -> brace_free (s ++ t) = true.
Proof.
  unfold brace_free. rewrite !mem_ascii_app. intros Hs Ht.
  apply andb_true_iff in Hs. destruct Hs as [S1 S2].
  apply andb_true_iff in Ht. destruct Ht as [T1 T2].
  apply negb_true_iff in S1, S2, T1, T2. rewrite S1, S2, T1, T2. reflexivity.
Qed.

Lemma data_by_ids_eq (w : World) (indicators area_type_id parent_area_type_id
    profile_id include_sortable_time_periods : pyval) (is_test : bool) :
  ids_well_typed indicators = true ->
  brace_free (py_str profile_id) = true ->
  let url :=
    base_url ++ indicator_data_url indicators area_type_id parent_area_type_id
      ++ (if truthy profile_id then "&profile_id=" ++ py_str profile_id else "")
      ++ (if truthy include_sortable_time_periods
          then "&include_sortable_time_periods=yes" else "") in
  get_data_by_indicator_ids w indicators area_type_id parent_area_type_id profile_id
    include_sortable_time_periods is_test
  = (df <- try_except (pd_read_csv w url)
             (fun e => if isinstance_URLError e
                       then Some (deal_with_url_error w url) else None) ;;
     ret (tested is_test df url)).
Proof.
  intros Hids Hp url. unfold get_data_by_indicator_ids.
  rewrite (ids_text_ok indicators Hids), bind_lift_ok.
  pose proof brace_free_app as B.
  assert (F : forall tail,
             brace_free tail = true ->
             (populated_url <-
                lift (format_auto
                        ("all_data/csv/by_indicator_id?indicator_ids={}&child_area_type_id={}&parent_area_type_id={}"
                           ++ tail)
                        [indicator_ids_text indicators; py_str area_type_id;
                         py_str parent_area_type_id]) ;;
              df <- try_except (pd_read_csv w (base_url ++ populated_url))
                      (fun e => if isinstance_URLError e
                                then Some (deal_with_url_error w (base_url ++ populated_url))
                                else None) ;;
              ret (tested is_test df (base_url ++ populated_url)))
             = (df <- try_except
                        (pd_read_csv w
                           (base_url ++ indicator_data_url indicators area_type_id
                                          parent_area_type_id ++ tail))
                        (fun e =>
                           if isinstance_URLError e
                           then Some (deal_with_url_error w
                                        (base_url ++ indicator_data_url indicators
                                                       area_type_id parent_area_type_id
                                                  ++ tail))
                           else None) ;;
                ret (tested is_test df
                       (base_url ++ indicator_data_url indicators area_type_id
                                      parent_area_type_id ++ tail)))).
  { intros tail Ht. rewrite (format_data_template _ _ _ tail Ht), bind_lift_ok.
    unfold indicator_data_url. rewrite !append_assoc. reflexivity. }
  unfold url.
  destruct (truthy profile_id), (truthy include_sortable_time_periods); cbn [andb negb].
  - rewrite <- (append_assoc "&profile_id=" (py_str profile_id)
                             "&include_sortable_time_periods=yes").
    apply (F (("&profile_id=" ++ py_str profile_id) ++ "&include_sortable_time_periods=yes")).
    apply B; [apply (B "&profile_id="); [reflexivity | exact Hp] | reflexivity].
  - rewrite (append_empty_r ("&profile_id=" ++ py_str profile_id)).
    apply (F ("&profile_id=" ++ py_str profile_id)).
    apply (B "&profile_id="); [reflexivity | exact Hp].
  - apply (F "&include_sortable_time_periods=yes"). reflexivity.
  - apply (F ""). reflexivity.
Qed.

(** X12. The address that [get_data_by_indicator_ids] requests: the
    identifiers joined with commas, the two area types, then [profile_id]
    when a profile is given and the sortable-time-periods flag when it is
    set, each present or absent independently of the other.  One strict
    request is sent to it, and at most one relaxed request after it; with
    [is_test] it is the address returned. *)
Theorem data_by_ids_address (w : World) (indicators area_type_id parent_area_type_id
    profile_id include_sortable_time_periods : pyval) (is_test : bool) :
  ids_well_typed indicators = true ->
  brace_free (py_str profile_id) = true ->
  let url :=
    base_url ++ indicator_data_url indicators area_type_id parent_area_type_id
      ++ (if truthy profile_id then "&profile_id=" ++ py_str profile_id else "")
      ++ (if truthy include_sortable_time_periods
          then "&include_sortable_time_periods=yes" else "") in
  let call :=
    get_data_by_indicator_ids w indicators area_type_id parent_area_type_id profile_id
      include_sortable_time_periods is_test in
  (log call = [ReadCsv url] \/ log call = [ReadCsv url; RequestsGet false url]) /\
  forall df u, outcome call = Ok (df, u) -> u = if is_test then Some url else None.
Proof.
  intros Hids Hp url call. unfold call.
  rewrite (data_by_ids_eq w indicators area_type_id parent_area_type_id profile_id
             include_sortable_time_periods is_test Hids Hp).
  fold url. unfold try_except, pd_read_csv.
  destruct (read_csv_url w url) as [t|e].
  - split; [left; reflexivity|]. intros df u [= _ <-]. reflexivity.
  - destruct (isinstance_URLError e).
    + rewrite deal_with_url_error_eq.
      destruct (body <~ requests_get w false url ;; read_csv_text w body) as [t|e'].
      * split; [right; reflexivity|]. intros df u [= _ <-]. reflexivity.
      * split; [right; reflexivity|]. intros df u H. discriminate H.
    + split; [left; reflexivity|]. intros df u H. discriminate H.
Qed.

Lemma data_by_ids_address_witness :
  log (get_data_by_indicator_ids sample_world (PList [PInt 1; PStr "3"]) (PInt 7) (PInt 15)
         (PInt 19) (PBool true) true)
  = [ReadCsv "https://fingertips.phe.org.uk/api/all_data/csv/by_indicator_id?indicator_ids=1,3&child_area_type_id=7&parent_area_type_id=15&profile_id=19&include_sortable_time_periods=yes"].
Proof.
  destruct (proj1 (data_by_ids_address sample_world (PList [PInt 1; PStr "3"]) (PInt 7)
                     (PInt 15) (PInt 19) (PBool true) true eq_refl eq_refl))
    as [H|H]; [exact H | discriminate H].
Defined.

Lemma all_data_for_indicators_eq (w : World) (indicators area_type_id
    parent_area_type_id filt : pyval) (is_test : bool) :
  ids_well_typed indicators = true ->
  let url := base_url ++ indicator_data_url indicators area_type_id parent_area_type_id in
  get_all_data_for_indicators w indicators area_type_id parent_area_type_id filt is_test
  = (df <- try_except (pd_read_csv w url)
             (fun e => if isinstance_URLError e
                       then Some (deal_with_url_error w url) else None) ;;
     _ <- lift (reset_index df) ;;
     df <- lift (filter_area_codes filt df) ;;
     ret (tested is_test df url)).
Proof.
  intros Hids url. unfold get_all_data_for_indicators.
  rewrite (ids_text_ok indicators Hids), bind_lift_ok. reflexivity.
Qed.

Lemma reset_index_raises (df : DataFrame) :
  reset_index df
  = if has_column df "index" && has_column df "level_0"
    then Raise ValueError
    else Ok (mkDF ((if has_column df "index" then "level_0" else "index") :: columns df)
                  (renumber 0 (if has_column df "index" then "level_0" else "index")
                            (rows df))).
Proof.
  unfold reset_index. destruct (has_column df "index") eqn:E; simpl.
  - destruct (has_column df "level_0"); reflexivity.
  - rewrite E. reflexivity.
Qed.

(** X13. Without a filter, [get_all_data_for_indicators] sends the requests
    of [get_data_by_indicator_ids] for the same indicators and area types
    and returns its table and URL as they are, the index untouched; only
    for a table that has both a column [index] and a column [level_0] it
    raises [ValueError] instead. *)
Theorem indicators_data_agree (w : World) (indicators area_type_id
    parent_area_type_id : pyval) (is_test : bool) :
  ids_well_typed indicators = true ->
  let by_ids :=
    get_data_by_indicator_ids w indicators area_type_id parent_area_type_id PNone PNone
      is_test in
  let all_data :=
    get_all_data_for_indicators w indicators area_type_id parent_area_type_id PNone
      is_test in
  log all_data = log by_ids /\
  forall df u,
    outcome by_ids = Ok (df, u) ->
    outcome all_data
    = if has_column df "index" && has_column df "level_0"
      then Raise ValueError else Ok (df, u).
Proof.
  intros Hids by_ids all_data. unfold by_ids, all_data.
  rewrite (data_by_ids_eq w indicators area_type_id parent_area_type_id PNone PNone
             is_test Hids eq_refl).
  rewrite (all_data_for_indicators_eq w indicators area_type_id parent_area_type_id PNone
             is_test Hids).
  cbn [truthy]. rewrite !append_empty_r.
  destruct (try_except
              (pd_read_csv w (base_url ++ indicator_data_url indicators area_type_id
                                            parent_area_type_id)) _) as [[t|e] lg].
  - rewrite !bind_ok, reset_index_raises.
    destruct (has_column t "index" && has_column t "level_0") eqn:E.
    + split; [unfold log; simpl; reflexivity|].
      unfold outcome; simpl. intros df u [= <- _]. rewrite E. reflexivity.
    + split; [unfold log; simpl; reflexivity|].
      unfold outcome; simpl. intros df u [= <- <-]. rewrite E. reflexivity.
  - split; [reflexivity|]. intros df u H. discriminate H.
Qed.

Lemma indicators_data_agree_witness :
  outcome (get_all_data_for_indicators sample_world (PInt 90362) (PInt 7) (PInt 15) PNone
             false)
  = Ok (two_rows, None).
Proof.
  exact (proj2 (indicators_data_agree sample_world (PInt 90362) (PInt 7) (PInt 15) false
                  eq_refl) two_rows None eq_refl).
Defined.

Lemma renumber_rows_in_order (n : Z) (name : string) (rs : list (Z * row)) :
  Forall2 (fun new old => snd new = (name, CInt (fst old)) :: snd old)
          (renumber n name rs) rs.
Proof.
  revert n. induction rs as [|[old r] rs IH]; intros n; cbn [renumber]; constructor.
  - reflexivity.
  - apply IH.
Qed.

(** The table that the filter returns, row by row. *)
Lemma filter_area_codes_rows (filt : pyval) (df0 df : DataFrame) :
  truthy filt = true ->
  isinstance_list filt || isinstance_str filt = true ->
  filter_area_codes filt df0 = Ok df ->
  let name := if has_column df0 "index" then "level_0" else "index" in
  columns df = name :: columns df0 /\
  Forall2 (fun new old => snd new = (name, CInt (fst old)) :: snd old)
          (rows df) (filter (row_in_codes (codes_of filt)) (rows df0)).
Proof.
  intros Ht Hty. unfold filter_area_codes. rewrite Ht.
  assert (E : match filt with
              | PList codes => loc_isin df0 "Area Code" codes
              | PStr _ => loc_eq df0 "Area Code" filt
              | _ => Ok df0
              end
              = if has_column df0 "Area Code"
                then Ok (mkDF (columns df0)
                              (filter (row_in_codes (codes_of filt)) (rows df0)))
                else Raise (KeyError (PStr "Area Code"))).
  { destruct filt; try discriminate Hty; unfold loc_isin, loc_eq;
      destruct (has_column df0 "Area Code"); try reflexivity.
    do 2 f_equal. apply filter_ext. intros ir. unfold row_in_codes; simpl.
    rewrite orb_false_r. reflexivity. }
  rewrite E. cbv zeta. intros Hr.
  set (name := if has_column df0 "index" then "level_0" else "index").
  destruct (has_column df0 "Area Code"); [|discriminate Hr]. cbn [rbind] in Hr.
  unfold reset_index, has_column in Hr. cbn [columns rows] in Hr.
  fold (has_column df0 "index") in Hr. fold name in Hr.
  destruct (existsb (String.eqb name) (columns df0)); [discriminate Hr|].
  injection Hr as <-. cbn [columns rows]. split; [reflexivity|].
  apply renumber_rows_in_order.
Qed.

(** X14. With a filter that is a non-empty list or a non-empty string,
    [get_all_data_for_indicators] returns the rows of the table fetched
    whose area code is among the codes given: all of them and no other, in
    the order of the table fetched, each with its former index label as a
    new first cell, under an index 0, 1, 2, ... *)
Theorem indicators_data_filter (w : World) (indicators area_type_id
    parent_area_type_id filt : pyval) (is_test : bool) (df : DataFrame)
    (u : option string) :
  truthy filt = true ->
  isinstance_list filt || isinstance_str filt = true ->
  outcome (get_all_data_for_indicators w indicators area_type_id parent_area_type_id
             filt is_test) = Ok (df, u) ->
  filtered_and_reindexed filt df /\
  exists fetched,
    outcome (get_all_data_for_indicators w indicators area_type_id parent_area_type_id
               PNone is_test) = Ok (fetched, u) /\
    nrows df = length (filter (row_in_codes (codes_of filt)) (rows fetched)) /\
    let name := if has_column fetched "index" then "level_0" else "index" in
    columns df = name :: columns fetched /\
    Forall2 (fun new old => snd new = (name, CInt (fst old)) :: snd old)
            (rows df) (filter (row_in_codes (codes_of filt)) (rows fetched)).
Proof.
  intros Ht Hty. unfold get_all_data_for_indicators.
  match goal with
  | |- context [lift ?r] =>
      match r with
      | context [existsb] => destruct r as [ids|e]; [|discriminate]
      end
  end.
  rewrite !bind_lift_ok. cbv zeta.
  match goal with
  | |- context [try_except ?b ?h] => destruct (try_except b h) as [[t|e] lg]
  end; [|discriminate].
  rewrite !bind_ok.
  destruct (reset_index t) as [t'|e]; [|discriminate].
  rewrite !bind_lift_ok.
  change (filter_area_codes PNone t) with (Ok t).
  destruct (filter_area_codes filt t) as [df1|e] eqn:F; [|discriminate].
  destruct (filter_area_codes_spec filt t df1 Ht Hty F) as [S N].
  pose proof (filter_area_codes_rows filt t df1 Ht Hty F) as R.
  rewrite !bind_lift_ok. unfold outcome, log, ret, tested; simpl. intros [= <- <-].
  split; [exact S|]. exists t. split; [reflexivity|]. split; [exact N | exact R].
Qed.

Lemma indicators_data_filter_witness :
  exists df,
    outcome (get_all_data_for_indicators sample_world (PInt 90362) (PInt 7) (PInt 15)
               (PStr "E92000001") false) = Ok (df, None) /\
    filtered_and_reindexed (PStr "E92000001") df /\
    Forall2 (fun new old => snd new = ("index", CInt (fst old)) :: snd old)
            (rows df) [(1%Z, [("Area Code", CStr "E92000001"); ("Value", CInt 2)])].
Proof.
  eexists. split; [vm_compute; reflexivity|].
  destruct (indicators_data_filter sample_world (PInt 90362) (PInt 7) (PInt 15)
              (PStr "E92000001") false _ None eq_refl eq_refl eq_refl)
    as [S [fetched [E [_ [_ R]]]]].
  split; [exact S|].
  vm_compute in E. injection E as <-. exact R.
Defined.

(** X15. The three fetches that have the clause for the URL error alone
    do not report an HTTP error: it is a URL error too, so the relaxed
    request is sent and the call answers with whatever table is parsed
    from its body. *)
Theorem http_error_is_not_reported (w : World) (code : Z) :
  (forall is_test,
      let url := base_url ++ "indicator_metadata/csv/all" in
      read_csv_url w url = Raise (HTTPError code) ->
      get_metadata_for_all_indicators_from_csv w is_test
      = (df <~ relaxed_table w url ;; Ok (tested is_test df url),
         [ReadCsv url; RequestsGet false url])) /\
  (forall indicators area_type_id parent_area_type_id is_test,
      let url := base_url ++ indicator_data_url indicators area_type_id
                                parent_area_type_id in
      ids_well_typed indicators = true ->
      read_csv_url w url = Raise (HTTPError code) ->
      get_data_by_indicator_ids w indicators area_type_id parent_area_type_id PNone PNone
        is_test
      = (df <~ relaxed_table w url ;; Ok (tested is_test df url),
         [ReadCsv url; RequestsGet false url]) /\
      log (get_all_data_for_indicators w indicators area_type_id parent_area_type_id
             PNone is_test)
      = [ReadCsv url; RequestsGet false url]).
Proof.
  split.
  - intros is_test url H. unfold get_metadata_for_all_indicators_from_csv. fold url.
    rewrite (fetch_relaxed w url (HTTPError code) eq_refl H).
    destruct (relaxed_table w url); reflexivity.
  - intros indicators area_type_id parent_area_type_id is_test url Hids H.
    assert (E : get_data_by_indicator_ids w indicators area_type_id parent_area_type_id
                  PNone PNone is_test
                = (df <~ relaxed_table w url ;; Ok (tested is_test df url),
                   [ReadCsv url; RequestsGet false url])).
    { rewrite (data_by_ids_eq w indicators area_type_id parent_area_type_id PNone PNone
                 is_test Hids eq_refl).
      cbn [truthy]. rewrite !append_empty_r. fold url.
      rewrite (fetch_relaxed w url (HTTPError code) eq_refl H).
      destruct (relaxed_table w url); reflexivity. }
    split; [exact E|].
    rewrite (all_data_for_indicators_eq w indicators area_type_id parent_area_type_id
               PNone is_test Hids).
    fold url. rewrite (fetch_relaxed w url (HTTPError code) eq_refl H).
    destruct (relaxed_table w url) as [t|e]; [|reflexivity].
    rewrite bind_ok. destruct (reset_index t); reflexivity.
Qed.

Lemma http_error_is_not_reported_witness :
  get_data_by_indicator_ids sample_world (PInt 404) (PInt 7) (PInt 15) PNone PNone false
  = (Ok (retried_row, None),
     [ReadCsv (base_url ++ indicator_data_url (PInt 404) (PInt 7) (PInt 15));
      RequestsGet false (base_url ++ indicator_data_url (PInt 404) (PInt 7) (PInt 15))]).
Proof.
  destruct (proj2 (http_error_is_not_reported sample_world 404)
                  (PInt 404) (PInt 7) (PInt 15) false eq_refl) as [E _].
  - vm_compute. reflexivity.
  - exact E.
Defined.

(** ** Metadata of one indicator *)

(** X16. The metadata of an indicator is read from the response under the
    text of the identifier; when the response has no entry for it the
    result is [None], not an error, and the multiplier operation then
    fails with [AttributeError]. *)
Theorem indicator_absent_from_response (w : World) (n : pyval) (d : pydict)
    (l : list request) :
  get_json w (base_url ++ "indicator_metadata/by_indicator_id?indicator_ids=" ++ py_str n)
  = (Ok (PDict d), l) ->
  dict_lookup d (PStr (py_str n)) = None ->
  get_metadata_for_indicator w n false = (Ok (PNone, None), l) /\
  get_metadata_for_indicator w n true
  = (Ok (PDict d,
         Some (base_url ++ "indicator_metadata/by_indicator_id?indicator_ids=" ++ py_str n)),
     l) /\
  get_multiplier_and_calculation_for_indicator w n = (Raise AttributeError, l).
Proof.
  intros Hj Hd.
  assert (E : forall is_test,
             get_metadata_for_indicator w n is_test
             = (Ok (if is_test
                    then (PDict d,
                          Some (base_url ++ "indicator_metadata/by_indicator_id?indicator_ids="
                                         ++ py_str n))
                    else (PNone, None)), l)).
  { intros is_test. unfold get_metadata_for_indicator. rewrite Hj, bind_ok.
    cbn [py_get hashable]. rewrite Hd, bind_lift_ok.
    destruct is_test; unfold outcome, log, ret; simpl; rewrite app_nil_r; reflexivity. }
  split; [apply (E false)|]. split; [apply (E true)|].
  unfold get_multiplier_and_calculation_for_indicator. rewrite (E false), bind_ok.
  unfold outcome, log; simpl. rewrite app_nil_r. reflexivity.
Qed.

Lemma indicator_absent_from_response_witness :
  get_multiplier_and_calculation_for_indicator sample_world (PInt 7)
  = (Raise AttributeError,
     [RequestsGet true
        (base_url ++ "indicator_metadata/by_indicator_id?indicator_ids=7")]).
Proof.
  apply (proj2 (proj2 (indicator_absent_from_response sample_world (PInt 7) _ _
                         eq_refl eq_refl))).
Defined.

(** ** Pick mode: the missing field *)

Lemma pick_loop_lookup (key value : string) (items : list pyval) (d0 d : pydict) :
  (forall js, In js items -> exists o, js = PDict o) ->
  fold_r items (pick (PStr key) (PStr value)) d0 = Ok d ->
  forall k,
    dict_lookup d k
    = match last_keyed key k items with
      | Some js => Some (field_or_none value js)
      | None => dict_lookup d0 k
      end.
Proof.
  revert d0. induction items as [|item items IH]; intros d0 Hitems H k.
  - injection H as <-. reflexivity.
  - destruct (Hitems item (or_introl eq_refl)) as [o ->].
    cbn [fold_r] in H. unfold pick at 1, picked in H.
    cbn [is_None py_get hashable rbind] in H. unfold py_setitem in H.
    destruct (hashable match dict_lookup o (PStr key) with
                       | Some x => x
                       | None => PNone
                       end); [|discriminate H].
    cbn [rbind] in H.
    rewrite (IH _ (fun js Hin => Hitems js (or_intror Hin)) H k).
    cbn [last_keyed]. destruct (last_keyed key k items); [reflexivity|].
    rewrite dict_lookup_set. unfold field_or_none, field.
    destruct (key_eqb match dict_lookup o (PStr key) with
                      | Some x => x
                      | None => PNone
                      end k); reflexivity.
Qed.

Lemma last_keyed_last (a : string) (pre post : list pyval) (js : pyval) :
  hashable (field_or_none a js) = true ->
  (forall js', In js' post ->
               key_eqb (field_or_none a js') (field_or_none a js) = false) ->
  last_keyed a (field_or_none a js) (pre ++ js :: post) = Some js.
Proof.
  intros Hh Hpost.
  assert (P : last_keyed a (field_or_none a js) post = None).
  { induction post as [|p post IH]; [reflexivity|]. cbn [last_keyed].
    rewrite IH by (intros js' Hin; apply Hpost; right; exact Hin).
    rewrite (Hpost p (or_introl eq_refl)). reflexivity. }
  induction pre as [|p pre IH].
  - cbn [app last_keyed]. rewrite P, key_eqb_refl by exact Hh. reflexivity.
  - cbn [app last_keyed]. rewrite IH. reflexivity.
Qed.

(** X17. Pick mode never fails on a missing field: on a response of
    objects whose key values can be dictionary keys it returns a mapping;
    a key of the mapping holds the value field of the last object of the
    response that has this key value, the key value of an object without
    the key field being [None] and the value field of an object without
    the value field being [None].  So an object without the key field is
    stored under the key [None], and the entry of an object without the
    value field, when no later object has its key value, holds [None]. *)
Theorem get_data_in_dict_missing_fields (w : World) (url : string) (key value : string)
    (items : list pyval) (l : list request) :
  get_json w url = (Ok (PList items), l) ->
  (forall js, In js items ->
              exists o, js = PDict o /\
                        forall k, dict_lookup o (PStr key) = Some k -> hashable k = true) ->
  exists d,
    get_data_in_dict w url (PStr key) (PStr value) = (Ok (PDict d), l) /\
    (forall k,
        dict_lookup d k
        = match last_keyed key k items with
          | Some js => Some (field_or_none value js)
          | None => None
          end) /\
    (forall js, In js items -> lacks (PStr key) js -> dict_has d PNone = true) /\
    (forall pre js post,
        items = (pre ++ js :: post)%list ->
        lacks (PStr value) js ->
        (forall js', In js' post ->
                     key_eqb (field_or_none key js') (field_or_none key js) = false) ->
        dict_lookup d (field_or_none key js) = Some PNone).
Proof.
  intros Hj Hitems.
  assert (Hk : forall js, In js items ->
                          exists k, py_get js (PStr key) = Ok k /\ hashable k = true).
  { intros js Hin. destruct (Hitems js Hin) as [o [-> Hh]]. cbn [py_get hashable].
    destruct (dict_lookup o (PStr key)) as [k|] eqn:E.
    - exists k. split; [reflexivity | apply (Hh k eq_refl)].
    - exists PNone. split; reflexivity. }
  assert (Hx : forall js, In js items -> exists x, picked (PStr value) js = Ok x).
  { intros js Hin. destruct (Hitems js Hin) as [o [-> _]]. unfold picked.
    cbn [is_None py_get hashable]. eexists. reflexivity. }
  assert (Ho : forall js, In js items -> exists o, js = PDict o).
  { intros js Hin. destruct (Hitems js Hin) as [o [-> _]]. exists o. reflexivity. }
  destruct (pick_loop_total (PStr key) (PStr value) items [] Hk Hx) as [d Hd].
  pose proof (pick_loop_lookup key value items [] d Ho Hd) as L. cbn [dict_lookup] in L.
  exists d. split; [|split; [exact L|split]].
  - rewrite (get_data_in_dict_eq w url (PStr key) (PStr value) items l Hj).
    cbn [is_None rbind]. rewrite Hd. reflexivity.
  - intros js Hin [o [-> Hlack]].
    destruct (pick_loop (PStr key) (PStr value) items d Hd) as [_ [_ H]].
    apply (H (PDict o) PNone Hin). cbn [py_get hashable]. rewrite Hlack. reflexivity.
  - intros pre js post -> [o [-> Hlack]] Hpost.
    assert (Hh : hashable (field_or_none key (PDict o)) = true).
    { destruct (Hitems (PDict o)) as [o' [E Hh]]; [apply in_elt|].
      injection E as <-. unfold field_or_none, field.
      destruct (dict_lookup o (PStr key)) as [k|] eqn:E; [apply (Hh k eq_refl) | reflexivity]. }
    rewrite L, (last_keyed_last key pre post (PDict o) Hh Hpost).
    unfold field_or_none at 1, field. rewrite Hlack. reflexivity.
Qed.

Lemma get_data_in_dict_missing_fields_witness :
  exists d,
    get_data_in_dict sample_world (base_url ++ "sexes") (PStr "Id") (PStr "Code")
    = (Ok (PDict d), [RequestsGet true (base_url ++ "sexes")]) /\
    dict_lookup d (PInt 1) = Some PNone /\
    dict_lookup d (PInt 2) = Some PNone /\
    dict_lookup d (PInt 3) = None.
Proof.
  destruct (get_data_in_dict_missing_fields sample_world (base_url ++ "sexes") "Id" "Code"
              [PDict [(PStr "Id", PInt 1); (PStr "Name", PStr "Male")];
               PDict [(PStr "Id", PInt 2); (PStr "Name", PStr "Female")]]
              [RequestsGet true (base_url ++ "sexes")] eq_refl) as [d [E [L [_ H]]]].
  - intros js [<-|[<-|[]]]; eexists; (split; [reflexivity|]);
      intros k Hk; injection Hk as <-; reflexivity.
  - exists d. split; [exact E|]. split; [|split].
    + apply (H [] (PDict [(PStr "Id", PInt 1); (PStr "Name", PStr "Male")])
               [PDict [(PStr "Id", PInt 2); (PStr "Name", PStr "Female")]] eq_refl).
      * eexists. split; reflexivity.
      * intros js' [<-|[]]. reflexivity.
    + rewrite L. reflexivity.
    + rewrite L. reflexivity.
Defined.

(** ** The empty response *)

Lemma get_data_in_dict_empty (w : World) (url : string) (value : pyval)
    (l : list request) :
  get_json w url = (Ok (PList []), l) ->
  get_data_in_dict w url PNone value = (Raise IndexError, l).
Proof. intros H. rewrite (get_data_in_dict_eq w url PNone value [] l H). reflexivity. Qed.

Lemma bind_raised {A B} (e : exn) (l : list request) (m : M A) (k : A -> M B) :
  m = (Raise e, l) -> bind m k = (Raise e, l).
Proof. intros ->. reflexivity. Qed.

(** X18. On an empty response, every operation that keys the response on
    its first field fails with [IndexError], and so do the operations built
    on them: the searches of a profile by name and by key, the area-type
    identifiers of a profile, and the data of a profile when no area type
    is given.  The operations in pop mode return an empty mapping
    instead. *)
Theorem empty_response (w : World) (l : list request) :
  (get_json w (base_url ++ "ages") = (Ok (PList []), l) ->
   forall t, get_all_ages w t = (Raise IndexError, l)) /\
  (get_json w (base_url ++ "sexes") = (Ok (PList []), l) ->
   forall t, get_all_sexes w t = (Raise IndexError, l)) /\
  (get_json w (base_url ++ "value_notes") = (Ok (PList []), l) ->
   forall t, get_all_value_notes w t = (Raise IndexError, l)) /\
  (get_json w (base_url ++ "area_types") = (Ok (PList []), l) ->
   forall t, get_area_types_as_dict w t = (Raise IndexError, l) /\
             get_all_areas w t = (Ok (tested t (PDict []) (base_url ++ "area_types")), l)) /\
  (get_json w (base_url ++ "profiles") = (Ok (PList []), l) ->
   forall x, get_profile_by_name w x = (Raise IndexError, l) /\
             get_profile_by_key w x = (Raise IndexError, l)) /\
  (forall profile_id,
      get_json w (base_url ++ "area_types?profile_ids=" ++ py_str profile_id)
      = (Ok (PList []), l) ->
      get_area_type_ids_for_profile w profile_id = (Raise IndexError, l) /\
      forall parent filt t,
        get_all_data_for_profile w profile_id parent PNone filt t = (Raise IndexError, l)).
Proof.
  repeat split; intros.
  - unfold get_all_ages. apply bind_raised, get_data_in_dict_empty. assumption.
  - unfold get_all_sexes. apply bind_raised, get_data_in_dict_empty. assumption.
  - unfold get_all_value_notes. apply bind_raised, get_data_in_dict_empty. assumption.
  - unfold get_area_types_as_dict. apply bind_raised, get_data_in_dict_empty. assumption.
  - unfold get_all_areas. rewrite make_request_eq, H, bind_ok. cbn [py_iter rbind fold_r].
    unfold bind, lift, ret, outcome, log; simpl. rewrite ?app_nil_r. reflexivity.
  - unfold get_profile_by_name, get_all_profiles.
    apply bind_raised, bind_raised, get_data_in_dict_empty. assumption.
  - unfold get_profile_by_key, get_all_profiles.
    apply bind_raised, bind_raised, get_data_in_dict_empty. assumption.
  - unfold get_area_type_ids_for_profile, get_area_types_for_profile.
    apply bind_raised, bind_raised, get_data_in_dict_empty. assumption.
  - unfold get_all_data_for_profile. cbn [is_None negb].
    apply bind_raised. unfold get_area_type_ids_for_profile, get_area_types_for_profile.
    apply bind_raised, bind_raised, get_data_in_dict_empty. assumption.
Qed.

Lemma empty_response_witness :
  get_all_ages sample_world false
  = (Raise IndexError, [RequestsGet true (base_url ++ "ages")]).
Proof.
  apply (proj1 (empty_response sample_world [RequestsGet true (base_url ++ "ages")])).
  reflexivity.
Defined.

(** ** [get_metadata]: every combination of arguments *)

(** X19. With at least one truthy argument, [get_metadata] returns a
    table: the tables of the truthy arguments put together in the order
    profile, domain, indicator, whatever their number, and the requests are
    those of the three fetches in that same order. *)
Theorem get_metadata_any_combination (w : World) (i d p : pyval)
    (ti td tp : DataFrame) :
  (truthy p = true -> outcome (get_metadata_for_profile_as_dataframe w p) = Ok tp) ->
  (truthy d = true -> outcome (for_domain w d) = Ok td) ->
  (truthy i = true -> outcome (for_indicator w i) = Ok ti) ->
  truthy i || truthy d || truthy p = true ->
  outcome (get_metadata w i d p) = Ok (concat_all (requested_tables i d p ti td tp)) /\
  concat_all (requested_tables i d p ti td tp) <> None /\
  log (get_metadata w i d p)
  = ((if truthy p then log (get_metadata_for_profile_as_dataframe w p) else [])
       ++ (if truthy d then log (for_domain w d) else [])
       ++ (if truthy i then log (for_indicator w i) else []))%list.
Proof.
  unfold get_metadata, requested_tables. cbv zeta.
  destruct (truthy i), (truthy d), (truthy p); cbn [andb orb negb app concat_all fold_left];
    intros Hp Hd Hi Hany; try discriminate Hany;
    try (specialize (Hp eq_refl)); try (specialize (Hd eq_refl));
    try (specialize (Hi eq_refl));
    repeat match goal with
           | H : outcome ?m = Ok _ |- _ =>
               let l := fresh "l" in
               destruct m as [? l]; unfold outcome in H; cbn [fst] in H; subst
           end;
    unfold bind, ret, outcome, log; cbn [fst snd app];
    rewrite ?app_nil_r, <- ?app_assoc;
    (split; [reflexivity | split; [discriminate | reflexivity]]).
Qed.

Lemma get_metadata_any_combination_witness :
  outcome (get_metadata sample_world (PInt 0) (PInt 1) (PInt 3))
  = Ok (Some (pd_concat two_rows two_rows)).
Proof.
  apply (proj1 (get_metadata_any_combination sample_world (PInt 0) (PInt 1) (PInt 3)
                  empty_frame two_rows two_rows
                  (fun _ => eq_refl) (fun _ => eq_refl)
                  (fun H => False_ind _ (Bool.diff_false_true H)) eq_refl)).
Defined.

(** ** Batches: the URL error *)

Section BatchRestart.
Variable w : World.
Variables url_suffix entity : string.
Let url (id : pyval) : string := base_url ++ url_suffix ++ py_str id.

Lemma batch_answered_total (ids : list pyval) (df0 : DataFrame) :
  Forall (fun id => exists t, answered w (url id) t) ids ->
  exists df l, for_each ids (batch_step w url_suffix entity) df0 = (Ok df, l).
Proof.
  intros H. revert df0. induction H as [|id ids [t Ht] _ IH]; intros df0.
  - exists df0, []. reflexivity.
  - cbn [for_each]. destruct Ht as [Ht|[Hu [body [Hb Ht]]]].
    + rewrite (batch_step_ok w url_suffix entity df0 t id Ht), bind_ok.
      destruct (IH (pd_concat df0 t)) as [df [l E]]. rewrite E.
      eexists. eexists. reflexivity.
    + rewrite (batch_step_url_error w url_suffix entity df0 t id body Hu Hb Ht), bind_ok.
      destruct (IH t) as [df [l E]]. rewrite E.
      eexists. eexists. reflexivity.
Qed.

Lemma batch_restarts (pre post : list pyval) (id : pyval) (body : string)
    (t : DataFrame) (tables : list DataFrame) (df0 : DataFrame) :
  Forall (fun id => exists t, answered w (url id) t) pre ->
  read_csv_url w (url id) = Raise URLError ->
  requests_get w false (url id) = Ok body ->
  read_csv_text w body = Ok t ->
  Forall2 (fun id t => read_csv_url w (url id) = Ok t) post tables ->
  outcome (for_each (pre ++ id :: post) (batch_step w url_suffix entity) df0)
  = Ok (fold_left pd_concat tables t).
Proof.
  intros Hpre Hu Hb Ht Hpost.
  destruct (batch_answered_total pre df0 Hpre) as [df [l E]].
  rewrite for_each_app, E, bind_ok. cbn [for_each outcome fst].
  rewrite (batch_step_url_error w url_suffix entity df t id body Hu Hb Ht), bind_ok.
  rewrite (batch_all_answered w url_suffix entity post tables t Hpost). reflexivity.
Qed.
End BatchRestart.

(** X20. In a batch of domains or of profiles, the table returned starts
    again at the last identifier whose strict request failed with a URL
    error: it is the table of the relaxed request for that identifier
    followed by the tables of the identifiers after it, and it holds no
    more rows than those, whatever the identifiers before it returned. *)
Theorem batch_restarts_at_url_error (w : World) (pre post : list pyval) (id : pyval)
    (t : DataFrame) (tables : list DataFrame) :
  (url_error_at w "indicator_metadata/csv/by_group_id?group_id=" pre id post t tables ->
   outcome (get_metadata_for_domain_as_dataframe w (PList (pre ++ id :: post)) false)
   = Ok (fold_left pd_concat tables t, None)) /\
  (url_error_at w "indicator_metadata/csv/by_profile_id?profile_id=" pre id post t tables ->
   outcome (get_metadata_for_profile_as_dataframe w (PList (pre ++ id :: post)))
   = Ok (fold_left pd_concat tables t)) /\
  nrows (fold_left pd_concat tables t) = (nrows t + list_sum (map nrows tables))%nat.
Proof.
  assert (R : forall suffix entity,
             url_error_at w suffix pre id post t tables ->
             outcome (for_each (pre ++ id :: post) (batch_step w suffix entity) empty_frame)
             = Ok (fold_left pd_concat tables t)).
  { intros suffix entity [Hpre [Hu [Hr Hpost]]]. unfold relaxed_table in Hr.
    destruct (requests_get w false (base_url ++ suffix ++ py_str id)) as [body|e] eqn:Hb;
      [|discriminate Hr].
    apply (batch_restarts w suffix entity pre post id body t tables empty_frame
             Hpre Hu Hb Hr Hpost). }
  split; [|split; [|apply nrows_fold_concat]]; intros H.
  - unfold get_metadata_for_domain_as_dataframe. rewrite outcome_bind.
    rewrite (R _ "Domain" H). reflexivity.
  - unfold get_metadata_for_profile_as_dataframe. apply (R _ "Profile" H).
Qed.

Lemma batch_restarts_at_url_error_witness :
  outcome (get_metadata_for_profile_as_dataframe sample_world
             (PList [PInt 1; PInt 2; PInt 3]))
  = Ok (pd_concat retried_row two_rows).
Proof.
  apply (proj1 (proj2 (batch_restarts_at_url_error sample_world [PInt 1] [PInt 3] (PInt 2)
                         retried_row [two_rows]))).
  split; [|split; [|split]].
  - apply Forall_cons; [|apply Forall_nil]. exists two_rows. left. reflexivity.
  - reflexivity.
  - reflexivity.
  - apply Forall2_cons; [reflexivity | apply Forall2_nil].
Defined.

(** ** The areas of all indicators *)

Lemma map_r_indicator_ids (items : list pyval) (ns : list Z) :
  Forall2 (fun item n => indicator_of item = Some n) items ns ->
  map_r (fun x => py_get x (PStr "IndicatorId")) items = Ok (map PInt ns).
Proof.
  induction 1 as [|item n items ns H _ IH]; [reflexivity|].
  cbn [map_r map]. unfold indicator_of, field in H.
  destruct item as [| | | | |o]; try discriminate H.
  cbn [py_get hashable rbind].
  destruct (dict_lookup o (PStr "IndicatorId")) as [[| |m| | |]|]; try discriminate H.
  injection H as ->. rewrite IH. reflexivity.
Qed.

Lemma existsb_key_eqb_ints (seen : list Z) (n : Z) :
  existsb (fun s => key_eqb s (PInt n)) (map PInt seen) = true <-> In n seen.
Proof.
  induction seen as [|s seen IH]; cbn [existsb map In key_eqb].
  - split; [discriminate | contradiction].
  - rewrite orb_true_iff, IH, Z.eqb_eq. tauto.
Qed.

Lemma distinct_keys_ints (ns seen : list Z) :
  exists xs,
    distinct_keys (map PInt seen) (map PInt ns) = map PInt xs /\
    NoDup xs /\
    forall n, In n xs <-> In n ns /\ ~ In n seen.
Proof.
  revert seen. induction ns as [|n ns IH]; intros seen.
  - exists []. repeat split; try constructor; simpl; tauto.
  - cbn [map distinct_keys].
    destruct (existsb (fun s => key_eqb s (PInt n)) (map PInt seen)) eqn:E.
    + apply existsb_key_eqb_ints in E. destruct (IH seen) as [xs [Hx [Hn Hi]]].
      exists xs. split; [exact Hx|]. split; [exact Hn|].
      intros m. rewrite Hi. cbn [In]. split; [tauto|].
      intros [[<-|H] Hs]; [contradiction | tauto].
    + assert (Hs : ~ In n seen).
      { intros H. apply existsb_key_eqb_ints in H. rewrite H in E. discriminate E. }
      destruct (IH (n :: seen)) as [xs [Hx [Hn Hi]]].
      exists (n :: xs). change (PInt n :: map PInt seen) with (map PInt (n :: seen)).
      rewrite Hx. split; [reflexivity|]. split.
      * constructor; [|exact Hn]. intros H. apply Hi in H. cbn [In] in H. tauto.
      * intros m. cbn [In]. rewrite Hi. cbn [In].
        destruct (Z.eq_dec n m) as [<-|N]; tauto.
Qed.

Lemma insert_sorted_ints (x : Z) (xs : list Z) :
  StronglySorted Z.le xs ->
  exists ys,
    insert_sorted num_leb (PInt x) (map PInt xs) = map PInt ys /\
    StronglySorted Z.le ys /\
    forall n, In n ys <-> n = x \/ In n xs.
Proof.
  induction 1 as [|y xs Hs IH Hy].
  - exists [x]. split; [reflexivity|]. split; [repeat constructor|].
    intros n. cbn [In]. split; [intros [<-|[]]; left; reflexivity | intros [->|[]]; left; reflexivity].
  - cbn [map insert_sorted num_leb key_num].
    destruct (x <=? y)%Z eqn:E.
    + exists (x :: y :: xs). split; [reflexivity|]. split.
      * apply Z.leb_le in E. constructor; [constructor; assumption|].
        constructor; [exact E|]. rewrite Forall_forall in *. intros z Hz.
        specialize (Hy z Hz). lia.
      * intros n. cbn [In]. intuition.
    + apply Z.leb_gt in E. destruct IH as [ys [Hy1 [Hy2 Hy3]]].
      exists (y :: ys). rewrite Hy1. split; [reflexivity|]. split.
      * constructor; [exact Hy2|]. rewrite Forall_forall in *. intros z Hz.
        apply Hy3 in Hz. destruct Hz as [->|Hz]; [lia | apply Hy, Hz].
      * intros n. cbn [In]. rewrite Hy3. tauto.
Qed.

Lemma sort_by_ints (xs : list Z) :
  exists ys,
    sort_by num_leb (map PInt xs) = map PInt ys /\
    StronglySorted Z.le ys /\
    forall n, In n ys <-> In n xs.
Proof.
  induction xs as [|x xs [ys [E [Hs Hi]]]].
  - exists []. repeat split; try constructor; tauto.
  - cbn [map sort_by]. rewrite E.
    destruct (insert_sorted_ints x ys Hs) as [zs [Ez [Hz Hiz]]].
    exists zs. split; [exact Ez|]. split; [exact Hz|].
    intros n. rewrite Hiz, Hi. cbn [In]. intuition.
Qed.

Lemma insert_sorted_length (leb : pyval -> pyval -> bool) (x : pyval) (l : list pyval) :
  length (insert_sorted leb x l) = S (length l).
Proof.
  induction l as [|y l IH]; [reflexivity|]. cbn [insert_sorted].
  destruct (leb x y); cbn [length]; [reflexivity | rewrite IH; reflexivity].
Qed.

Lemma sort_by_length (leb : pyval -> pyval -> bool) (l : list pyval) :
  length (sort_by leb l) = length l.
Proof.
  induction l as [|x l IH]; [reflexivity|]. cbn [sort_by length].
  rewrite insert_sorted_length, IH. reflexivity.
Qed.

(** A list without repetition that is sorted, and as long as another
    list without repetition of the same members, is strictly sorted. *)
Lemma sorted_strict (ys : list Z) :
  StronglySorted Z.le ys -> NoDup ys -> StronglySorted Z.lt ys.
Proof.
  induction 1 as [|y ys Hs IH Hy]; intros Hn; [constructor|].
  inversion Hn as [|? ? Hnot Hn']; subst. constructor; [apply IH, Hn'|].
  rewrite Forall_forall in *. intros z Hz. specialize (Hy z Hz).
  assert (y <> z) by (intros ->; contradiction). lia.
Qed.

Lemma nodup_same_members (xs ys : list Z) :
  NoDup xs -> length ys = length xs -> (forall n, In n ys <-> In n xs) -> NoDup ys.
Proof.
  intros Hn Hl Hi. apply NoDup_incl_NoDup with (l := xs).
  - exact Hn.
  - rewrite Hl. apply le_n.
  - intros n H. apply Hi, H.
Qed.

Lemma sorted_set_ints (ns : list Z) :
  exists ys,
    sorted_set (map PInt ns) = Ok (map PInt ys) /\
    StronglySorted Z.lt ys /\
    forall n, In n ys <-> In n ns.
Proof.
  unfold sorted_set.
  assert (H : forallb hashable (map PInt ns) = true).
  { apply forallb_forall. intros x Hx. apply in_map_iff in Hx.
    destruct Hx as [n [<- _]]. reflexivity. }
  rewrite H. cbv zeta.
  destruct (distinct_keys_ints ns []) as [xs [E [Hn Hi]]]. cbn [map] in E. rewrite E.
  assert (Hi' : forall n, In n xs <-> In n ns).
  { intros n. rewrite Hi. cbn [In]. tauto. }
  destruct (length (map PInt xs) <=? 1)%nat eqn:L.
  - exists xs. split; [reflexivity|]. split; [|exact Hi'].
    apply Nat.leb_le in L. rewrite length_map in L.
    destruct xs as [|x [|y xs]]; cbn [length] in L; try lia; repeat constructor.
  - assert (N : forallb is_number (map PInt xs) = true).
    { apply forallb_forall. intros x Hx. apply in_map_iff in Hx.
      destruct Hx as [n [<- _]]. reflexivity. }
    rewrite N. destruct (sort_by_ints xs) as [ys [Es [Hs Hys]]].
    exists ys. rewrite Es. split; [reflexivity|]. split.
    + apply sorted_strict; [exact Hs|].
      apply (nodup_same_members xs ys Hn); [|exact Hys].
      rewrite <- (length_map PInt ys), <- Es, sort_by_length, length_map. reflexivity.
    + intros n. rewrite Hys. apply Hi'.
Qed.

Lemma area_list_of_ints (n : Z) (items : list pyval) (ns : list Z) :
  Forall2 (fun item n => indicator_of item = Some n) items ns ->
  area_list_of (PInt n) items = Ok (area_types_of n items).
Proof.
  unfold area_types_of.
  induction 1 as [|item m items ns H _ IH]; [reflexivity|].
  cbn [area_list_of filter]. rewrite H.
  unfold indicator_of, field in H.
  destruct item as [| | | | |o]; try discriminate H.
  cbn [py_get hashable rbind].
  destruct (dict_lookup o (PStr "IndicatorId")) as [[| |k| | |]|] eqn:D; try discriminate H.
  injection H as ->. cbn [py_eqb key_eqb].
  destruct (m =? n)%Z; [|exact IH].
  rewrite IH. cbn [rbind map]. unfold field_or_none, field. reflexivity.
Qed.

Lemma dict_lookup_ints_absent {X} (f : Z -> X) (g : X -> pyval) (pre : list Z) (n : Z) :
  ~ In n pre -> dict_lookup (map (fun m => (PInt m, g (f m))) pre) (PInt n) = None.
Proof.
  induction pre as [|m pre IH]; intros H; [reflexivity|].
  cbn [map dict_lookup key_eqb]. cbn [In] in H.
  destruct (m =? n)%Z eqn:E; [apply Z.eqb_eq in E; tauto|].
  apply IH. tauto.
Qed.

Lemma area_dict_loop (items : list pyval) (ns0 : list Z) (ns pre : list Z) :
  Forall2 (fun item n => indicator_of item = Some n) items ns0 ->
  NoDup (pre ++ ns) ->
  fold_r (map PInt ns)
    (fun area_dict ind =>
       area_list <~ area_list_of ind items ;;
       py_setitem area_dict ind (PList area_list))
    (map (fun n => (PInt n, PList (area_types_of n items))) pre)
  = Ok (map (fun n => (PInt n, PList (area_types_of n items))) (pre ++ ns)).
Proof.
  intros Hitems. revert pre. induction ns as [|n ns IH]; intros pre Hn.
  - rewrite app_nil_r. reflexivity.
  - cbn [map fold_r]. rewrite (area_list_of_ints n items ns0 Hitems).
    cbn [rbind]. unfold py_setitem. cbn [hashable].
    rewrite dict_set_absent.
    + replace (pre ++ n :: ns)%list with ((pre ++ [n]) ++ ns)%list in *
        by (rewrite <- app_assoc; reflexivity).
      rewrite <- (IH (pre ++ [n])%list Hn). rewrite map_app. reflexivity.
    + unfold dict_has.
      rewrite (dict_lookup_ints_absent (fun m => area_types_of m items) PList);
        [reflexivity|].
      apply NoDup_remove_2 in Hn. intros H. apply Hn, in_or_app. left. exact H.
Qed.

Lemma area_dict_of_response (w : World) (items : list pyval) (ns0 : list Z)
    (l : list request) :
  get_json w (base_url ++ "available_data") = (Ok (PList items), l) ->
  Forall2 (fun item n => indicator_of item = Some n) items ns0 ->
  exists ns,
    get_all_areas_for_all_indicators w
    = (Ok (PDict (map (fun n => (PInt n, PList (area_types_of n items))) ns)), l) /\
    StronglySorted Z.lt ns /\
    forall n, In n ns <-> In n ns0.
Proof.
  intros Hj Hitems.
  destruct (sorted_set_ints ns0) as [ns [Es [Hs Hi]]].
  exists ns. split; [|split; assumption].
  unfold get_all_areas_for_all_indicators. rewrite Hj, bind_ok.
  cbn [py_iter rbind]. rewrite (map_r_indicator_ids items ns0 Hitems). cbn [rbind].
  rewrite Es. cbn [rbind].
  assert (Hn : NoDup ([] ++ ns)%list).
  { cbn [app]. clear - Hs. induction Hs as [|y ys Hs IH Hy]; constructor; [|exact IH].
    intros H. rewrite Forall_forall in Hy. specialize (Hy y H). lia. }
  pose proof (area_dict_loop items ns0 ns [] Hitems Hn) as L. cbn [map app] in L.
  rewrite L, bind_lift_ok. unfold outcome, log, ret; cbn [fst snd app].
  rewrite app_nil_r. reflexivity.
Qed.

(** X21. The areas of all indicators: on a response whose objects all have
    an integer [IndicatorId], the result has exactly one entry for every
    identifier of the response, the entries are in strictly ascending
    order of the identifier, and the entry of an identifier is the list of
    the [AreaTypeId] of its objects, in the order of the response, repeated
    ones included and [None] for an object without that field. *)
Theorem areas_for_all_indicators (w : World) (items : list pyval) (ns0 : list Z)
    (l : list request) :
  get_json w (base_url ++ "available_data") = (Ok (PList items), l) ->
  Forall2 (fun item n => indicator_of item = Some n) items ns0 ->
  exists ns,
    get_all_areas_for_all_indicators w
    = (Ok (PDict (map (fun n => (PInt n, PList (area_types_of n items))) ns)), l) /\
    StronglySorted Z.lt ns /\
    forall n, In n ns <-> In n ns0.
Proof. apply area_dict_of_response. Qed.

Lemma areas_for_all_indicators_witness :
  exists ns,
    get_all_areas_for_all_indicators geography_world
    = (Ok (PDict (map (fun n => (PInt n, PList (area_types_of n
                                                  [PDict [(PStr "IndicatorId", PInt 5);
                                                          (PStr "AreaTypeId", PInt 7)];
                                                   PDict [(PStr "IndicatorId", PInt 3);
                                                          (PStr "AreaTypeId", PInt 102)];
                                                   PDict [(PStr "IndicatorId", PInt 5);
                                                          (PStr "AreaTypeId", PInt 102)];
                                                   PDict [(PStr "IndicatorId", PInt 5)]])))
                      ns)),
       [RequestsGet true (base_url ++ "available_data")]) /\
    StronglySorted Z.lt ns /\
    forall n, In n ns <-> In n [5; 3; 5; 5]%Z.
Proof.
  apply (areas_for_all_indicators geography_world _ [5; 3; 5; 5]%Z _ eq_refl).
  repeat (apply Forall2_cons; [reflexivity|]). apply Forall2_nil.
Defined.

(** ** The data of an indicator at all its geographies *)

Lemma cell_same_refl (a : cell) : cell_same a a = true.
Proof. destruct a; simpl; [apply String.eqb_refl | apply Z.eqb_refl | reflexivity]. Qed.

Lemma cell_same_sym (a b : cell) : cell_same a b = cell_same b a.
Proof.
  destruct a, b; simpl; try reflexivity; [apply String.eqb_sym | apply Z.eqb_sym].
Qed.

Lemma cells_same_refl (a : list cell) : cells_same a a = true.
Proof. induction a as [|x a IH]; simpl; [reflexivity|]. rewrite cell_same_refl. exact IH. Qed.

Lemma cells_same_sym (a b : list cell) : cells_same a b = cells_same b a.
Proof.
  revert b. induction a as [|x a IH]; intros [|y b]; simpl; try reflexivity.
  rewrite cell_same_sym, IH. reflexivity.
Qed.

Lemma first_rows_in (cols : list string) (rs : list (Z * row)) (seen : list (list cell))
    (r : Z * row) :
  In r (first_rows cols seen rs) ->
  In r rs /\ existsb (cells_same (row_cells cols (snd r))) seen = false.
Proof.
  revert seen. induction rs as [|[i x] rs IH]; intros seen H; [contradiction|].
  cbn [first_rows] in H.
  destruct (existsb (cells_same (row_cells cols x)) seen) eqn:E.
  - destruct (IH seen H) as [H1 H2]. split; [right; exact H1 | exact H2].
  - destruct H as [<-|H]; [split; [left; reflexivity | exact E]|].
    destruct (IH _ H) as [H1 H2]. split; [right; exact H1|].
    cbn [existsb] in H2. apply orb_false_iff in H2. apply H2.
Qed.

Lemma first_rows_distinct (cols : list string) (rs : list (Z * row))
    (seen : list (list cell)) :
  rows_distinct cols (first_rows cols seen rs) = true.
Proof.
  revert seen. induction rs as [|[i x] rs IH]; intros seen; [reflexivity|].
  cbn [first_rows].
  destruct (existsb (cells_same (row_cells cols x)) seen) eqn:E; [apply IH|].
  cbn [rows_distinct]. rewrite IH, andb_true_r. apply negb_true_iff.
  destruct (existsb (same_row cols (i, x))
              (first_rows cols (row_cells cols x :: seen) rs)) eqn:D; [|reflexivity].
  apply existsb_exists in D. destruct D as [r [Hr Hs]].
  apply first_rows_in in Hr. destruct Hr as [_ Hr].
  cbn [existsb] in Hr. apply orb_false_iff in Hr. destruct Hr as [Hr _].
  unfold same_row in Hs. cbn [snd] in Hs. rewrite cells_same_sym, Hr in Hs.
  discriminate Hs.
Qed.

Lemma first_rows_complete (cols : list string) (rs : list (Z * row))
    (seen : list (list cell)) (r : Z * row) :
  In r rs ->
  existsb (cells_same (row_cells cols (snd r))) seen = true \/
  existsb (same_row cols r) (first_rows cols seen rs) = true.
Proof.
  revert seen. induction rs as [|[i x] rs IH]; intros seen H; [contradiction|].
  cbn [first_rows].
  destruct (existsb (cells_same (row_cells cols x)) seen) eqn:E.
  - destruct H as [<-|H]; [left; exact E | apply IH, H].
  - cbn [existsb]. destruct H as [<-|H].
    + right. unfold same_row at 1. rewrite cells_same_refl. reflexivity.
    + destruct (IH (row_cells cols x :: seen) H) as [H1|H1].
      * cbn [existsb] in H1. apply orb_true_iff in H1. destruct H1 as [H1|H1].
        -- right. unfold same_row at 1. cbn [snd]. rewrite H1. reflexivity.
        -- left. exact H1.
      * right. rewrite H1. apply orb_true_r.
Qed.

Lemma cell_same_trans (a b c : cell) :
  cell_same a b = true -> cell_same b c = true -> cell_same a c = true.
Proof.
  destruct a, b; simpl; try discriminate; destruct c; simpl; try discriminate;
    try reflexivity.
  - rewrite !String.eqb_eq. intros -> ->. reflexivity.
  - rewrite !Z.eqb_eq. intros -> ->. reflexivity.
Qed.

Lemma cells_same_trans (a b c : list cell) :
  cells_same a b = true -> cells_same b c = true -> cells_same a c = true.
Proof.
  revert b c. induction a as [|x a IH]; intros [|y b] [|z c]; simpl;
    try discriminate; try reflexivity.
  rewrite !andb_true_iff. intros [H1 H2] [H3 H4]. split.
  - apply (cell_same_trans x y z H1 H3).
  - apply (IH b c H2 H4).
Qed.

(** Comparing with the rows kept so far is comparing with all the rows
    passed so far: [drop_duplicates] keeps the rows that no earlier row
    equals. *)
Lemma first_rows_earliest (cols : list string) (rs before : list (Z * row))
    (seen : list (list cell)) :
  (forall c, existsb (cells_same c) seen
             = existsb (fun b => cells_same c (row_cells cols (snd b))) before) ->
  first_rows cols seen rs = earliest cols before rs.
Proof.
  revert before seen. induction rs as [|[i x] rs IH]; intros before seen Hinv;
    [reflexivity|].
  cbn [first_rows earliest]. unfold same_row at 1. cbn [snd]. rewrite <- Hinv.
  destruct (existsb (cells_same (row_cells cols x)) seen) eqn:E; cbn [app].
  - apply IH. intros c. cbn [existsb snd]. rewrite <- Hinv.
    destruct (cells_same c (row_cells cols x)) eqn:C; [|reflexivity].
    cbn [orb]. apply existsb_exists in E. destruct E as [s [Hs Es]].
    apply existsb_exists. exists s. split; [exact Hs|].
    apply (cells_same_trans c (row_cells cols x) s C Es).
  - f_equal. apply IH. intros c. cbn [existsb snd]. rewrite Hinv. reflexivity.
Qed.

Section Geographies.
Variable w : World.
Variable indicator_id : pyval.
Hypothesis indicator_hashable : hashable indicator_id = true.

Lemma geography_fetch (area : pyval) (t : DataFrame) :
  answered w (base_url ++ indicator_data_url indicator_id area (PInt 15)) t ->
  outcome (get_data_by_indicator_ids w indicator_id area (PInt 15) PNone PNone false)
  = Ok (t, None).
Proof.
  intros H.
  assert (Hids : ids_well_typed indicator_id = true).
  { destruct indicator_id; try reflexivity. discriminate indicator_hashable. }
  rewrite (data_by_ids_eq w indicator_id area (PInt 15) PNone PNone false Hids eq_refl).
  cbn [truthy]. rewrite !append_empty_r.
  destruct H as [H|[Hu [body [Hb Ht]]]].
  - rewrite (fetch_strict w _ t H). reflexivity.
  - rewrite (fetch_relaxed w _ URLError eq_refl Hu). unfold relaxed_table.
    rewrite Hb. cbn [rbind]. rewrite Ht. reflexivity.
Qed.

Lemma geography_loop (areas : list pyval) (tables : list DataFrame) (df0 : DataFrame) :
  Forall2 (fun area t =>
             answered w (base_url ++ indicator_data_url indicator_id area (PInt 15)) t)
          areas tables ->
  outcome (for_each areas
             (fun df area =>
                '(df_temp, _) <- get_data_by_indicator_ids w indicator_id area (PInt 15)
                                   PNone PNone false ;;
                ret (pd_concat df df_temp))
             df0)
  = Ok (fold_left pd_concat tables df0).
Proof.
  intros H. revert df0. induction H as [|area t areas tables Ha _ IH]; intros df0.
  - reflexivity.
  - cbn [for_each fold_left]. rewrite !outcome_bind, (geography_fetch area t Ha).
    cbn [outcome ret fst]. apply IH.
Qed.
End Geographies.

(** X22. The data of an indicator at all its geographies: when the areas
    recorded for the indicator are all answered, the result is made of the
    tables of those areas, put together in the order recorded, without the
    repeated rows: its rows are the rows of that table that are equal to
    no row before them, in the order of that table.  So no two rows of the
    result are equal, every row of the result is a row of one of the
    tables with the index label it had there, and every row of the tables
    is equal to a row of the result. *)
Theorem geographies_without_duplicates (w : World) (indicator_id : pyval) (d : pydict)
    (l : list request) (areas : list pyval) (tables : list DataFrame) :
  get_all_areas_for_all_indicators w = (Ok (PDict d), l) ->
  hashable indicator_id = true ->
  dict_lookup d indicator_id = Some (PList areas) ->
  Forall2 (fun area t =>
             answered w (base_url ++ indicator_data_url indicator_id area (PInt 15)) t)
          areas tables ->
  let all := fold_left pd_concat tables empty_frame in
  exists df,
    outcome (get_data_for_indicator_at_all_available_geographies w indicator_id) = Ok df /\
    columns df = columns all /\
    rows_distinct (columns df) (rows df) = true /\
    (forall r, In r (rows df) -> In r (rows all)) /\
    (forall r, In r (rows all) -> existsb (same_row (columns df) r) (rows df) = true) /\
    rows df = earliest (columns all) [] (rows all) /\
    rows all = concat (map rows tables).
Proof.
  intros Hd Hh Hl Ha all. exists (drop_duplicates all).
  split; [|split; [reflexivity|split; [|split; [|split; [|split]]]]].
  - unfold get_data_for_indicator_at_all_available_geographies.
    rewrite Hd, outcome_bind. cbn [outcome fst py_get]. rewrite Hh, Hl.
    rewrite bind_lift_ok. cbn [py_iter]. rewrite bind_lift_ok, outcome_bind.
    rewrite (geography_loop w indicator_id Hh areas tables empty_frame Ha).
    reflexivity.
  - apply first_rows_distinct.
  - intros r H. apply (first_rows_in _ _ _ _ H).
  - intros r H. cbn [drop_duplicates columns rows].
    destruct (first_rows_complete (columns all) (rows all) [] r H) as [E|E];
      [discriminate E | exact E].
  - cbn [drop_duplicates rows]. apply first_rows_earliest. intros c. reflexivity.
  - unfold all. clear.
    assert (G : forall df0, rows (fold_left pd_concat tables df0)
                            = (rows df0 ++ concat (map rows tables))%list).
    { induction tables as [|t ts IH]; intros df0; cbn [fold_left map concat].
      - rewrite app_nil_r. reflexivity.
      - rewrite IH. cbn [pd_concat rows]. rewrite <- app_assoc. reflexivity. }
    apply (G empty_frame).
Qed.

Lemma geographies_without_duplicates_witness :
  exists df,
    outcome (get_data_for_indicator_at_all_available_geographies geography_world (PInt 5))
    = Ok df /\
    rows_distinct (columns df) (rows df) = true /\
    rows df = rows two_rows.
Proof.
  destruct (geographies_without_duplicates geography_world (PInt 5)
              [(PInt 3, PList [PInt 102]); (PInt 5, PList [PInt 7; PInt 102; PNone])]
              [RequestsGet true (base_url ++ "available_data")]
              [PInt 7; PInt 102; PNone] [two_rows; two_rows; two_rows]
              eq_refl eq_refl eq_refl) as [df [E [_ [D [_ [_ [R _]]]]]]].
  - repeat (apply Forall2_cons; [left; reflexivity|]). apply Forall2_nil.
  - exists df. split; [exact E|]. split; [exact D|]. rewrite R. reflexivity.
Defined.

(** X23. An indicator that the available data does not record is not
    reported as such: on a response whose identifiers are integers, an
    identifier given as text, or an integer that the response does not
    hold, ends in [TypeError], after the one request for the available
    data and before any request for data. *)
Theorem geographies_unknown_indicator (w : World) (items : list pyval) (ns0 : list Z)
    (l : list request) (indicator_id : pyval) :
  get_json w (base_url ++ "available_data") = (Ok (PList items), l) ->
  Forall2 (fun item n => indicator_of item = Some n) items ns0 ->
  isinstance_str indicator_id = true \/
  (exists n, indicator_id = PInt n /\ ~ In n ns0) ->
  get_data_for_indicator_at_all_available_geographies w indicator_id
  = (Raise TypeError, l).
Proof.
  intros Hj Hitems Hid.
  destruct (area_dict_of_response w items ns0 l Hj Hitems) as [ns [E [_ Hi]]].
  unfold get_data_for_indicator_at_all_available_geographies. rewrite E, bind_ok.
  assert (L : py_get (PDict (map (fun n => (PInt n, PList (area_types_of n items))) ns))
                indicator_id = Ok PNone).
  { destruct Hid as [Hs|[n [-> Hn]]].
    - destruct indicator_id; try discriminate Hs. cbn [py_get hashable].
      replace (dict_lookup _ _) with (@None pyval); [reflexivity|].
      clear. induction ns as [|m ns IH]; [reflexivity|]. cbn [map dict_lookup key_eqb].
      exact IH.
    - cbn [py_get hashable].
      rewrite (dict_lookup_ints_absent (fun m => area_types_of m items) PList);
        [reflexivity|]. intros H. apply Hn, Hi, H. }
  rewrite L, bind_lift_ok. cbn [py_iter lift bind outcome log fst snd app].
  rewrite app_nil_r. reflexivity.
Qed.

Lemma geographies_unknown_indicator_witness :
  get_data_for_indicator_at_all_available_geographies geography_world (PStr "5")
  = (Raise TypeError, [RequestsGet true (base_url ++ "available_data")]).
Proof.
  apply (geographies_unknown_indicator geography_world
           [PDict [(PStr "IndicatorId", PInt 5); (PStr "AreaTypeId", PInt 7)];
            PDict [(PStr "IndicatorId", PInt 3); (PStr "AreaTypeId", PInt 102)];
            PDict [(PStr "IndicatorId", PInt 5); (PStr "AreaTypeId", PInt 102)];
            PDict [(PStr "IndicatorId", PInt 5)]]
           [5; 3; 5; 5]%Z _ (PStr "5") eq_refl).
  - repeat (apply Forall2_cons; [reflexivity|]). apply Forall2_nil.
  - left. reflexivity.
Defined.

(** ** The [is_test] flag *)

Lemma tested_only_adds_address {A} (m : M A) (url : string) :
  only_adds_address (fun is_test => a <- m ;; ret (tested is_test a url)) url.
Proof.
  unfold only_adds_address. destruct m as [[a|e] l]; cbn; [|split; reflexivity].
  split; [reflexivity|]. split; reflexivity.
Qed.

Lemma tested_lookup_only_adds_address {A B} (m : M A) (f : A -> result B) (url : string) :
  only_adds_address
    (fun is_test => a <- m ;; b <- lift (f a) ;; ret (tested is_test b url)) url.
Proof.
  unfold only_adds_address. destruct m as [[a|e] l]; cbn; [|split; reflexivity].
  destruct (f a) as [b|e]; cbn; [|split; reflexivity].
  split; [reflexivity|]. split; reflexivity.
Qed.

(** X24. In the operations of the metadata that have the [is_test] flag,
    save the metadata of one indicator, the flag changes nothing of what
    is requested, of the value or of the error: it only adds the address,
    which is the one written here for each operation. *)
Theorem is_test_only_adds_address (w : World) :
  only_adds_address (get_all_ages w) (base_url ++ "ages") /\
  only_adds_address (get_all_areas w) (base_url ++ "area_types") /\
  (forall age, only_adds_address (get_age_id w age) (base_url ++ "ages")) /\
  (forall age_id, only_adds_address (get_age_from_id w age_id) (base_url ++ "ages")) /\
  only_adds_address (get_all_sexes w) (base_url ++ "sexes") /\
  (forall sex, only_adds_address (get_sex_id w sex) (base_url ++ "sexes")) /\
  (forall sex_id, only_adds_address (get_sex_from_id w sex_id) (base_url ++ "sexes")) /\
  only_adds_address (get_all_value_notes w) (base_url ++ "value_notes") /\
  (forall value_note,
      only_adds_address (get_value_note_id w value_note) (base_url ++ "value_notes")) /\
  (forall area_type_id,
      only_adds_address (get_areas_for_area_type w area_type_id)
        (base_url ++ "areas/by_area_type?area_type_id=" ++ py_str area_type_id)) /\
  only_adds_address (get_metadata_for_all_indicators_from_csv w)
    (base_url ++ "indicator_metadata/csv/all") /\
  (forall include_definition include_system_content,
      only_adds_address
        (get_metadata_for_all_indicators w include_definition include_system_content)
        (base_url ++ "indicator_metadata/all?include_definition="
                  ++ (if truthy include_definition then "yes" else "no")
                  ++ "&include_system_content="
                  ++ (if truthy include_system_content then "yes" else "no"))) /\
  only_adds_address (get_area_types_as_dict w) (base_url ++ "area_types") /\
  (forall profile_id,
      only_adds_address (get_profile_by_id w profile_id)
        (base_url ++ "profile?profile_id=" ++ py_str profile_id)) /\
  only_adds_address (get_all_profiles w) (base_url ++ "profiles") /\
  (forall profile_id,
      only_adds_address (get_area_types_for_profile w profile_id)
        (base_url ++ "area_types?profile_ids=" ++ py_str profile_id)) /\
  (forall indicator_ids,
      only_adds_address (get_metadata_for_indicator_as_dataframe w indicator_ids)
        (base_url ++ "indicator_metadata/csv/by_indicator_id?indicator_ids="
                  ++ indicator_ids_text indicator_ids)) /\
  (forall group_ids,
      only_adds_address (get_metadata_for_domain_as_dataframe w group_ids)
        (base_url ++ "indicator_metadata/csv/by_group_id?group_id=" ++ py_str group_ids)).
Proof.
  repeat split; intros;
    first [ apply tested_only_adds_address
          | apply tested_lookup_only_adds_address
          | destruct indicator_ids; apply tested_only_adds_address ].
Qed.

(** ** The domains of a profile *)

(** X25. The domains of a profile are the [GroupIds] field of what
    [get_profile_by_id] returns, after the same single request; a profile
    object without that field raises [KeyError] rather than giving [None],
    and a response that is a list raises [TypeError]. *)
Theorem domains_of_profile (w : World) (profile_id : pyval) (l : list request) :
  let url := base_url ++ "profile?profile_id=" ++ py_str profile_id in
  (forall o,
      get_json w url = (Ok (PDict o), l) ->
      get_profile_by_id w profile_id false = (Ok (PDict o, None), l) /\
      get_domains_in_profile w profile_id
      = (match dict_lookup o (PStr "GroupIds") with
         | Some group_ids => Ok group_ids
         | None => Raise (KeyError (PStr "GroupIds"))
         end, l)) /\
  (forall items,
      get_json w url = (Ok (PList items), l) ->
      get_domains_in_profile w profile_id = (Raise TypeError, l)).
Proof.
  intros url. split.
  - intros o H. unfold get_domains_in_profile, get_profile_by_id. fold url. rewrite H.
    cbn. rewrite !app_nil_r. split; [reflexivity|].
    destruct (dict_lookup o (PStr "GroupIds")); reflexivity.
  - intros items H. unfold get_domains_in_profile, get_profile_by_id. fold url. rewrite H.
    cbn. rewrite !app_nil_r. reflexivity.
Qed.

Lemma domains_of_profile_witness :
  get_domains_in_profile sample_world (PInt 1)
  = (Raise TypeError, [RequestsGet true (base_url ++ "profile?profile_id=1")]).
Proof.
  apply (proj2 (domains_of_profile sample_world (PInt 1)
                  [RequestsGet true (base_url ++ "profile?profile_id=1")]) []).
  reflexivity.
Defined.
